(** * PetAlert backend: reports, matches and search routers

    A shallow embedding of the request handlers of the backend
    (routers/reports.py, routers/matches.py, routers/ai_search.py,
    routers/embeddings_supabase.py, hf-upload/routers/direct_matches.py,
    services/embeddings_hf_api.py, hf-upload/services/embeddings.py and
    hf-upload/main.py) together with the properties their specification
    states.

    Conventions of the embedding:
    - A finite Python float is a real number ([R]), and the arithmetic on
      finite floats is the exact one: overflow, underflow and the rounding
      error of the hardware are outside the model. Where a handler can
      meet a float that is not finite (a text read by [float], a division
      by zero in the tensor library) the value is a [Py.number].
    - What [round] does at a decimal tie and what [str.lower] does on a
      text are fixed by the interpreter and by the binary value of the
      float; the handlers take them from [Py.Builtins], and their
      properties hold for every instance.
    - A database table is the list of its rows, in the order the platform
      client returns them; the client is assumed reachable unless a
      definition takes its outcome as an argument.
    - A raised Python exception is the [Raise] outcome of [py]; a handler
      answers either with a body ([Ok]) or with an [HTTPException]. *)

From Stdlib Require Import Reals Lra Lia ZArith List String Ascii Bool.
From Stdlib Require Import Sorting.Sorted Sorting.Permutation.
From stdpp Require Import gmap strings pretty.
Import ListNotations.

(** * Python primitives *)

Module Py.

(** Outcome of a Python call: a value, or a raised exception, of which
    the model keeps a text: the class name, or [str(e)] where the text is
    given by the sources. *)
Inductive py (A : Type) : Type :=
| Return (a : A)
| Raise (exc : string).
Arguments Return {A} a.
Arguments Raise {A} exc.

Definition bind {A B} (m : py A) (k : A -> py B) : py B :=
  match m with
  | Return a => k a
  | Raise e => Raise e
  end.

(** Outcome of a FastAPI handler. An exception that escapes the handler
    is answered by the framework with status 500. *)
Inductive response (A : Type) : Type :=
| Ok (body : A)
| HTTPException (status_code : nat) (detail : string).
Arguments Ok {A} body.
Arguments HTTPException {A} status_code detail.

Definition status_code_of {A} (r : response A) : nat :=
  match r with
  | Ok _ => 200
  | HTTPException c _ => c
  end.

(** ** Builtins fixed by the interpreter

    [str_lower] is [str.lower] on a non-empty text: it lowers every cased
    character, ASCII or not. [round_up_at_tie y] tells whether [round]
    goes up when the scaled value [y] lies halfway between two integers:
    Python decides this on the binary value of the float, which for
    30.15 lies below the tie and for 0.125 on it. *)
Class Builtins : Type := {
  str_lower : string -> string;
  round_up_at_tie : R -> bool
}.

Section Builtin.
Context {builtins : Builtins}.

(** [s.lower()] *)
Definition lower (s : string) : string :=
  match s with
  | EmptyString => EmptyString
  | String _ _ => str_lower s
  end.

(** The integer nearest to [y]. *)
Definition round_nearest (y : R) : Z :=
  let f := Int_part y in
  let r := (y - IZR f)%R in
  if Rlt_dec r (1 / 2) then f
  else if Rlt_dec (1 / 2) r then (f + 1)%Z
  else if round_up_at_tie y then (f + 1)%Z else f.

(** [round(x, ndigits)]: the nearest multiple of [10 ** -ndigits]. *)
Definition round (x : R) (ndigits : nat) : R :=
  (IZR (round_nearest (x * 10 ^ ndigits)) / 10 ^ ndigits)%R.

End Builtin.

(** ** [xs[:k]] for an integer [k], negative [k] counting from the end. *)

Definition slice_to {A} (k : Z) (xs : list A) : list A :=
  if (0 <=? k)%Z then firstn (Z.to_nat k) xs
  else firstn (length xs - Z.to_nat (- k)) xs.

(** ** [list.sort(key=...)]: a stable sort.

    [sort_by le_dec] with [le x y := key x <= key y] is
    [sort(key=key)]; with [le x y := key y <= key x] it is
    [sort(key=key, reverse=True)], which keeps equal keys in their
    original order as well. *)

Section StableSort.
Context {A : Type} (le : A -> A -> Prop).
Context (le_dec : forall x y, {le x y} + {~ le x y}).

Fixpoint insert_by (x : A) (l : list A) : list A :=
  match l with
  | [] => [x]
  | y :: l' => if le_dec x y then x :: y :: l' else y :: insert_by x l'
  end.

Fixpoint sort_by (l : list A) : list A :=
  match l with
  | [] => []
  | x :: l' => insert_by x (sort_by l')
  end.
End StableSort.

(** ** String helpers: [in], [str.split(sep)], [str.split()]. *)

Fixpoint prefix (p s : string) : bool :=
  match p, s with
  | EmptyString, _ => true
  | String a p', String b s' => if Ascii.eqb a b then prefix p' s' else false
  | String _ _, EmptyString => false
  end.

(** [sub in s] *)
Fixpoint contains (sub s : string) : bool :=
  prefix sub s ||
  match s with
  | EmptyString => false
  | String _ s' => contains sub s'
  end.

(** [split_on sep s] is [s.split(sep)] for a non-empty [sep]: [skip]
    counts the characters of a separator still to be consumed and [cur]
    is the segment read so far. *)
Fixpoint split_aux (sep : string) (skip : nat) (cur : string) (s : string)
  : list string :=
  match s with
  | EmptyString => [cur]
  | String c s' =>
      match skip with
      | S k => split_aux sep k cur s'
      | O =>
          if prefix sep s
          then cur :: split_aux sep (String.length sep - 1) EmptyString s'
          else split_aux sep O (cur ++ String c EmptyString) s'
      end
  end.

Definition split_on (sep s : string) : list string :=
  split_aux sep 0 EmptyString s.

Definition is_space (c : ascii) : bool :=
  let n := nat_of_ascii c in
  ((9 <=? n) && (n <=? 13)) || ((28 <=? n) && (n <=? 32)).

(** [s.split()]: the maximal runs of non-whitespace characters. *)
Fixpoint split_ws_aux (cur : string) (s : string) : list string :=
  match s with
  | EmptyString => if String.eqb cur EmptyString then [] else [cur]
  | String c s' =>
      if is_space c
      then (if String.eqb cur EmptyString then split_ws_aux EmptyString s'
            else cur :: split_ws_aux EmptyString s')
      else split_ws_aux (cur ++ String c EmptyString) s'
  end.

Definition split_ws (s : string) : list string := split_ws_aux EmptyString s.

(** ** The builtins on ASCII texts and exact decimals

    [str.lower] restricted to texts of ASCII characters, and [round] with
    ties to even. The handlers are evaluated with them on sample data
    whose texts are ASCII and whose floats are not at a tie. *)

Definition lower_ascii (c : ascii) : ascii :=
  let n := nat_of_ascii c in
  if (65 <=? n) && (n <=? 90) then ascii_of_nat (n + 32) else c.

Fixpoint ascii_lower (s : string) : string :=
  match s with
  | EmptyString => EmptyString
  | String c s' => String (lower_ascii c) (ascii_lower s')
  end.

Definition ascii_half_even : Builtins :=
  {| str_lower := ascii_lower;
     round_up_at_tie := fun y => negb (Z.even (Int_part y)) |}.

(** ** Comparisons of floats as booleans *)

Definition Rleb (x y : R) : bool := if Rle_dec x y then true else false.
Definition Rltb (x y : R) : bool := if Rlt_dec x y then true else false.

(** ** JSON values of a request body *)

Unset Elimination Schemes.
Inductive json : Type :=
| JNull
| JBool (b : bool)
| JNum (x : R)
| JStr (s : string)
| JArr (items : list json)
| JObj (members : list (string * json)).
Set Elimination Schemes.

(** [key in d] for a dict given by its items *)
Definition has_key (key : string) (d : list (string * json)) : bool :=
  existsb (fun kv => String.eqb (fst kv) key) d.

(** ** Floats that need not be finite

    What [float(text)] returns and what the tensor library computes. A
    number of a JSON document is finite. *)
Inductive number : Type :=
| Finite (x : R)
| Infinity (negative : bool)
| NaN.

(** [x / y] on the floats of the tensor library, where a division by
    zero does not raise. *)
Definition true_divide (x y : R) : number :=
  if Req_dec_T y 0 then
    if Req_dec_T x 0 then NaN else Infinity (Rltb x 0)
  else Finite (x / y).

(** ** The platform client: [.single().execute()] raises unless the
    query selects exactly one row. *)
Definition single {A} (rows : list A) : py A :=
  match rows with
  | [row] => Return row
  | _ => Raise "APIError"
  end.

(** ** A reader of plain decimal literals ([-58.3816], [12], [.5]) and
    of the texts [inf], [-inf] and [nan]: an instance of Python's [float]
    on the texts it accepts. *)

Definition digit_of (c : ascii) : option Z :=
  let n := nat_of_ascii c in
  if (48 <=? n) && (n <=? 57) then Some (Z.of_nat (n - 48)) else None.

(** reads the leading digits of [s]: their value on top of [acc], how
    many were read, and the rest of the text *)
Fixpoint read_digits (acc : Z) (count : nat) (s : string) : Z * nat * string :=
  match s with
  | EmptyString => (acc, count, s)
  | String c s' =>
      match digit_of c with
      | Some d => read_digits (10 * acc + d)%Z (S count) s'
      | None => (acc, count, s)
      end
  end.

Definition unsigned_decimal (s : string) : option R :=
  let '(i, ni, rest) := read_digits 0 0 s in
  match rest with
  | EmptyString => if (0 <? ni) then Some (IZR i) else None
  | String c rest' =>
      if Ascii.eqb c "."%char then
        let '(f, nf, rest'') := read_digits 0 0 rest' in
        match rest'' with
        | EmptyString =>
            if (0 <? ni + nf)
            then Some (IZR i + IZR f / 10 ^ nf)%R
            else None
        | String _ _ => None
        end
      else None
  end.

Definition signed_decimal (s : string) : option R :=
  match s with
  | String c s' =>
      if Ascii.eqb c "-"%char then option_map Ropp (unsigned_decimal s')
      else if Ascii.eqb c "+"%char then unsigned_decimal s'
      else unsigned_decimal s
  | EmptyString => None
  end.

Definition decimal_float (s : string) : option number :=
  if String.eqb s "inf" || String.eqb s "+inf" then Some (Infinity false)
  else if String.eqb s "-inf" then Some (Infinity true)
  else if String.eqb s "nan" then Some NaN
  else option_map Finite (signed_decimal s).

End Py.

(** * Geometry shared by the routers

    [haversine_km] is defined three times in the sources (reports.py,
    matches.py, ai_search.py) with the same body, and [_coords] twice
    (matches.py, ai_search.py); one definition stands for the copies. *)

Module Geo.
Import Py.
Local Open Scope R_scope.

(** A value met where a coordinate is expected: a number (a JSON number,
    which is finite, or a boolean, which Python's arithmetic reads as 0
    or 1), or a value of another type (a text, null, an array, an
    object). *)
Inductive member : Type :=
| MNumber (x : R)
| MOther.

(** The [coordinates] member of a GeoJSON object, as the destructuring
    [lon, lat = ...] sees it: the values it iterates over (the members of
    an array, the characters of a text, the keys of an object), or a
    value that cannot be iterated (a number, a boolean, null). *)
Inductive coordinates : Type :=
| Sequence (items : list member)
| NotIterable.

(** The [location] column of a report as the routers see it: a PostGIS
    text, a JSON object with or without a [coordinates] member, or
    anything else (null, a number, an array). *)
Inductive location_data : Type :=
| LocNone
| LocStr (s : string)
| LocDict (coordinates : option coordinates).

(** A coordinate returned by the extractor of reports.py: a float read
    from a text, which need not be finite, or a member of a
    [coordinates] value. *)
Inductive value : Type :=
| VFloat (x : number)
| VOther.

Definition of_member (m : member) : value :=
  match m with
  | MNumber x => VFloat (Finite x)
  | MOther => VOther
  end.

(** [math.radians] *)
Definition radians (deg : R) : R := deg * (PI / 180).

Definition haversine_km (lat1 lon1 lat2 lon2 : R) : R :=
  let R_km := 6371 in
  let dlat := radians (lat2 - lat1) in
  let dlon := radians (lon2 - lon1) in
  let a := sin (dlat / 2) ^ 2
           + cos (radians lat1) * cos (radians lat2) * sin (dlon / 2) ^ 2 in
  2 * R_km * asin (sqrt a).

(** [haversine_km] called on members of a [coordinates] value: the
    subtractions raise on a value that is not a number. *)
Definition haversine_members (lat1 lon1 lat2 lon2 : member) : py R :=
  match lat1, lon1, lat2, lon2 with
  | MNumber lat1, MNumber lon1, MNumber lat2, MNumber lon2 =>
      Return (haversine_km lat1 lon1 lat2 lon2)
  | _, _, _, _ => Raise "TypeError"
  end.

(** [haversine_km] from a finite point to what the extractor of
    reports.py returned: the subtractions raise on a value that is not a
    number, [math.sin] raises on an infinity, and a NaN goes through every
    operation to the result, which is [None] here. *)
Definition haversine_values (lat1 lon1 : R) (lat2 lon2 : value)
  : py (option R) :=
  match lat2, lon2 with
  | VOther, _ | _, VOther => Raise "TypeError"
  | VFloat (Infinity _), _ | _, VFloat (Infinity _) => Raise "ValueError"
  | VFloat NaN, _ | _, VFloat NaN => Return None
  | VFloat (Finite lat2), VFloat (Finite lon2) =>
      Return (Some (haversine_km lat1 lon1 lat2 lon2))
  end.

(** matches.py and ai_search.py: the destructuring [lon, lat = ...] is
    not guarded, so it raises unless it iterates over exactly two
    values, whatever they are. *)
Definition _coords (loc : location_data) : py (option (member * member)) :=
  match loc with
  | LocDict (Some (Sequence coordinates)) =>
      match coordinates with
      | [lon; lat] => Return (Some (lat, lon))
      | _ => Raise "ValueError"
      end
  | LocDict (Some NotIterable) => Raise "TypeError"
  | _ => Return None
  end.

End Geo.

(** * Rows of the [reports] and [matches] tables *)

(** A labels entry is a JSON object with text members; it is falsy
    exactly when it has no member. *)
Definition label_item : Type := list (string * string).

(** The [labels] column: null, a bare array, or an object whose [labels]
    member, when it is an array, lists the entries. *)
Inductive labels_json : Type :=
| LabelsNull
| LabelsList (items : list label_item)
| LabelsDict (labels : option (list label_item)).

Module Report.
Record report : Type := mk {
  id : string;
  type : string;
  status : string;
  species : string;
  location : Geo.location_data;
  labels : labels_json;
  photos : list string;
  (** seconds since the epoch when the timestamp parses to an aware
      datetime, [None] otherwise *)
  created_at : option Z;
  (** present on the rows returned by [search_similar_reports] *)
  similarity : option R;
  colors : list string;
  (** the [embedding] column, already decoded; [None] when null *)
  embedding : option (list R);
  (** attached by [get_nearby_reports] *)
  distance_km : option R
}.

Definition set_distance_km (d : R) (r : report) : report :=
  mk (id r) (type r) (status r) (species r) (location r) (labels r)
     (photos r) (created_at r) (similarity r) (colors r) (embedding r)
     (Some d).
End Report.

Module Match.
Record match_row : Type := mk {
  id : nat;
  lost_report_id : string;
  found_report_id : string;
  similarity_score : R;
  matched_by : string;
  status : string
}.
End Match.

(** The [matches] table and the three statements the routers issue on it.
    Row identifiers are generated by the database; [fresh_id] stands for
    that generator. *)
Module MatchesTable.
Definition matches : Type := list Match.match_row.

Definition fresh_id (tbl : matches) : nat :=
  S (list_max (List.map Match.id tbl)).

(** [select(...).eq("lost_report_id", l).eq("found_report_id", f)] *)
Definition select_pair (l f : string) (tbl : matches)   : list Match.match_row :=
  List.filter
    (fun m => String.eqb (Match.lost_report_id m) l
              && String.eqb (Match.found_report_id m) f) tbl.

(** [insert({...})]: the new row is appended under a fresh id. *)
Definition insert (l f : string) (score : R) (by_ st : string) (tbl : matches) : matches :=
  tbl ++ [Match.mk (fresh_id tbl) l f score by_ st].

(** [update(f).eq("id", i)]: returns the table and the rows changed. *)
Definition update (f : Match.match_row -> Match.match_row) (i : nat) (tbl : matches)
  : matches * list Match.match_row :=
  (List.map (fun m => if Nat.eqb (Match.id m) i then f m else m) tbl,
   List.map f (List.filter (fun m => Nat.eqb (Match.id m) i) tbl)).
End MatchesTable.

(** * routers/reports.py *)

Module Reports.
Import Py Geo.
Local Open Scope R_scope.

Section Coordinates.
Context {builtins : Builtins}.
(** Python's [float] on a text: the number read, or [None] when it raises
    [ValueError]. *)
Variable float : string -> option number.

(** Each branch runs inside a [try] whose [except] returns [None]; the
    members of a two-element [coordinates] value are returned as they
    are. *)
Definition _extract_coords (location_data : location_data)
  : option (value * value) :=
  match location_data with
  | LocNone => None
  | LocStr s =>
      if String.eqb s EmptyString then None
      else if contains "POINT(" s then
        match split_on "POINT(" s with
        | _ :: after :: _ =>
            match split_on ")" after with
            | coords_str :: _ =>
                match List.map float (split_ws coords_str) with
                | [Some lon; Some lat] => Some (VFloat lat, VFloat lon)
                | _ => None
                end
            | [] => None
            end
        | _ => None
        end
      else None
  | LocDict (Some (Sequence [lon; lat])) => Some (of_member lat, of_member lon)
  | LocDict _ => None
  end.

(** One turn of the loop of [get_nearby_reports]: the report with its
    rounded distance attached when it is kept. A NaN distance fails the
    comparison with the radius. *)
Definition nearby_report (lat lng radius_km : R) (report : Report.report)
  : py (option Report.report) :=
  match _extract_coords (Report.location report) with
  | Some (report_lat, report_lon) =>
      bind (haversine_values lat lng report_lat report_lon) (fun distance =>
      match distance with
      | Some distance =>
          if Rle_dec distance radius_km
          then Return (Some (Report.set_distance_km (round distance 2) report))
          else Return None
      | None => Return None
      end)
  | None => Return None
  end.

(** The loop (lines 439-447): an exception raised for a report ends it. *)
Fixpoint nearby_reports_of (lat lng radius_km : R) (result : list Report.report)
  : py (list Report.report) :=
  match result with
  | [] => Return []
  | report :: rest =>
      bind (nearby_report lat lng radius_km report) (fun kept =>
      bind (nearby_reports_of lat lng radius_km rest) (fun nearby =>
      Return (match kept with
              | Some report => report :: nearby
              | None => nearby
              end)))
  end.

(** [x["distance_km"]], the sort key *)
Definition distance_key (x : Report.report) : R :=
  match Report.distance_km x with
  | Some d => d
  | None => 0
  end.

Definition distance_le (x y : Report.report) : Prop :=
  distance_key x <= distance_key y.

Definition distance_le_dec (x y : Report.report)
  : {distance_le x y} + {~ distance_le x y} :=
  Rle_dec (distance_key x) (distance_key y).

Definition is_active (r : Report.report) : bool :=
  String.eqb (Report.status r) "active".

Record nearby_response : Type := {
  nearby_reports : list Report.report;
  nearby_count : nat
}.

(** [radius_km] is [None] when the query string leaves it out. The body
    runs inside a [try] whose [except Exception] answers 500 with the
    text of the exception. *)
Definition get_nearby_reports (db : list Report.report) (lat lng : R)
    (radius_km : option R) : response nearby_response :=
  let radius_km := match radius_km with Some r => r | None => 10 end in
  let result := List.filter is_active db in
  match nearby_reports_of lat lng radius_km result with
  | Raise e => HTTPException 500 ("Error obteniendo reportes cercanos: " ++ e)
  | Return nearby =>
      let nearby := sort_by distance_le distance_le_dec nearby in
      Ok {| nearby_reports := nearby; nearby_count := length nearby |}
  end.

End Coordinates.

Section Saving.
Context {builtins : Builtins}.

(** ** [find_and_save_matches] *)

Definition dot (u v : list R) : py R :=
  if Nat.eqb (length u) (length v)
  then Return (fold_right Rplus 0 (List.map (fun p => fst p * snd p) (combine u v)))
  else Raise "ValueError".

Definition opposite_type (report_type : string) : string :=
  if String.eqb report_type "lost" then "found" else "lost".

(** The candidate loop: the pairs (candidate id, similarity) at or above
    the threshold; a candidate whose vector cannot be multiplied with
    the base vector is skipped. *)
Definition matches_found (base_vec : list R) (threshold : R)
    (candidates : list Report.report) : list (string * R) :=
  omap (fun candidate =>
          match Report.embedding candidate with
          | None | Some [] => None
          | Some candidate_vec =>
              match dot base_vec candidate_vec with
              | Return similarity =>
                  if Rge_dec similarity threshold
                  then Some (Report.id candidate, similarity)
                  else None
              | Raise _ => None
              end
          end) candidates.

Definition similarity_ge (x y : string * R) : Prop := snd y <= snd x.

Definition similarity_ge_dec (x y : string * R)
  : {similarity_ge x y} + {~ similarity_ge x y} := Rle_dec (snd y) (snd x).

(** The ordered pair of a match: which side is the lost report. *)
Definition ordered_pair (report_id report_type candidate_id : string)
  : string * string :=
  if String.eqb report_type "lost"
  then (report_id, candidate_id)
  else (candidate_id, report_id).

(** One turn of the saving loop (lines 364-412). *)
Definition save_match (report_id report_type : string)
    (tbl : MatchesTable.matches) (m : string * R) : MatchesTable.matches :=
  let '(candidate_id, similarity) := m in
  let '(lost, found) := ordered_pair report_id report_type candidate_id in
  match MatchesTable.select_pair lost found tbl with
  | existing_match :: _ =>
      if Rgt_dec similarity (Match.similarity_score existing_match)
      then fst (MatchesTable.update
                  (fun row => Match.mk (Match.id row) lost found
                                (round similarity 4) "ai_visual" "pending")
                  (Match.id existing_match) tbl)
      else tbl
  | [] =>
      MatchesTable.insert lost found (round similarity 4)
        "ai_visual" "pending" tbl
  end.

Definition find_and_save_matches (db : list Report.report)
    (tbl : MatchesTable.matches) (report_id : string)
    (threshold : R) (max_matches : Z) : MatchesTable.matches :=
  match List.filter (fun r => String.eqb (Report.id r) report_id) db with
  | [] => tbl
  | report :: _ =>
      match Report.embedding report with
      | None | Some [] => tbl
      | Some report_embedding =>
          let report_type := Report.type report in
          let candidates :=
            List.filter
              (fun r => String.eqb (Report.type r) (opposite_type report_type)
                        && is_active r
                        && match Report.embedding r with
                           | Some _ => true
                           | None => false
                           end) db in
          let found := matches_found report_embedding threshold candidates in
          let found := sort_by similarity_ge similarity_ge_dec found in
          let found := slice_to max_matches found in
          fold_left (save_match report_id report_type) found tbl
      end
  end.

(** ** [create_report] *)

Definition required_fields : list string :=
  ["type"; "reporter_id"; "species"; "description"; "location"].

(** The first required field that the body lacks, in the order the loop
    visits them. *)
Fixpoint first_missing (fields : list string)
    (report_data : list (string * json)) : option string :=
  match fields with
  | [] => None
  | field :: rest =>
      if has_key field report_data then first_missing rest report_data
      else Some field
  end.

Record create_response : Type := {
  created_report : list (string * json);
  created_message : string
}.

(** The stored rows are the bodies as sent, under the identifier the
    database generates ([new_id]). Embedding generation, which follows
    the insertion and cannot change the answer, is not part of the
    model. *)
Definition create_report (db : list (list (string * json)))
    (new_id : string) (report_data : list (string * json))
  : response create_response * list (list (string * json)) :=
  match first_missing required_fields report_data with
  | Some field =>
      (HTTPException 400 ("Campo requerido faltante: " ++ field), db)
  | None =>
      let row := ("id"%string, JStr new_id) :: report_data in
      (Ok {| created_report := row;
             created_message := "Reporte creado exitosamente" |},
       db ++ [row])
  end.

(** ** [get_all_reports], [get_report_by_id], [delete_report] *)

(** [order("created_at", desc=True)]: newest first, rows without a
    timestamp before the others. *)
Definition created_at_ge (x y : Report.report) : Prop :=
  match Report.created_at x, Report.created_at y with
  | None, _ => True
  | Some _, None => False
  | Some a, Some b => (b <= a)%Z
  end.

Definition created_at_ge_dec (x y : Report.report)
  : {created_at_ge x y} + {~ created_at_ge x y}.
Proof.
  unfold created_at_ge.
  destruct (Report.created_at x) as [a |], (Report.created_at y) as [b |].
  - apply Z_le_dec.
  - right. intros [].
  - left. exact I.
  - left. exact I.
Defined.

Record list_response : Type := {
  listed_reports : list Report.report;
  listed_count : nat
}.

Definition get_all_reports (db : list Report.report) : list_response :=
  let result := sort_by created_at_ge created_at_ge_dec (List.filter is_active db) in
  {| listed_reports := result; listed_count := length result |}.

Definition get_report_by_id (db : list Report.report) (report_id : string)
  : response Report.report :=
  match List.filter (fun r => String.eqb (Report.id r) report_id) db with
  | report_data :: _ => Ok report_data
  | [] => HTTPException 404 "Reporte no encontrado"
  end.

Definition set_status (st : string) (r : Report.report) : Report.report :=
  Report.mk (Report.id r) (Report.type r) st (Report.species r)
    (Report.location r) (Report.labels r) (Report.photos r)
    (Report.created_at r) (Report.similarity r) (Report.colors r)
    (Report.embedding r) (Report.distance_km r).

(** [update(f).eq("id", report_id)] on the reports: the table and the
    rows changed. *)
Definition update_reports (f : Report.report -> Report.report)
    (report_id : string) (db : list Report.report)
  : list Report.report * list Report.report :=
  (List.map (fun r => if String.eqb (Report.id r) report_id then f r else r) db,
   List.map f (List.filter (fun r => String.eqb (Report.id r) report_id) db)).

Definition delete_report (db : list Report.report) (report_id : string)
  : response string * list Report.report :=
  let '(db', data) := update_reports (set_status "cancelled") report_id db in
  match data with
  | [] => (HTTPException 404 "Reporte no encontrado", db')
  | _ :: _ => (Ok "Reporte eliminado exitosamente"%string, db')
  end.

(** ** [generate_and_save_embedding] *)

(** What one attempt meets before the embedding is written: a timeout
    of the download, any other exception, or the vector of the photo. *)
Inductive attempt_outcome : Type :=
| DownloadTimeout
| AttemptError
| Embedded (vec : list R).

Definition set_embedding (vec : list R) (r : Report.report) : Report.report :=
  Report.mk (Report.id r) (Report.type r) (Report.status r) (Report.species r)
    (Report.location r) (Report.labels r) (Report.photos r)
    (Report.created_at r) (Report.similarity r) (Report.colors r)
    (Some vec) (Report.distance_km r).

Definition max_retries : nat := 3.

(** The loop over [range(max_retries)], [remaining] turns from turn
    [attempt] on: the seconds slept, in order, and the two tables. *)
Fixpoint embedding_attempts (outcome : nat -> attempt_outcome)
    (report_id : string) (remaining attempt : nat)
    (db : list Report.report) (tbl : MatchesTable.matches)
  : list nat * list Report.report * MatchesTable.matches :=
  match remaining with
  | O => ([], db, tbl)
  | S remaining' =>
      let continue_ db tbl :=
        embedding_attempts outcome report_id remaining' (S attempt) db tbl in
      let sleep_then (continue_ : list nat * list Report.report
                                  * MatchesTable.matches) :=
        let '(slept, db, tbl) := continue_ in
        ((2 ^ attempt)%nat :: slept, db, tbl) in
      match outcome attempt with
      | Embedded vec =>
          let '(db', data) := update_reports (set_embedding vec) report_id db in
          match data with
          | _ :: _ => ([], db', find_and_save_matches db' tbl report_id 0.1 10%Z)
          | [] => continue_ db' tbl
          end
      | DownloadTimeout =>
          if Nat.eqb attempt (max_retries - 1) then continue_ db tbl
          else sleep_then (continue_ db tbl)
      | AttemptError =>
          if Nat.ltb attempt (max_retries - 1) then sleep_then (continue_ db tbl)
          else continue_ db tbl
      end
  end.

Definition generate_and_save_embedding (outcome : nat -> attempt_outcome)
    (report_id : string) (db : list Report.report) (tbl : MatchesTable.matches)
  : list nat * list Report.report * MatchesTable.matches :=
  embedding_attempts outcome report_id max_retries 0 db tbl.

End Saving.
End Reports.

(** * routers/matches.py *)

Module Matches.
Import Py Geo.
Local Open Scope R_scope.

Section Handlers.
Context {builtins : Builtins}.

(** [it.get(key)] *)
Definition get (key : string) (it : label_item) : option string :=
  option_map snd (List.find (fun kv => String.eqb (fst kv) key) it).

(** [a or b] on optional texts: the first one that is truthy. *)
Definition or_text (a : option string) (b : string) : string :=
  match a with
  | Some s => if String.eqb s EmptyString then b else s
  | None => b
  end.

(** [bool(it)] for an entry *)
Definition truthy (it : label_item) : bool :=
  match it with
  | [] => false
  | _ :: _ => true
  end.

(** [(it.get("label") or it.get("description") or "").lower()] *)
Definition label_text (it : label_item) : string :=
  lower (or_text (get "label" it)
           (or_text (get "description" it) EmptyString)).

Definition label_set (labels_json : labels_json) : gset string :=
  match labels_json with
  | LabelsNull => ∅
  | LabelsList _ => ∅
  | LabelsDict None => ∅
  | LabelsDict (Some items) =>
      list_to_set (List.map label_text (List.filter truthy items))
  end.

Record match_entry : Type := {
  candidate : Report.report;
  distance_km : R;
  label_overlap : nat;
  score : R
}.

Record auto_match_response : Type := {
  report_id : string;
  radius_km : R;
  total_candidates : nat;
  top_k : list match_entry
}.

(** The overlap and the score of lines 211 and 217. *)
Definition overlap (base_labels : gset string) (c : Report.report) : nat :=
  size (base_labels ∩ label_set (Report.labels c)).

Definition raw_score (overlap : nat) (d : R) : R :=
  INR overlap * 10 - d * 0.2.

(** The test of lines 195-196,
    [base_lat - lat_pad <= lat <= base_lat + lat_pad and
     base_lon - lon_pad <= lon <= base_lon + lon_pad],
    in the order Python evaluates it: a subtraction or a comparison on a
    value that is not a number raises, and the longitudes are not looked
    at when the latitude is outside. *)
Definition in_box (base_lat base_lon : member) (lat_pad lon_pad : R)
    (lat lon : member) : py bool :=
  match base_lat, lat with
  | MNumber base_lat, MNumber lat =>
      if Rleb (base_lat - lat_pad) lat && Rleb lat (base_lat + lat_pad) then
        match base_lon, lon with
        | MNumber base_lon, MNumber lon =>
            Return (Rleb (base_lon - lon_pad) lon
                    && Rleb lon (base_lon + lon_pad))
        | _, _ => Raise "TypeError"
        end
      else Return false
  | _, _ => Raise "TypeError"
  end.

(** One turn of the candidate loop (lines 185-234): the entry of the
    candidate when it is kept. *)
Definition score_candidate (base_lat base_lon : member) (radius_km : R)
    (base_labels : gset string) (c : Report.report)
  : py (option match_entry) :=
  let lat_pad := radius_km / 111 in
  let lon_pad := radius_km / 111 in
  bind (_coords (Report.location c)) (fun pt =>
  match pt with
  | None => Return None
  | Some (lat, lon) =>
      bind (in_box base_lat base_lon lat_pad lon_pad lat lon) (fun inside =>
      if inside then
        bind (haversine_members base_lat base_lon lat lon) (fun d =>
        if Rlt_dec radius_km d then Return None
        else
          let overlap := overlap base_labels c in
          let score := raw_score overlap d in
          Return (Some {| candidate := c;
                          distance_km := round d 2;
                          label_overlap := overlap;
                          score := round score 3 |}))
      else Return None)
  end).

(** The loop: an exception raised for a candidate ends it and the
    request. *)
Fixpoint score_candidates (base_lat base_lon : member) (radius_km : R)
    (base_labels : gset string) (candidates : list Report.report)
  : py (list match_entry) :=
  match candidates with
  | [] => Return []
  | c :: rest =>
      bind (score_candidate base_lat base_lon radius_km base_labels c)
        (fun entry =>
      bind (score_candidates base_lat base_lon radius_km base_labels rest)
        (fun results =>
      Return (match entry with
              | Some entry => entry :: results
              | None => results
              end)))
  end.

Definition score_ge (x y : match_entry) : Prop := score y <= score x.

Definition score_ge_dec (x y : match_entry)
  : {score_ge x y} + {~ score_ge x y} := Rle_dec (score y) (score x).

Definition is_candidate (base : Report.report) (r : Report.report) : bool :=
  String.eqb (Report.type r) (Reports.opposite_type (Report.type base))
  && String.eqb (Report.status r) "active"
  && String.eqb (Report.species r) (Report.species base).

(** [radius_km] and [top_k] are [None] when the query string leaves them
    out. The handler has no [try]: an exception of the client, of
    [_coords] or of the loop is answered 500 by the framework. The base
    report is read with [.single()], so the test [if not base] that
    follows it never holds. *)
Definition auto_match (db : list Report.report) (report_id : string)
    (radius_km : option R) (top_k : option Z)
  : response auto_match_response :=
  let radius_km := match radius_km with Some r => r | None => 10 end in
  let top_k := match top_k with Some k => k | None => 5%Z end in
  match single (List.filter (fun r => String.eqb (Report.id r) report_id) db) with
  | Raise _ => HTTPException 500 "Internal Server Error"
  | Return base =>
      match _coords (Report.location base) with
      | Raise _ => HTTPException 500 "Internal Server Error"
      | Return None =>
          HTTPException 400
            "El reporte base no tiene location válido (GeoJSON Point)"
      | Return (Some (base_lat, base_lon)) =>
          let base_labels := label_set (Report.labels base) in
          let candidates := List.filter (is_candidate base) db in
          match score_candidates base_lat base_lon radius_km base_labels
                  candidates with
          | Raise _ => HTTPException 500 "Internal Server Error"
          | Return results =>
              let results := sort_by score_ge score_ge_dec results in
              Ok {| report_id := report_id;
                    radius_km := radius_km;
                    total_candidates := length results;
                    top_k := slice_to top_k results |}
          end
      end
  end.

(** ** [update_match_status] *)

Record status_response : Type := {
  success : bool;
  match_id : nat;
  new_status : string
}.

Definition set_status (st : string) (row : Match.match_row) : Match.match_row :=
  Match.mk (Match.id row) (Match.lost_report_id row)
    (Match.found_report_id row) (Match.similarity_score row)
    (Match.matched_by row) st.

Definition update_match_status (tbl : MatchesTable.matches)
    (match_id : nat) (status : string)
  : response status_response * MatchesTable.matches :=
  if negb (String.eqb status "accepted" || String.eqb status "rejected")
  then (HTTPException 400 "El estado debe ser 'accepted' o 'rejected'", tbl)
  else
    let '(tbl', data) := MatchesTable.update (set_status status) match_id tbl in
    match data with
    | [] =>
        (HTTPException 404 ("Match " ++ pretty match_id ++ " no encontrado"),
         tbl')
    | _ :: _ =>
        (Ok {| success := true; match_id := match_id; new_status := status |},
         tbl')
    end.

(** ** [get_pending_matches] *)

Record enriched_match : Type := {
  enriched_id : nat;
  enriched_score : R;
  enriched_by : string;
  enriched_status : string;
  lost_report : option Report.report;
  found_report : option Report.report
}.

Record pending_response : Type := {
  pending_matches : list enriched_match;
  pending_count : nat
}.

(** [bool(s)] for an optional text *)
Definition given (s : option string) : option string :=
  match s with
  | Some x => if String.eqb x EmptyString then None else Some x
  | None => None
  end.

(** The lookup of one linked report, with [.single()]; an empty id is
    not looked up. *)
Definition linked_report (db : list Report.report) (id : string)
  : py (option Report.report) :=
  if String.eqb id EmptyString then Return None
  else
    bind (single (List.filter (fun r => String.eqb (Report.id r) id) db))
      (fun data => Return (Some data)).

Definition enrich (db : list Report.report) (m : Match.match_row)
  : py enriched_match :=
  bind (linked_report db (Match.lost_report_id m)) (fun lost_report =>
  bind (linked_report db (Match.found_report_id m)) (fun found_report =>
  Return {| enriched_id := Match.id m;
            enriched_score := Match.similarity_score m;
            enriched_by := Match.matched_by m;
            enriched_status := Match.status m;
            lost_report := lost_report;
            found_report := found_report |})).

(** The loop over the matches: an exception of a lookup ends it. *)
Fixpoint enrich_all (db : list Report.report) (all_matches : list Match.match_row)
  : py (list enriched_match) :=
  match all_matches with
  | [] => Return []
  | m :: rest =>
      bind (enrich db m) (fun enriched =>
      bind (enrich_all db rest) (fun enriched_matches =>
      Return (enriched :: enriched_matches)))
  end.

(** The end of the handler: the answer, or the 500 of its
    [except Exception]. *)
Definition pending_answer (enriched : py (list enriched_match))
  : response pending_response :=
  match enriched with
  | Return enriched =>
      Ok {| pending_matches := enriched; pending_count := length enriched |}
  | Raise e => HTTPException 500 ("Error obteniendo matches pendientes: " ++ e)
  end.

(** [reporter] gives the [reporter_id] of a report; [status] is [None]
    when the query string leaves it out. *)
Definition get_pending_matches (reporter : Report.report -> string)
    (db : list Report.report) (tbl : MatchesTable.matches)
    (user_id report_id : option string) (status : option string)
  : response pending_response :=
  let status := match status with Some s => s | None => "pending"%string end in
  let has_status (m : Match.match_row) := String.eqb (Match.status m) status in
  match given report_id, given user_id with
  | Some report_id, _ =>
      let matches_lost :=
        List.filter (fun m => String.eqb (Match.lost_report_id m) report_id
                              && has_status m) tbl in
      let matches_found :=
        List.filter (fun m => String.eqb (Match.found_report_id m) report_id
                              && has_status m) tbl in
      pending_answer (enrich_all db (matches_lost ++ matches_found))
  | None, Some user_id =>
      let report_ids :=
        List.map Report.id
          (List.filter (fun r => String.eqb (reporter r) user_id) db) in
      match report_ids with
      | [] => Ok {| pending_matches := []; pending_count := 0 |}
      | _ :: _ =>
          let owned (id : string) := existsb (String.eqb id) report_ids in
          let matches_lost :=
            List.filter (fun m => owned (Match.lost_report_id m)
                                  && has_status m) tbl in
          let matches_found :=
            List.filter (fun m => owned (Match.found_report_id m)
                                  && has_status m) tbl in
          pending_answer (enrich_all db (matches_lost ++ matches_found))
      end
  | None, None => HTTPException 400 "Debe proporcionar user_id o report_id"
  end.

End Handlers.
End Matches.

(** * routers/ai_search.py

    [_coords], [haversine_km] and [label_set] of this router are copies
    of the definitions above. *)

Module AiSearch.
Import Py Geo.
Local Open Scope R_scope.

Section Scoring.
Context {builtins : Builtins}.

Definition color_set (colors_json : list string) : gset string :=
  list_to_set
    (List.map lower
       (List.filter (fun color => negb (String.eqb color EmptyString))
          colors_json)).

Definition is_nil {A} (l : list A) : bool :=
  match l with
  | [] => true
  | _ :: _ => false
  end.

Definition calculate_color_similarity (analysis_colors candidate_colors : list string)
  : R :=
  if is_nil analysis_colors || is_nil candidate_colors then 0
  else
    let set1 := color_set analysis_colors in
    let set2 := color_set candidate_colors in
    if Nat.eqb (size set1) 0 || Nat.eqb (size set2) 0 then 0
    else
      let intersection := size (set1 ∩ set2) in
      let union := size (set1 ∪ set2) in
      if Nat.eqb union 0 then 0
      else INR intersection / INR union * 100.

Definition calculate_location_score (distance_km max_distance_km : R) : R :=
  if Rle_dec distance_km 0 then 100
  else if Rge_dec distance_km max_distance_km then 0
  else Rmax 0 (100 - distance_km / max_distance_km * 100).

(** [days_old] is [(now - report_date).days], whole days rounded down;
    [created_at] is [None] when reading the timestamp or subtracting it
    from [now] raises. *)
Definition calculate_time_score (now : Z) (created_at : option Z) : R :=
  match created_at with
  | Some report_date =>
      let days_old := ((now - report_date) / 86400)%Z in
      if (days_old <=? 1)%Z then 100
      else if (days_old <=? 7)%Z then 80
      else if (days_old <=? 30)%Z then 60
      else 40
  | None => 50
  end.

Record search_entry : Type := {
  candidate : Report.report;
  distance_km : R;
  visual_similarity : R;
  color_similarity : R;
  location_score : R;
  time_score : R;
  total_score : R;
  match_confidence : string
}.

Record search_response : Type := {
  matches : list search_entry;
  total_candidates : nat;
  filtered_results : nat;
  returned_results : nat;
  detected_species : option string
}.

Definition visual_score_of (candidate : Report.report) : R :=
  match Report.similarity candidate with
  | Some similarity => similarity * 100
  | None => 50
  end.

Definition color_score_of (candidate : Report.report) : R :=
  if is_nil (Report.colors candidate) then 0
  else calculate_color_similarity [] (Report.colors candidate).

Definition total_of (visual_score color_score location_score time_score : R) : R :=
  visual_score * 0.4 + color_score * 0.3
  + location_score * 0.2 + time_score * 0.1.

Definition confidence_of (total_score : R) : string :=
  if Rge_dec total_score 70 then "Alta"
  else if Rge_dec total_score 50 then "Media"
  else "Baja".

(** The entry of a candidate at distance [distance_km] (lines 439-489),
    when its total reaches the threshold. *)
Definition score_entry (now : Z) (radius_km : R) (candidate : Report.report)
    (distance_km : R) : option search_entry :=
  let visual_score := visual_score_of candidate in
  let color_score := color_score_of candidate in
  let location_score := calculate_location_score distance_km radius_km in
  let time_score := calculate_time_score now (Report.created_at candidate) in
  let total_score := total_of visual_score color_score location_score time_score in
  if Rge_dec total_score 30 then
    Some {| candidate := candidate;
            distance_km := round distance_km 2;
            visual_similarity := round visual_score 1;
            color_similarity := round color_score 1;
            location_score := round location_score 1;
            time_score := round time_score 1;
            total_score := round total_score 1;
            match_confidence := confidence_of total_score |}
  else None.

(** One turn of the candidate loop (lines 428-489). *)
Definition search_candidate (now : Z) (user_lat user_lng radius_km : R)
    (candidate : Report.report) : py (option search_entry) :=
  bind (_coords (Report.location candidate)) (fun candidate_coords =>
  match candidate_coords with
  | None => Return None
  | Some (cand_lat, cand_lng) =>
      bind (haversine_members (MNumber user_lat) (MNumber user_lng)
              cand_lat cand_lng) (fun distance_km =>
      if Rlt_dec radius_km distance_km then Return None
      else Return (score_entry now radius_km candidate distance_km))
  end).

(** The loop: an exception raised for a candidate ends it. *)
Fixpoint search_candidates (now : Z) (user_lat user_lng radius_km : R)
    (candidates : list Report.report) : py (list search_entry) :=
  match candidates with
  | [] => Return []
  | candidate :: rest =>
      bind (search_candidate now user_lat user_lng radius_km candidate)
        (fun entry =>
      bind (search_candidates now user_lat user_lng radius_km rest)
        (fun results =>
      Return (match entry with
              | Some entry => entry :: results
              | None => results
              end)))
  end.

Definition total_ge (x y : search_entry) : Prop := total_score y <= total_score x.

Definition total_ge_dec (x y : search_entry)
  : {total_ge x y} + {~ total_ge x y} :=
  Rle_dec (total_score y) (total_score x).

(** [calculate_visual_similarity]. The first guard, on the truth of the
    two arguments, is subsumed by the second: a falsy argument has an
    empty label set. *)
Definition calculate_visual_similarity (analysis_labels candidate_labels : labels_json)
  : R :=
  let set1 := Matches.label_set analysis_labels in
  let set2 := Matches.label_set candidate_labels in
  if Nat.eqb (size set1) 0 || Nat.eqb (size set2) 0 then 0
  else
    let intersection := size (set1 ∩ set2) in
    let union := size (set1 ∪ set2) in
    if Nat.eqb union 0 then 0
    else INR intersection / INR union * 100.

End Scoring.

Section Services.
Context {builtins : Builtins}.
(** The embedding service, the remote procedure [search_similar_reports]
    and the clock. *)
Variable image_bytes_to_vec : string -> py (list R).
Variable search_similar_reports : list R -> py (list Report.report).
Variable now : Z.

(** The candidates of a search (lines 354-410): the rows of the remote
    procedure, filtered by type, or else the active reports. *)
Definition select_candidates (db : list Report.report) (search_type : string)
    (query_embedding : list R) : list Report.report :=
  let candidates :=
    match search_similar_reports query_embedding with
    | Return data => data
    | Raise _ => []
    end in
  let candidates :=
    if String.eqb search_type "both" then candidates
    else List.filter (fun c => String.eqb (Report.type c) search_type)
           candidates in
  if is_nil candidates then
    List.filter
      (fun r => Reports.is_active r
                && (String.eqb search_type "both"
                    || String.eqb (Report.type r) search_type)) db
  else candidates.

Definition ai_search (db : list Report.report) (content : string)
    (user_lat user_lng : R) (radius_km : option R) (search_type : option string)
  : response search_response :=
  let radius_km := match radius_km with Some r => r | None => 10 end in
  let search_type := match search_type with Some s => s | None => "both"%string end in
  if negb (String.eqb search_type "lost" || String.eqb search_type "found"
           || String.eqb search_type "both")
  then HTTPException 400 "search_type debe ser 'lost', 'found' o 'both'"
  else if String.eqb content EmptyString
  then HTTPException 400 "Archivo vacío o no leído"
  else
    match image_bytes_to_vec content with
    | Raise e => HTTPException 500 ("Error en búsqueda IA: " ++ e)
    | Return query_embedding =>
        let candidates := select_candidates db search_type query_embedding in
        let detected_species :=
          match candidates with
          | first :: _ => Some (Report.species first)
          | [] => None
          end in
        match search_candidates now user_lat user_lng radius_km candidates with
        | Raise e => HTTPException 500 ("Error en búsqueda IA: " ++ e)
        | Return results =>
            let results := sort_by total_ge total_ge_dec results in
            let top_results := firstn 20 results in
            Ok {| matches := top_results;
                  total_candidates := length candidates;
                  filtered_results := length results;
                  returned_results := length top_results;
                  detected_species := detected_species |}
        end
    end.

End Services.
End AiSearch.

(** * hf-upload/routers/direct_matches.py *)

Module DirectMatches.
Import Py.
Local Open Scope R_scope.

(** One turn of the loop of [_save_matches_to_db] (lines 256-294); the
    score of a match was rounded when the match was built. *)
Definition save_direct_match (report_id report_type : string)
    (tbl : MatchesTable.matches) (m : string * R) : MatchesTable.matches :=
  let '(match_report_id, similarity_score) := m in
  let '(lost_report_id, found_report_id) :=
    Reports.ordered_pair report_id report_type match_report_id in
  match MatchesTable.select_pair lost_report_id found_report_id tbl with
  | existing_match :: _ =>
      if Rgt_dec similarity_score (Match.similarity_score existing_match)
      then fst (MatchesTable.update
                  (fun row => Match.mk (Match.id row)
                                (Match.lost_report_id row)
                                (Match.found_report_id row)
                                similarity_score "ai_visual" "pending")
                  (Match.id existing_match) tbl)
      else tbl
  | [] =>
      MatchesTable.insert lost_report_id found_report_id similarity_score
        "ai_visual" "pending" tbl
  end.

Definition _save_matches_to_db (tbl : MatchesTable.matches)
    (report_id report_type : string) (matches : list (string * R))
  : MatchesTable.matches :=
  fold_left (save_direct_match report_id report_type) matches tbl.

End DirectMatches.

(** * routers/embeddings_supabase.py *)

Module EmbeddingsSupabase.
Import Py.
Local Open Scope R_scope.

Section Handlers.
Context {builtins : Builtins}.

(** The end of [search_image] (lines 257-276). [results] holds, for every
    report with an embedding, its id and its cosine similarity to the
    query image; the answer is the ranked list, and the table receives
    the best result when [lost_id] is given. *)
Definition search_image (results : list (string * R)) (top_k : Z)
    (lost_id : option string) (tbl : MatchesTable.matches)
  : list (string * R) * MatchesTable.matches :=
  let results :=
    sort_by Reports.similarity_ge Reports.similarity_ge_dec results in
  let results := slice_to top_k results in
  match results, lost_id with
  | top1 :: _, Some lost_id =>
      if String.eqb lost_id EmptyString then (results, tbl)
      else (results,
            MatchesTable.insert lost_id (fst top1) (round (snd top1) 4)
              "ai_visual" "pending" tbl)
  | _, _ => (results, tbl)
  end.

(** ** [generate_embedding] and [index_report_embedding]

    Both raise their client errors inside a [try] whose [except
    Exception] clause turns every exception, those included, into a 500;
    [Raise] carries the text [str(e)]. *)

Record embedding_response : Type := {
  embedding_values : list R;
  embedding_dimensions : nat;
  embedding_file_size : nat
}.

Definition generate_embedding (image_bytes_to_vec : string -> py (list R))
    (image_bytes : string) : response embedding_response :=
  let attempt :=
    if String.eqb image_bytes EmptyString
    then Raise "400: Archivo vacío o no leído"
    else bind (image_bytes_to_vec image_bytes) (fun vec =>
         Return {| embedding_values := vec;
                   embedding_dimensions := length vec;
                   embedding_file_size := String.length image_bytes |}) in
  match attempt with
  | Return body => Ok body
  | Raise e => HTTPException 500 ("Error generando embedding: " ++ e)
  end.

Record index_response : Type := {
  indexed_report_id : string;
  indexed_dims : nat
}.

(** [update_report_embedding] is the remote procedure: whether it
    reports a row, or the exception it raises. *)
Definition index_report_embedding (image_bytes_to_vec : string -> py (list R))
    (update_report_embedding : string -> list R -> py bool)
    (report_id : string) (image_bytes : string) : response index_response :=
  match image_bytes_to_vec image_bytes with
  | Raise e => HTTPException 400 ("No se pudo procesar la imagen: " ++ e)
  | Return vec =>
      let attempt :=
        bind (update_report_embedding report_id vec) (fun data =>
        if data
        then Return {| indexed_report_id := report_id;
                       indexed_dims := length vec |}
        else Raise "404: report_id no encontrado") in
      match attempt with
      | Return body => Ok body
      | Raise e => HTTPException 500 ("Error actualizando embedding: " ++ e)
      end
  end.

End Handlers.
End EmbeddingsSupabase.

(** * The embedding services *)

Module Embeddings.
Import Py.
Local Open Scope R_scope.

(** [np.linalg.norm] and [Tensor.norm] of a vector *)
Definition l2_norm (v : list R) : R :=
  sqrt (fold_right Rplus 0 (List.map (fun x => x ^ 2) v)).

Definition scale (v : list R) (norm : R) : list R :=
  List.map (fun x => x / norm) v.

Section Local.
(** hf-upload/services/embeddings.py. [model] decodes the image and runs
    the network; it raises on an image that cannot be read. *)
Variable model : string -> py (list R).

(** [feats / feats.norm(dim=-1, keepdim=True)]: the division is not
    guarded, and on a null feature vector it yields a vector of NaN. *)
Definition _generate_embedding (image_bytes : string) : py (list number) :=
  bind (model image_bytes) (fun feats =>
  let norm := l2_norm feats in
  Return (List.map (fun x => true_divide x norm) feats)).
End Local.

Section Remote.
(** services/embeddings_hf_api.py. [image_ok] is the check by
    [Image.verify]; [post n] is the outcome of the [n]-th request to the
    inference endpoint: a status code and the list of numbers of the
    body. *)
Variable image_ok : string -> bool.
Variable post : nat -> py (nat * list R).

Definition generate_embedding_from_bytes (image_bytes : string)
  : option (list R) :=
  if negb (image_ok image_bytes) then None
  else
    match post 0 with
    | Raise _ => None
    | Return (status_code, body) =>
        let response :=
          if Nat.eqb status_code 503 then post 1
          else Return (status_code, body) in
        match response with
        | Raise _ => None
        | Return (status_code, embedding) =>
            if negb (Nat.eqb status_code 200) then None
            else
              let norm := l2_norm embedding in
              if Rgt_dec norm 0 then Some (scale embedding norm)
              else Some embedding
        end
    end.
End Remote.

End Embeddings.

(** * hf-upload/routers/direct_matches.py: the finder *)

Module DirectMatchSearch.
Import Py.
Local Open Scope R_scope.

Section Finder.
Context {builtins : Builtins}.

(** [np.dot] of two vectors of one length *)
Definition dot_product (u v : list R) : R :=
  fold_right Rplus 0 (List.map (fun p => fst p * snd p) (combine u v)).

(** The cosine similarity of a candidate (lines 189-198): [None] when
    the dimensions differ, and when a norm is null, where the quotient is
    NaN and fails the comparison with the threshold. *)
Definition cosine_similarity (base_vec candidate_vec : list R) : option R :=
  if negb (Nat.eqb (length candidate_vec) (length base_vec)) then None
  else
    let base_norm := Embeddings.l2_norm base_vec in
    let candidate_norm := Embeddings.l2_norm candidate_vec in
    if Req_dec_T (base_norm * candidate_norm) 0 then None
    else Some (dot_product base_vec candidate_vec
               / (base_norm * candidate_norm)).

(** One turn of the candidate loop (lines 170-215): the id and the
    rounded score of a candidate at or above the threshold. *)
Definition scored_candidate (report_id : string) (base_vec : list R)
    (match_threshold : R) (candidate : Report.report) : option (string * R) :=
  if String.eqb (Report.id candidate) report_id then None
  else
    match Report.embedding candidate with
    | None | Some [] => None
    | Some candidate_vec =>
        match cosine_similarity base_vec candidate_vec with
        | Some similarity =>
            if Rge_dec similarity match_threshold
            then Some (Report.id candidate, round similarity 4)
            else None
        | None => None
        end
    end.

(** The answer; the early answer for an empty candidate listing has no
    [total_above_threshold] and no [returned] member. *)
Record find_response : Type := {
  found_matches : list (string * R);
  total_candidates : nat;
  total_above_threshold : option nat;
  returned : option nat
}.

(** The bounds declared on the query parameters are checked by the
    framework, which answers 422 outside them. The base report is read
    with [.single()] inside the [try] of the handler, whose
    [except Exception] answers 500 with the text of the exception; the
    test [if not base_result.data] that follows the read never holds. *)
Definition find_matches_for_report (db : list Report.report)
    (tbl : MatchesTable.matches) (report_id : string)
    (match_threshold : R) (top_k : Z)
  : response find_response * MatchesTable.matches :=
  if negb (Rleb 0 match_threshold && Rleb match_threshold 1
           && (1 <=? top_k)%Z && (top_k <=? 50)%Z)
  then (HTTPException 422 "Unprocessable Entity", tbl)
  else
    match single (List.filter (fun r => String.eqb (Report.id r) report_id) db) with
    | Raise e => (HTTPException 500 ("Error buscando coincidencias: " ++ e), tbl)
    | Return base_report =>
        match Report.embedding base_report with
        | None | Some [] =>
            (HTTPException 400
               ("El reporte " ++ report_id ++ " no tiene embedding generado"),
             tbl)
        | Some base_embedding =>
            let base_type := Report.type base_report in
            let base_species := Report.species base_report in
            let target_type := Reports.opposite_type base_type in
            let candidates :=
              List.filter
                (fun r => String.eqb (Report.type r) target_type
                          && Reports.is_active r
                          && match Report.embedding r with
                             | Some _ => true
                             | None => false
                             end) db in
            match candidates with
            | [] =>
                (Ok {| found_matches := []; total_candidates := 0;
                       total_above_threshold := None; returned := None |}, tbl)
            | _ :: _ =>
                let candidates :=
                  if String.eqb base_species EmptyString then candidates
                  else List.filter
                         (fun c => String.eqb (Report.species c) base_species)
                         candidates in
                let matches :=
                  omap (scored_candidate report_id base_embedding match_threshold)
                    candidates in
                let matches :=
                  sort_by Reports.similarity_ge Reports.similarity_ge_dec matches in
                let top_matches := slice_to top_k matches in
                (Ok {| found_matches := top_matches;
                       total_candidates := length candidates;
                       total_above_threshold := Some (length matches);
                       returned := Some (length top_matches) |},
                 DirectMatches._save_matches_to_db tbl report_id base_type
                   top_matches)
            end
        end
    end.

End Finder.
End DirectMatchSearch.

(** * hf-upload/main.py *)

Module Main.
Import Py.

Record status_body : Type := {
  status : string;
  message : string
}.

(** A client answers a one-row read of a table, named by its table, or
    raises. *)
Definition supabase_status (supabase_client : option (string -> py unit))
  : status_body :=
  match supabase_client with
  | None =>
      {| status := "no_configurado";
         message := "Variables de Supabase no encontradas" |}
  | Some client =>
      match client "image_analyses"%string with
      | Return _ =>
          {| status := "conectado";
             message := "Conexión exitosa con Supabase" |}
      | Raise e =>
          {| status := "error";
             message := "Error conectando con Supabase: " ++ e |}
      end
  end.

End Main.

(** * Vocabulary of the statements

    What the specification says in words, as predicates and functions to
    compare the handlers with. *)

Section Vocabulary.
Context {builtins : Py.Builtins}.

(** An entry has neither a non-empty [label] nor a non-empty
    [description]. *)
Definition unlabeled (it : label_item) : Prop :=
  (Matches.get "label" it = None \/ Matches.get "label" it = Some EmptyString)
  /\ (Matches.get "description" it = None
      \/ Matches.get "description" it = Some EmptyString).


(** The point of a report whose location is a GeoJSON object with two
    numeric coordinates, longitude first. *)
Definition geojson_point (r : Report.report) : option (R * R) :=
  match Report.location r with
  | Geo.LocDict (Some (Geo.Sequence [Geo.MNumber lon; Geo.MNumber lat])) =>
      Some (lat, lon)
  | _ => None
  end.

(** The great-circle distance by the Haversine formula on a sphere of
    radius 6371 km, written out. *)
Definition great_circle_km (lat1 lon1 lat2 lon2 : R) : R :=
  (2 * 6371
   * asin (sqrt (sin ((lat2 - lat1) * (PI / 180) / 2) ^ 2
                 + cos (lat1 * (PI / 180)) * cos (lat2 * (PI / 180))
                   * sin ((lon2 - lon1) * (PI / 180) / 2) ^ 2)))%R.



(** The entry AI search answers for a candidate, when it has coordinates,
    lies within the radius and reaches the threshold. *)
Definition search_scored (now : Z) (user_lat user_lng radius_km : R)
    (c : Report.report) : option AiSearch.search_entry :=
  match geojson_point c with
  | Some (cand_lat, cand_lng) =>
      let d := great_circle_km user_lat user_lng cand_lat cand_lng in
      if Rlt_dec radius_km d then None
      else AiSearch.score_entry now radius_km c d
  | None => None
  end.

(** A coordinate on which the distance cannot be computed: a value that
    is not a number, or an infinity. *)
Definition unusable (v : Geo.value) : Prop :=
  v = Geo.VOther \/ exists negative, v = Geo.VFloat (Py.Infinity negative).

(** The location of a report makes the nearby listing fail: the
    extractor of reports.py reads a pair from it, and a coordinate of the
    pair is unusable. *)
Definition fails_nearby (float : string -> option Py.number)
    (r : Report.report) : Prop :=
  exists la lo,
    Reports._extract_coords float (Report.location r) = Some (la, lo)
    /\ (unusable la \/ unusable lo).


(** The entry of the nearby listing for a report: its copy carrying the
    rounded distance, when its location reads as a finite point within
    the radius. *)
Definition nearby_entry (float : string -> option Py.number)
    (lat lng radius_km : R) (r : Report.report) : option Report.report :=
  match Reports._extract_coords float (Report.location r) with
  | Some (Geo.VFloat (Py.Finite report_lat), Geo.VFloat (Py.Finite report_lon)) =>
      let d := great_circle_km lat lng report_lat report_lon in
      if Rle_dec d radius_km
      then Some (Report.set_distance_km (Py.round d 2) r)
      else None
  | _ => None
  end.

(** A [coordinates] value that the destructuring [lon, lat = ...]
    refuses. *)
Definition malformed (cs : Geo.coordinates) : Prop :=
  match cs with
  | Geo.Sequence items => length items <> 2
  | Geo.NotIterable => True
  end.


(** The location of a candidate makes the AI search fail: its
    [coordinates] are malformed, or one of the two is not a number. *)
Definition fails_ai_search (c : Report.report) : Prop :=
  match Report.location c with
  | Geo.LocDict (Some (Geo.Sequence [lon; lat])) =>
      lon = Geo.MOther \/ lat = Geo.MOther
  | Geo.LocDict (Some cs) => malformed cs
  | _ => False
  end.


(** The table of reports holds exactly one row with the identifier. *)
Definition stored_once (db : list Report.report) (id : string) : Prop :=
  exists r, List.filter (fun x => String.eqb (Report.id x) id) db = [r].

(** The first report stored under an identifier, none for the empty
    identifier; and the entry of the listing of matches for a match. *)
Definition first_stored (db : list Report.report) (id : string)
  : option Report.report :=
  if String.eqb id EmptyString then None
  else List.find (fun r => String.eqb (Report.id r) id) db.

Definition listed_match (db : list Report.report) (m : Match.match_row)
  : Matches.enriched_match :=
  {| Matches.enriched_id := Match.id m;
     Matches.enriched_score := Match.similarity_score m;
     Matches.enriched_by := Match.matched_by m;
     Matches.enriched_status := Match.status m;
     Matches.lost_report := first_stored db (Match.lost_report_id m);
     Matches.found_report := first_stored db (Match.found_report_id m) |}.

(** ** Sample data *)

(** An active dog report at a GeoJSON point. *)
Definition point_report (id type : string) (lat lon : R)
    (similarity : option R) (created_at : option Z) : Report.report :=
  Report.mk id type "active" "dog"
    (Geo.LocDict (Some (Geo.Sequence [Geo.MNumber lon; Geo.MNumber lat])))
    LabelsNull [] created_at similarity [] None None.

(** A lost report on the equator and two found reports a few metres to
    its north, the farther one stored first. *)
Definition rank_base : Report.report :=
  point_report "base" "lost" 0 0 None None.
Definition rank_c1 : Report.report :=
  point_report "c1" "found" (63 / 1274200) 0 None None.
Definition rank_c2 : Report.report :=
  point_report "c2" "found" (153 / 3185500) 0 None None.
Definition rank_db : list Report.report := [rank_base; rank_c1; rank_c2].

(** A found report whose coordinates array has three elements. *)
Definition bad_candidate : Report.report :=
  Report.mk "bad" "found" "active" "dog"
    (Geo.LocDict
       (Some (Geo.Sequence [Geo.MNumber 0; Geo.MNumber 0; Geo.MNumber 0])))
    LabelsNull [] None None [] None None.
Definition bad_db : list Report.report := [rank_base; bad_candidate].

Definition edge_s : Report.report :=
  point_report "s3" "lost" 0 0 (Some 0.999%R) (Some 0%Z).
Definition sample_embed (content : string) : Py.py (list R) := Py.Return [].
Definition edge_rpc (v : list R) : Py.py (list Report.report) :=
  Py.Return [edge_s].

(** The invariant of the [matches] table: at most one row for an ordered
    pair of reports; and the identifiers of the rows are distinct. *)
Definition unique_pairs (tbl : MatchesTable.matches) : Prop :=
  forall l f, length (MatchesTable.select_pair l f tbl) <= 1.

Definition unique_ids (tbl : MatchesTable.matches) : Prop :=
  NoDup (List.map Match.id tbl).

(** A table with one pending match of the reports [L] and [F]. *)
Definition stored_match : Match.match_row :=
  Match.mk 1 "L" "F" 0.9%R "ai_visual" "pending".
Definition one_match : MatchesTable.matches := [stored_match].

(** A body with every required field and six photos, and the body of the
    repository's test of the photo limit, which has no [reporter_id]. *)
Definition six_photos : Py.json :=
  Py.JArr [Py.JStr "photo0.jpg"; Py.JStr "photo1.jpg"; Py.JStr "photo2.jpg";
           Py.JStr "photo3.jpg"; Py.JStr "photo4.jpg"; Py.JStr "photo5.jpg"].
Definition full_body : list (string * Py.json) :=
  [("type", Py.JStr "lost"); ("reporter_id", Py.JStr "user-1");
   ("species", Py.JStr "dog"); ("description", Py.JStr "Test");
   ("location", Py.JStr "SRID=4326;POINT(-58.3816 -34.6037)");
   ("photos", six_photos)]%string.
Definition test_body : list (string * Py.json) :=
  [("pet_name", Py.JStr "Max"); ("species", Py.JStr "dog");
   ("size", Py.JStr "large"); ("description", Py.JStr "Test");
   ("photos", six_photos);
   ("location", Py.JStr "SRID=4326;POINT(-58.3816 -34.6037)");
   ("type", Py.JStr "lost")]%string.

(** Clients of the status endpoint: one whose [reports] table answers
    and whose [image_analyses] table does not exist, and the converse. *)
Definition reports_only_client (table : string) : Py.py unit :=
  if String.eqb table "reports" then Py.Return tt
  else Py.Raise "relation does not exist".
Definition analyses_only_client (table : string) : Py.py unit :=
  if String.eqb table "image_analyses" then Py.Return tt
  else Py.Raise "relation does not exist".

(** An inference endpoint that answers 200 with the numbers [body]. *)
Definition fixed_post (body : list R) (attempt : nat) : Py.py (nat * list R) :=
  Py.Return (200, body).
Definition any_image (image_bytes : string) : bool := true.

(** ** Vocabulary of the further properties *)

(** A token of a PostGIS text: not empty, without whitespace, closing
    parenthesis or capital P. *)
Definition plain_char (c : ascii) : bool :=
  negb (Py.is_space c) && negb (Ascii.eqb c ")"%char)
  && negb (Ascii.eqb c "P"%char).

Fixpoint plain_chars (s : string) : bool :=
  match s with
  | EmptyString => true
  | String c s' => plain_char c && plain_chars s'
  end.

Definition plain_token (s : string) : bool :=
  negb (String.eqb s EmptyString) && plain_chars s.

(** [c] does not occur in [s]. *)
Fixpoint lacks (c : ascii) (s : string) : bool :=
  match s with
  | EmptyString => true
  | String a s' => negb (Ascii.eqb a c) && lacks c s'
  end.

(** The PostGIS text of a point given by the texts of its coordinates. *)
Definition postgis_text (lon lat : string) : string :=
  ("SRID=4326;POINT(" ++ lon ++ " " ++ lat ++ ")")%string.

(** A labels object with one entry that has only a [label]. *)
Definition one_label (text : string) : labels_json :=
  LabelsDict (Some [[("label"%string, text)]]).

(** A labels entry with the texts of its members in lower case. *)
Definition lower_item (it : label_item) : label_item :=
  List.map (fun kv => (fst kv, Py.lower (snd kv))) it.

(** A lost report stored with a PostGIS text as location. *)
Definition text_base : Report.report :=
  Report.mk "base" "lost" "active" "dog"
    (Geo.LocStr "SRID=4326;POINT(-58.3816 -34.6037)") LabelsNull []
    None None [] None None.

(** An active report whose [coordinates] are two texts, and one whose
    location is a text naming an infinite longitude. *)
Definition texts_report : Report.report :=
  Report.mk "texts" "found" "active" "dog"
    (Geo.LocDict (Some (Geo.Sequence [Geo.MOther; Geo.MOther])))
    LabelsNull [] None None [] None None.

End Vocabulary.

(** * Facts about the Python primitives *)

Section RoundFacts.
Context {builtins : Py.Builtins}.
Local Open Scope R_scope.

Lemma round_nearest_near (y : R) (z : Z) :
  IZR z - 1 / 2 < y < IZR z + 1 / 2 -> Py.round_nearest y = z.
Proof.
  intros [Hlo Hhi]. unfold Py.round_nearest.
  destruct (base_Int_part y) as [Hf1 Hf2].
  set (f := Int_part y) in *.
  assert (Hfz : (f <= z)%Z).
  { apply Z.lt_succ_r, lt_IZR. rewrite succ_IZR. lra. }
  assert (Hzf : (z <= f + 1)%Z).
  { apply Z.lt_succ_r, lt_IZR. rewrite succ_IZR, plus_IZR. lra. }
  assert (Hcase : f = z \/ f = (z - 1)%Z) by lia.
  destruct Hcase as [-> | ->].
  - destruct (Rlt_dec (y - IZR z) (1 / 2)); [reflexivity | lra].
  - rewrite minus_IZR in *.
    destruct (Rlt_dec (y - (IZR z - 1)) (1 / 2)); [lra |].
    destruct (Rlt_dec (1 / 2) (y - (IZR z - 1))); [lia | lra].
Qed.

Lemma round_nearest_IZR (z : Z) : Py.round_nearest (IZR z) = z.
Proof. apply round_nearest_near. lra. Qed.

(** A value with at most [n] decimals is its own rounding. *)
Lemma round_exact (z : Z) (n : nat) : Py.round (IZR z / 10 ^ n) n = IZR z / 10 ^ n.
Proof.
  unfold Py.round.
  assert (H10 : 10 ^ n <> 0) by (apply pow_nonzero; lra).
  replace (IZR z / 10 ^ n * 10 ^ n) with (IZR z) by (field; exact H10).
  now rewrite round_nearest_IZR.
Qed.

(** Away from a tie the rounding is the nearest decimal. *)
Lemma round_near (x : R) (n : nat) (z : Z) :
  IZR z - 1 / 2 < x * 10 ^ n < IZR z + 1 / 2 -> Py.round x n = IZR z / 10 ^ n.
Proof. intros Hx. unfold Py.round. now rewrite (round_nearest_near _ z). Qed.

End RoundFacts.

Section SortFacts.
Context {A : Type} (le : A -> A -> Prop).
Context (le_dec : forall x y, {le x y} + {~ le x y}).
Hypothesis le_total : forall x y, le x y \/ le y x.
Hypothesis le_trans : forall x y z, le x y -> le y z -> le x z.

Lemma insert_by_perm (x : A) (l : list A) :
  Permutation (x :: l) (Py.insert_by le le_dec x l).
Proof.
  induction l as [| y l IH]; simpl; [reflexivity |].
  destruct (le_dec x y); [reflexivity |].
  etransitivity; [apply perm_swap |]. now constructor.
Qed.

Lemma sort_by_perm (l : list A) : Permutation l (Py.sort_by le le_dec l).
Proof.
  induction l as [| x l IH]; simpl; [constructor |].
  etransitivity; [| apply insert_by_perm]. now constructor.
Qed.

Lemma insert_by_sorted (x : A) (l : list A) :
  StronglySorted le l -> StronglySorted le (Py.insert_by le le_dec x l).
Proof.
  induction 1 as [| y l Hs IH Hall]; simpl.
  - repeat constructor.
  - destruct (le_dec x y) as [Hxy | Hxy].
    + constructor; [now constructor |].
      constructor; [exact Hxy |].
      eapply List.Forall_impl; [| exact Hall]. intros z Hz. eauto.
    + constructor; [exact IH |].
      assert (Hyx : le y x) by (destruct (le_total x y); tauto).
      eapply Permutation_Forall; [apply insert_by_perm |].
      now constructor.
Qed.

Lemma sort_by_sorted (l : list A) : StronglySorted le (Py.sort_by le le_dec l).
Proof.
  induction l as [| x l IH]; simpl; [constructor |].
  now apply insert_by_sorted.
Qed.

Lemma sort_by_In (l : list A) (x : A) : In x (Py.sort_by le le_dec l) <-> In x l.
Proof.
  split; intro H.
  - eapply Permutation_in; [symmetry; apply sort_by_perm | exact H].
  - eapply Permutation_in; [apply sort_by_perm | exact H].
Qed.

Lemma sort_by_length (l : list A) : length (Py.sort_by le le_dec l) = length l.
Proof. symmetry. apply Permutation_length, sort_by_perm. Qed.

End SortFacts.

(** The sort is stable: elements of one key keep their order. *)
Section SortStable.
Context {A : Type} (le : A -> A -> Prop).
Context (le_dec : forall x y, {le x y} + {~ le x y}).
Variable key : A -> R.
Hypothesis le_key : forall x y, key x = key y -> le x y.



End SortStable.

(** * Reading PostGIS texts *)

Section PostgisFacts.
Import Py Geo.
Context {builtins : Builtins}.
Local Open Scope string_scope.

Lemma append_cons (a : ascii) (s1 s2 : string) :
  String a s1 ++ s2 = String a (s1 ++ s2).
Proof. reflexivity. Qed.

Lemma append_nil (s : string) : EmptyString ++ s = s.
Proof. reflexivity. Qed.

Lemma append_assoc_char (cur : string) (c : ascii) (s : string) :
  (cur ++ String c EmptyString) ++ s = cur ++ String c s.
Proof.
  induction cur as [| a cur IH]; [reflexivity |].
  rewrite !append_cons. now rewrite IH.
Qed.

Lemma append_empty_r (s : string) : s ++ EmptyString = s.
Proof.
  induction s as [| a s IH]; [reflexivity |]. rewrite append_cons. now rewrite IH.
Qed.

Lemma split_point_free (s cur : string) :
  lacks "P" s = true -> split_aux "POINT(" 0 cur s = [cur ++ s].
Proof.
  revert cur. induction s as [| c s IH]; intros cur Hs0; cbn [split_aux prefix].
  - now rewrite append_empty_r.
  - cbn [lacks] in Hs0. apply andb_true_iff in Hs0 as [Hc Hs].
    apply negb_true_iff in Hc. rewrite Ascii.eqb_sym in Hc. rewrite Hc.
    rewrite IH by exact Hs. now rewrite append_assoc_char.
Qed.

Lemma split_paren_first (x cur rest : string) :
  lacks ")" x = true ->
  split_aux ")" 0 cur (x ++ String ")" rest)
  = (cur ++ x) :: split_aux ")" 0 EmptyString rest.
Proof.
  revert cur. induction x as [| c x IH]; intros cur Hx0.
  - rewrite append_nil. cbn [split_aux prefix String.length Nat.sub].
    rewrite Ascii.eqb_refl. now rewrite append_empty_r.
  - rewrite append_cons. cbn [split_aux prefix].
    cbn [lacks] in Hx0. apply andb_true_iff in Hx0 as [Hc Hx].
    apply negb_true_iff in Hc. rewrite Ascii.eqb_sym in Hc. rewrite Hc.
    rewrite IH by exact Hx. now rewrite append_assoc_char.
Qed.

Lemma append_assoc_str (s1 s2 s3 : string) : (s1 ++ s2) ++ s3 = s1 ++ (s2 ++ s3).
Proof.
  induction s1 as [| c s1 IH]; [now rewrite !append_nil |].
  now rewrite !append_cons, IH.
Qed.

Lemma plain_chars_inv (c : ascii) (s : string) :
  plain_chars (String c s) = true ->
  is_space c = false /\ Ascii.eqb c ")" = false /\ Ascii.eqb c "P" = false
  /\ plain_chars s = true.
Proof.
  cbn [plain_chars]. unfold plain_char.
  rewrite !andb_true_iff, !negb_true_iff. tauto.
Qed.

Lemma plain_lacks (s : string) :
  plain_chars s = true -> lacks "P" s = true /\ lacks ")" s = true.
Proof.
  induction s as [| c s IH]; [now split |].
  intros Hs0. apply plain_chars_inv in Hs0 as (_ & Hp & HP & Hs).
  destruct (IH Hs) as [H1 H2]. cbn [lacks]. now rewrite Hp, HP, H1, H2.
Qed.

Lemma lacks_app (c : ascii) (s1 s2 : string) :
  lacks c (s1 ++ s2) = lacks c s1 && lacks c s2.
Proof.
  induction s1 as [| a s1 IH]; [reflexivity |].
  rewrite append_cons. cbn [lacks]. now rewrite IH, andb_assoc.
Qed.

Lemma split_ws_token (x cur rest : string) :
  plain_chars x = true ->
  split_ws_aux cur (x ++ rest) = split_ws_aux (cur ++ x) rest.
Proof.
  revert cur. induction x as [| c x IH]; intros cur Hx0.
  - now rewrite append_nil, append_empty_r.
  - rewrite append_cons. cbn [split_ws_aux].
    apply plain_chars_inv in Hx0 as (Hc & _ & _ & Hx). rewrite Hc.
    rewrite IH by exact Hx. now rewrite append_assoc_char.
Qed.

Lemma split_ws_two (a b : string) :
  plain_token a = true -> plain_token b = true ->
  split_ws (a ++ " " ++ b) = [a; b].
Proof.
  unfold plain_token. rewrite !andb_true_iff, !negb_true_iff.
  intros [Hna Ha] [Hnb Hb]. unfold split_ws.
  rewrite split_ws_token by exact Ha. rewrite append_nil.
  rewrite append_cons, append_nil. cbn [split_ws_aux].
  change (is_space " ") with true. cbv iota. rewrite Hna.
  f_equal.
  rewrite <- (append_empty_r b) at 1.
  rewrite split_ws_token by exact Hb. rewrite append_nil.
  cbn [split_ws_aux]. now rewrite Hnb.
Qed.

Lemma postgis_text_reads_back (float : string -> option number)
    (lon lat : string) (x y : number) :
  plain_token lon = true -> plain_token lat = true ->
  float lon = Some x -> float lat = Some y ->
  Reports._extract_coords float (LocStr (postgis_text lon lat))
  = Some (VFloat y, VFloat x).
Proof.
  intros Hlon Hlat Hx Hy.
  assert (Hpl : plain_chars lon = true /\ plain_chars lat = true).
  { unfold plain_token in *. rewrite !andb_true_iff in *. tauto. }
  destruct Hpl as [Hpl1 Hpl2].
  destruct (plain_lacks _ Hpl1) as [HP1 Hp1].
  destruct (plain_lacks _ Hpl2) as [HP2 Hp2].
  unfold Reports._extract_coords, postgis_text.
  repeat rewrite append_cons. rewrite !append_nil.
  cbn [String.eqb Ascii.eqb Bool.eqb]. cbv iota.
  set (rest := lon ++ String " " (lat ++ ")")).
  assert (Hrest : lacks "P" rest = true).
  { unfold rest. rewrite lacks_app, HP1. cbn [lacks andb].
    rewrite lacks_app, HP2. reflexivity. }
  match goal with
  | |- context [contains ?sub ?s] =>
      assert (Hc : contains sub s = true)
        by (cbn [contains prefix Ascii.eqb Bool.eqb orb]; reflexivity)
  end.
  rewrite Hc.
  unfold split_on. cbn [split_aux prefix Ascii.eqb Bool.eqb String.length Nat.sub].
  rewrite split_point_free by exact Hrest. rewrite append_nil.
  unfold rest.
  replace (lon ++ String " " (lat ++ ")")) with ((lon ++ " " ++ lat) ++ String ")" EmptyString).
  2:{ rewrite append_assoc_str, append_cons, append_nil. reflexivity. }
  rewrite split_paren_first.
  2:{ rewrite lacks_app, Hp1. rewrite append_cons, append_nil. cbn [lacks andb]. exact Hp2. }
  rewrite append_nil. rewrite split_ws_two by assumption.
  cbn [List.map]. now rewrite Hx, Hy.
Qed.

End PostgisFacts.

(** * List nearby reports *)

Section NearbyFacts.
Import Py Geo.
Context {builtins : Builtins}.
Local Open Scope R_scope.
Variable float : string -> option number.

Lemma is_active_spec (r : Report.report) :
  Reports.is_active r = true <-> Report.status r = "active"%string.
Proof. unfold Reports.is_active. apply String.eqb_eq. Qed.

Lemma haversine_km_formula (lat1 lon1 lat2 lon2 : R) :
  haversine_km lat1 lon1 lat2 lon2 = great_circle_km lat1 lon1 lat2 lon2.
Proof. reflexivity. Qed.

Lemma nearby_entry_spec (lat lng radius_km : R) (r x : Report.report) :
  nearby_entry float lat lng radius_km r = Some x <->
  exists report_lat report_lon,
    Reports._extract_coords float (Report.location r)
    = Some (VFloat (Finite report_lat), VFloat (Finite report_lon))
    /\ great_circle_km lat lng report_lat report_lon <= radius_km
    /\ x = Report.set_distance_km
             (round (great_circle_km lat lng report_lat report_lon) 2) r.
Proof.
  unfold nearby_entry.
  destruct (Reports._extract_coords float (Report.location r))
    as [[[[la | s | ] | ] [[lo | t | ] | ]] |];
    try (split; [discriminate | intros (? & ? & [=] & _)]).
  cbv zeta.
  destruct (Rle_dec (great_circle_km lat lng la lo) radius_km) as [Hd | Hd].
  - split.
    + intros [= <-]. now exists la, lo.
    + intros (la' & lo' & [= <- <-] & _ & ->). reflexivity.
  - split; [discriminate |].
    intros (la' & lo' & [= <- <-] & Hle & _). contradiction.
Qed.


(** A turn of the loop raises exactly on the locations that fail the
    listing, and otherwise gives the entry of the report. *)
Lemma nearby_report_fails (lat lng radius_km : R) (r : Report.report) :
  fails_nearby float r ->
  exists e, Reports.nearby_report float lat lng radius_km r = Raise e.
Proof.
  intros (la & lo & Hc & Hbad). unfold Reports.nearby_report. rewrite Hc.
  destruct Hbad as [[-> | [s ->]] | [-> | [s ->]]];
    destruct la as [[? | ? |] |] || destruct lo as [[? | ? |] |];
    cbn; eauto.
Qed.

Lemma nearby_report_entry (lat lng radius_km : R) (r : Report.report) :
  ~ fails_nearby float r ->
  Reports.nearby_report float lat lng radius_km r
  = Return (nearby_entry float lat lng radius_km r).
Proof.
  intros Hok. unfold Reports.nearby_report, nearby_entry.
  destruct (Reports._extract_coords float (Report.location r))
    as [[la lo] |] eqn:Hc; [| reflexivity].
  assert (Hla : ~ unusable la).
  { intros Hbad. apply Hok. exists la, lo. auto. }
  assert (Hlo : ~ unusable lo).
  { intros Hbad. apply Hok. exists la, lo. auto. }
  unfold unusable in Hla, Hlo.
  destruct la as [[x | s | ] | ]; try (exfalso; apply Hla; eauto; fail);
    destruct lo as [[y | t | ] | ]; try (exfalso; apply Hlo; eauto; fail);
    cbn; try reflexivity.
  change (haversine_km lat lng x y) with (great_circle_km lat lng x y).
  destruct (Rle_dec (great_circle_km lat lng x y) radius_km); reflexivity.
Qed.

Lemma nearby_report_raise_inv (lat lng radius_km : R) (r : Report.report)
    (e : string) :
  Reports.nearby_report float lat lng radius_km r = Raise e ->
  fails_nearby float r.
Proof.
  unfold Reports.nearby_report, fails_nearby, unusable.
  destruct (Reports._extract_coords float (Report.location r))
    as [[la lo] |]; [| discriminate].
  intros Hr. exists la, lo. split; [reflexivity |].
  destruct la as [[x | s | ] | ]; eauto;
    destruct lo as [[y | t | ] | ]; eauto; cbn in Hr; try discriminate.
  destruct (Rle_dec (haversine_km lat lng x y) radius_km); discriminate.
Qed.

Lemma nearby_loop_returns (lat lng radius_km : R) (l : list Report.report) :
  (forall r, In r l -> ~ fails_nearby float r) ->
  Reports.nearby_reports_of float lat lng radius_km l
  = Return (omap (nearby_entry float lat lng radius_km) l).
Proof.
  induction l as [| r l IH]; intros Hok; [reflexivity |].
  cbn [Reports.nearby_reports_of omap list_omap].
  rewrite nearby_report_entry by (apply Hok; now left).
  rewrite IH by (intros r' Hr'; apply Hok; now right).
  cbn [bind]. now destruct (nearby_entry float lat lng radius_km r).
Qed.


Lemma nearby_loop_return_inv (lat lng radius_km : R) (l kept : list Report.report) :
  Reports.nearby_reports_of float lat lng radius_km l = Return kept ->
  kept = omap (nearby_entry float lat lng radius_km) l.
Proof.
  intros Hl.
  assert (Hok : forall r, In r l -> ~ fails_nearby float r).
  { revert kept Hl.
    induction l as [| r l IH]; intros kept Hl r' Hr'; [contradiction |].
    cbn [Reports.nearby_reports_of] in Hl.
    destruct (Reports.nearby_report float lat lng radius_km r)
      as [x | e] eqn:Hx; [| discriminate].
    cbn [bind] in Hl.
    destruct (Reports.nearby_reports_of float lat lng radius_km l)
      as [rest | e] eqn:Hrest; [| discriminate].
    destruct Hr' as [<- | Hr'].
    - intros Hbad.
      destruct (nearby_report_fails lat lng radius_km r Hbad) as [e He].
      congruence.
    - now apply (IH rest). }
  rewrite (nearby_loop_returns lat lng radius_km l Hok) in Hl.
  now injection Hl.
Qed.

Lemma In_omap {A B : Type} (f : A -> option B) (l : list A) (y : B) :
  In y (omap f l) <-> exists x, In x l /\ f x = Some y.
Proof.
  rewrite <- list_elem_of_In, list_elem_of_omap.
  split; intros (x & Hx & Hf); exists x; split; auto;
    now apply list_elem_of_In.
Qed.


End NearbyFacts.

Section NearbyExamples.
Import Py Geo.
Existing Instance ascii_half_even.

(** The two examples of the docstring of [_extract_coords], and texts it
    refuses. *)
Example extract_coords_postgis :
  Reports._extract_coords decimal_float
    (LocStr "SRID=4326;POINT(-58.3816 -34.6037)")
  = Some (VFloat (Finite (-34.6037)), VFloat (Finite (-58.3816)))%R.
Proof. vm_compute. do 2 f_equal; do 2 f_equal; lra. Qed.

Example extract_coords_geojson :
  Reports._extract_coords decimal_float
    (LocDict (Some (Sequence [MNumber (-58.3816); MNumber (-34.6037)])))
  = Some (VFloat (Finite (-34.6037)), VFloat (Finite (-58.3816)))%R.
Proof. reflexivity. Qed.

Example extract_coords_refused :
  Reports._extract_coords decimal_float (LocStr "POINT(1 2 3)") = None
  /\ Reports._extract_coords decimal_float (LocStr "POINT(a b)") = None
  /\ Reports._extract_coords decimal_float (LocStr "somewhere") = None
  /\ Reports._extract_coords decimal_float (LocStr "") = None
  /\ Reports._extract_coords decimal_float LocNone = None.
Proof. repeat split; vm_compute; reflexivity. Qed.

End NearbyExamples.


(** * Malformed coordinates *)

Section CoordsFacts.
Import Py Geo.
Context {builtins : Builtins}.

Lemma _coords_raise_inv (loc : location_data) (e : string) :
  _coords loc = Raise e ->
  exists cs, loc = LocDict (Some cs) /\ malformed cs.
Proof.
  destruct loc as [| s | [[items |] |]]; simpl; try discriminate.
  - destruct items as [| lon [| lat [| extra items]]]; try discriminate;
      intros _; eexists; (split; [reflexivity |]); simpl; lia.
  - intros _. eexists. split; [reflexivity | exact I].
Qed.

Lemma _coords_wrong_length (items : list member) :
  length items <> 2 ->
  _coords (LocDict (Some (Sequence items))) = Raise "ValueError".
Proof.
  destruct items as [| lon [| lat [| extra items]]]; simpl; intros Hlen;
    try reflexivity; lia.
Qed.

Lemma _coords_malformed (cs : coordinates) :
  malformed cs -> exists e, _coords (LocDict (Some cs)) = Raise e.
Proof.
  destruct cs as [items |]; intros Hbad.
  - rewrite _coords_wrong_length by exact Hbad. eauto.
  - simpl. eauto.
Qed.

(** A turn that raises ends the loop of auto-match. *)
Lemma auto_match_loop_raises (base_lat base_lon : member) (radius_km : R)
    (base_labels : gset string) (candidates : list Report.report)
    (c : Report.report) (e : string) :
  In c candidates ->
  Matches.score_candidate base_lat base_lon radius_km base_labels c = Raise e ->
  exists e',
    Matches.score_candidates base_lat base_lon radius_km base_labels candidates
    = Raise e'.
Proof.
  intros Hin Hc.
  induction candidates as [| c' rest IH]; [contradiction |].
  cbn [Matches.score_candidates].
  destruct (Matches.score_candidate base_lat base_lon radius_km base_labels c')
    as [entry | e'] eqn:Hc'; [| cbn [bind]; eauto].
  destruct Hin as [-> | Hin]; [congruence |].
  destruct (IH Hin) as [e' He']. rewrite He'. cbn [bind]. eauto.
Qed.

Lemma score_candidate_malformed (base_lat base_lon : member) (radius_km : R)
    (base_labels : gset string) (c : Report.report) (cs : coordinates) :
  Report.location c = LocDict (Some cs) -> malformed cs ->
  exists e,
    Matches.score_candidate base_lat base_lon radius_km base_labels c = Raise e.
Proof.
  intros Hloc Hbad. destruct (_coords_malformed cs Hbad) as [e He].
  exists e. unfold Matches.score_candidate. now rewrite Hloc, He.
Qed.

(** A turn that raises ends the loop of the AI search. *)
Lemma ai_search_loop_raises (now : Z) (user_lat user_lng radius_km : R)
    (candidates : list Report.report) (c : Report.report) (e : string) :
  In c candidates ->
  AiSearch.search_candidate now user_lat user_lng radius_km c = Raise e ->
  exists e',
    AiSearch.search_candidates now user_lat user_lng radius_km candidates
    = Raise e'.
Proof.
  intros Hin Hc.
  induction candidates as [| c' rest IH]; [contradiction |].
  cbn [AiSearch.search_candidates].
  destruct (AiSearch.search_candidate now user_lat user_lng radius_km c')
    as [entry | e'] eqn:Hc'; [| cbn [bind]; eauto].
  destruct Hin as [-> | Hin]; [congruence |].
  destruct (IH Hin) as [e' He']. rewrite He'. cbn [bind]. eauto.
Qed.

Lemma search_candidate_malformed (now : Z) (user_lat user_lng radius_km : R)
    (c : Report.report) (cs : coordinates) :
  Report.location c = LocDict (Some cs) -> malformed cs ->
  exists e, AiSearch.search_candidate now user_lat user_lng radius_km c = Raise e.
Proof.
  intros Hloc Hbad. destruct (_coords_malformed cs Hbad) as [e He].
  exists e. unfold AiSearch.search_candidate. now rewrite Hloc, He.
Qed.

End CoordsFacts.

(** C10, as the code has it. The GeoJSON extractor of the matches and
    AI-search routers raises on a [coordinates] value that does not
    iterate over exactly two values; a candidate with such a value makes
    the whole auto-match request, and the whole AI-search request, end
    in a server error (status 500) instead of being skipped. The
    extractor of the reports router never raises, and answers [None] on
    every location on which the other one raises; but it answers with a
    pair for every two-member [coordinates] value, whatever the members,
    and otherwise only for a text that holds [POINT(]. *)
Theorem malformed_coordinates_fail_the_request {builtins : Py.Builtins} :
  (forall items : list Geo.member,
     length items <> 2 ->
     Geo._coords (Geo.LocDict (Some (Geo.Sequence items)))
     = Py.Raise "ValueError")
  /\ Geo._coords (Geo.LocDict (Some Geo.NotIterable)) = Py.Raise "TypeError"
  /\ (forall db report_id radius_km top_k base pt c cs,
        List.filter (fun r => String.eqb (Report.id r) report_id) db = [base] ->
        Geo._coords (Report.location base) = Py.Return (Some pt) ->
        In c db -> Matches.is_candidate base c = true ->
        Report.location c = Geo.LocDict (Some cs) ->
        malformed cs ->
        Matches.auto_match db report_id radius_km top_k
        = Py.HTTPException 500 "Internal Server Error")
  /\ (forall image_bytes_to_vec search_similar_reports now db content
             user_lat user_lng radius_km search_type st v c cs,
        st = match search_type with Some s => s | None => "both"%string end ->
        st = "lost"%string \/ st = "found"%string \/ st = "both"%string ->
        content <> EmptyString ->
        image_bytes_to_vec content = Py.Return v ->
        In c (AiSearch.select_candidates search_similar_reports db st v) ->
        Report.location c = Geo.LocDict (Some cs) ->
        malformed cs ->
        Py.status_code_of
          (AiSearch.ai_search image_bytes_to_vec search_similar_reports now
             db content user_lat user_lng radius_km search_type) = 500)
  /\ (forall float loc e,
        Geo._coords loc = Py.Raise e ->
        Reports._extract_coords float loc = None)
  /\ (forall float (lon lat : Geo.member),
        Reports._extract_coords float
          (Geo.LocDict (Some (Geo.Sequence [lon; lat])))
        = Some (Geo.of_member lat, Geo.of_member lon))
  /\ (forall float loc la lo,
        Reports._extract_coords float loc = Some (la, lo) ->
        (exists lon lat,
           loc = Geo.LocDict (Some (Geo.Sequence [lon; lat]))
           /\ la = Geo.of_member lat /\ lo = Geo.of_member lon)
        \/ exists s x y,
             loc = Geo.LocStr s /\ Py.contains "POINT(" s = true
             /\ la = Geo.VFloat y /\ lo = Geo.VFloat x).
Proof.
  split; [exact _coords_wrong_length |].
  split; [reflexivity |].
  split; [| split; [| split; [| split; [reflexivity |] ] ] ].
  - intros db report_id radius_km top_k base [base_lat base_lon] c cs
      Hbase Hpt Hin Hcand Hloc Hbad.
    unfold Matches.auto_match. rewrite Hbase. cbn [Py.single]. rewrite Hpt.
    set (radius := match radius_km with Some r => r | None => 10%R end).
    destruct (score_candidate_malformed base_lat base_lon radius
                (Matches.label_set (Report.labels base)) c cs Hloc Hbad)
      as [e He].
    destruct (auto_match_loop_raises base_lat base_lon radius
                (Matches.label_set (Report.labels base))
                (List.filter (Matches.is_candidate base) db) c e) as [e' He'];
      [apply filter_In; now split | exact He |].
    now rewrite He'.
  - intros image_bytes_to_vec search_similar_reports now db content
      user_lat user_lng radius_km search_type st v c cs
      Hst Hvalid Hcontent Hvec Hin Hloc Hbad.
    unfold AiSearch.ai_search. rewrite <- Hst.
    assert (Hv : negb (String.eqb st "lost" || String.eqb st "found"
                       || String.eqb st "both") = false).
    { destruct Hvalid as [-> | [-> | ->]]; reflexivity. }
    rewrite Hv.
    destruct (String.eqb_spec content EmptyString) as [-> | _];
      [contradiction |].
    rewrite Hvec.
    set (radius := match radius_km with Some r => r | None => 10%R end).
    destruct (search_candidate_malformed now user_lat user_lng radius c cs
                Hloc Hbad) as [e He].
    destruct (ai_search_loop_raises now user_lat user_lng radius
                (AiSearch.select_candidates search_similar_reports db st v)
                c e Hin He) as [e' He'].
    now rewrite He'.
  - intros float loc e He.
    apply _coords_raise_inv in He as (cs & -> & Hbad).
    destruct cs as [items |]; [| reflexivity].
    destruct items as [| lon [| lat [| extra items]]]; simpl in *;
      try reflexivity; lia.
  - intros float loc la lo Hc. destruct loc as [| s | [[items |] |]];
      simpl in Hc; try discriminate.
    + right.
      destruct (String.eqb s EmptyString); [discriminate |].
      destruct (Py.contains "POINT(" s) eqn:Hpoint; [| discriminate].
      destruct (Py.split_on "POINT(" s) as [| before [| after rest]];
        try discriminate.
      destruct (Py.split_on ")" after) as [| coords_str rest']; [discriminate |].
      destruct (List.map float (Py.split_ws coords_str))
        as [| [x |] [| [y |] [| extra tokens]]]; try discriminate.
      injection Hc as <- <-. now exists s, x, y.
    + left. destruct items as [| lon [| lat [| extra items]]]; try discriminate.
      injection Hc as <- <-. now exists lon, lat.
Qed.

(** * Label sets *)

Section LabelFacts.
Import Py.
Context {builtins : Builtins}.

Lemma unlabeled_label_text (it : label_item) :
  unlabeled it -> Matches.label_text it = EmptyString.
Proof.
  intros [[Hl | Hl] [Hd | Hd]]; unfold Matches.label_text;
    rewrite Hl, Hd; reflexivity.
Qed.

Lemma label_set_elem (items : list label_item) (s : string) :
  s ∈ Matches.label_set (LabelsDict (Some items)) <->
  exists it, In it items /\ Matches.truthy it = true
             /\ Matches.label_text it = s.
Proof.
  unfold Matches.label_set.
  rewrite elem_of_list_to_set, list_elem_of_In, in_map_iff.
  split.
  - intros (it & Ht & Hin). apply filter_In in Hin as [Hin Htr]. now exists it.
  - intros (it & Hin & Htr & Ht). exists it. split; [exact Ht |].
    apply filter_In. now split.
Qed.

Lemma overlap_pos (base_labels : gset string) (c : Report.report) (s : string) :
  s ∈ base_labels -> s ∈ Matches.label_set (Report.labels c) ->
  1 <= Matches.overlap base_labels c.
Proof.
  intros Hb Hc. unfold Matches.overlap.
  rewrite <- (size_singleton (C := gset string) s).
  apply subseteq_size. set_solver.
Qed.

End LabelFacts.

(** C9, as the code has it. An entry of the labels array that is a
    non-empty object with neither a non-empty [label] nor a non-empty
    [description] is mapped to the empty text, which then belongs to the
    label set; two reports that each carry such an entry have a label
    overlap of at least 1, worth 10 points of score, whatever their
    label texts. An empty object in the array is dropped by the [if it]
    filter and contributes nothing. *)
Theorem unlabeled_entries_overlap {builtins : Py.Builtins} :
  (forall items it,
     In it items -> Matches.truthy it = true -> unlabeled it ->
     EmptyString ∈ Matches.label_set (LabelsDict (Some items)))
  /\ (forall (base c : Report.report) items1 items2 it1 it2 (d : R),
        Report.labels base = LabelsDict (Some items1) ->
        Report.labels c = LabelsDict (Some items2) ->
        In it1 items1 -> Matches.truthy it1 = true -> unlabeled it1 ->
        In it2 items2 -> Matches.truthy it2 = true -> unlabeled it2 ->
        let n := Matches.overlap (Matches.label_set (Report.labels base)) c in
        1 <= n /\ (10 - d * 0.2 <= Matches.raw_score n d)%R)
  /\ (forall items,
        Matches.label_set (LabelsDict (Some ([] :: items)))
        = Matches.label_set (LabelsDict (Some items))).
Proof.
  assert (H1 : forall items it,
            In it items -> Matches.truthy it = true -> unlabeled it ->
            EmptyString ∈ Matches.label_set (LabelsDict (Some items))).
  { intros items it Hin Htr Hun. apply label_set_elem. exists it.
    repeat split; auto. now apply unlabeled_label_text. }
  split; [exact H1 | split].
  - intros base c items1 items2 it1 it2 d Hb Hc Hi1 Ht1 Hu1 Hi2 Ht2 Hu2 n.
    assert (Hn : 1 <= n).
    { apply (overlap_pos _ _ EmptyString).
      - rewrite Hb. eapply H1; eauto.
      - rewrite Hc. eapply H1; eauto. }
    split; [exact Hn |].
    unfold Matches.raw_score. apply le_INR in Hn. simpl in Hn. lra.
  - intros items. reflexivity.
Qed.

Section LabelExamples.
Existing Instance Py.ascii_half_even.

(** C9 as stated fails on an entry that is an empty object: it has
    neither field, yet the label set is empty and the overlap of two
    such reports is 0. *)
Lemma empty_entry_is_dropped :
  In ([] : label_item) [[]]
  /\ unlabeled []
  /\ Matches.label_set (LabelsDict (Some [[]])) = ∅
  /\ (EmptyString ∉ Matches.label_set (LabelsDict (Some [[]])))
  /\ size (Matches.label_set (LabelsDict (Some [[]]))
           ∩ Matches.label_set (LabelsDict (Some [[]]))) = 0.
Proof.
  split; [now left |].
  split; [split; now left |].
  split; [reflexivity |].
  split; [set_solver |].
  reflexivity.
Qed.

End LabelExamples.

(** * Auto-match *)

Section AutoMatchFacts.
Import Py Geo.
Context {builtins : Builtins}.
Local Open Scope R_scope.

Lemma Rleb_true (x y : R) : Rleb x y = true <-> x <= y.
Proof. unfold Rleb. destruct (Rle_dec x y); split; auto; discriminate. Qed.

Lemma Rleb_false (x y : R) : Rleb x y = false <-> ~ x <= y.
Proof. unfold Rleb. destruct (Rle_dec x y); split; auto; try discriminate. tauto. Qed.






End AutoMatchFacts.


(** * Distances and roundings on sample points *)

Section GeoFacts.
Local Open Scope R_scope.

Lemma haversine_meridian (lat1 lat2 lon : R) :
  0 <= lat2 - lat1 <= 180 ->
  Geo.haversine_km lat1 lon lat2 lon = 6371 * Geo.radians (lat2 - lat1).
Proof.
  intros [Hlo Hhi]. unfold Geo.haversine_km.
  replace (lon - lon) with 0 by ring.
  assert (H0 : Geo.radians 0 / 2 = 0) by (unfold Geo.radians; lra).
  rewrite H0, sin_0.
  set (x := Geo.radians (lat2 - lat1) / 2).
  pose proof PI_RGT_0 as Hpi.
  assert (Hx : 0 <= x <= PI / 2) by (unfold x, Geo.radians; split; nra).
  replace (sin x ^ 2 + cos (Geo.radians lat1) * cos (Geo.radians lat2) * 0 ^ 2)
    with (sin x ^ 2) by ring.
  rewrite sqrt_pow2 by (apply sin_ge_0; lra).
  rewrite asin_sin by lra.
  unfold x. lra.
Qed.

Lemma haversine_same_point (lat lon : R) : Geo.haversine_km lat lon lat lon = 0.
Proof. rewrite haversine_meridian by lra. unfold Geo.radians. lra. Qed.

End GeoFacts.

(** Decides the comparisons of concrete reals met while a handler is
    evaluated. *)
Ltac decide_R :=
  repeat match goal with
  | |- context [Rle_dec ?a ?b] => destruct (Rle_dec a b); [| exfalso; lra]
  | |- context [Rle_dec ?a ?b] => destruct (Rle_dec a b); [exfalso; lra |]
  | |- context [Rlt_dec ?a ?b] => destruct (Rlt_dec a b); [| exfalso; lra]
  | |- context [Rlt_dec ?a ?b] => destruct (Rlt_dec a b); [exfalso; lra |]
  | |- context [Rge_dec ?a ?b] => destruct (Rge_dec a b); [| exfalso; lra]
  | |- context [Rge_dec ?a ?b] => destruct (Rge_dec a b); [exfalso; lra |]
  | |- context [Rgt_dec ?a ?b] => destruct (Rgt_dec a b); [| exfalso; lra]
  | |- context [Rgt_dec ?a ?b] => destruct (Rgt_dec a b); [exfalso; lra |]
  end.

Section RankSample.
Context {builtins : Py.Builtins}.
Local Open Scope R_scope.

Lemma rank_d1 : Geo.haversine_km 0 0 (63 / 1274200) 0 = 7 * PI / 4000.
Proof. rewrite haversine_meridian by lra. unfold Geo.radians. lra. Qed.

Lemma rank_d2 : Geo.haversine_km 0 0 (153 / 3185500) 0 = 17 * PI / 10000.
Proof. rewrite haversine_meridian by lra. unfold Geo.radians. lra. Qed.

Lemma rank_score1 : Py.round (INR 0 * 10 - 7 * PI / 4000 * 0.2) 3 = -1 / 1000.
Proof.
  pose proof PI2_3_2. pose proof PI_4.
  rewrite (round_near _ _ (-1)); simpl; lra.
Qed.

Lemma rank_score2 : Py.round (INR 0 * 10 - 17 * PI / 10000 * 0.2) 3 = -1 / 1000.
Proof.
  pose proof PI2_3_2. pose proof PI_4.
  rewrite (round_near _ _ (-1)); simpl; lra.
Qed.




(** The two entries auto-match ranks for the sample base report. *)
Lemma rank_answer (top_k : option Z) :
  Matches.auto_match rank_db "base" None top_k
  = Py.Ok {| Matches.report_id := "base";
             Matches.radius_km := 10;
             Matches.total_candidates := 2;
             Matches.top_k :=
               Py.slice_to (match top_k with Some k => k | None => 5%Z end)
                 [ {| Matches.candidate := rank_c1;
                      Matches.distance_km := Py.round (7 * PI / 4000) 2;
                      Matches.label_overlap := 0;
                      Matches.score := -1 / 1000 |};
                   {| Matches.candidate := rank_c2;
                      Matches.distance_km := Py.round (17 * PI / 10000) 2;
                      Matches.label_overlap := 0;
                      Matches.score := -1 / 1000 |} ] |}.
Proof.
  pose proof PI2_3_2 as Hpi1. pose proof PI_4 as Hpi2.
  unfold Matches.auto_match.
  cbn [rank_db List.filter rank_base rank_c1 rank_c2 point_report Report.id
       String.eqb Ascii.eqb Bool.eqb Py.single Report.location Geo._coords
       Matches.is_candidate Report.type Report.status Report.species
       Reports.opposite_type andb Matches.score_candidates
       Matches.score_candidate Py.bind Matches.in_box Geo.haversine_members].
  unfold Py.Rleb.
  decide_R. cbn [andb Py.bind].
  decide_R. cbn [andb Py.bind].
  rewrite rank_d1, rank_d2.
  decide_R. cbn [andb Py.bind].
  unfold Matches.overlap.
  assert (Hs1 : size (Matches.label_set (Report.labels rank_base)
                      ∩ Matches.label_set (Report.labels rank_c1)) = 0%nat)
    by (vm_compute; reflexivity).
  assert (Hs2 : size (Matches.label_set (Report.labels rank_base)
                      ∩ Matches.label_set (Report.labels rank_c2)) = 0%nat)
    by (vm_compute; reflexivity).
  cbn [rank_base rank_c1 rank_c2 point_report] in Hs1, Hs2.
  rewrite Hs1, Hs2.
  unfold Matches.raw_score.
  rewrite rank_score1, rank_score2.
  cbn [Py.sort_by Py.insert_by]. unfold Matches.score_ge_dec.
  cbn [Matches.score].
  decide_R. reflexivity.
Qed.


End RankSample.

Section RankExamples.
Import Py Geo.
Existing Instance ascii_half_even.
Local Open Scope R_scope.




(** A three-element coordinates array fails both requests and is skipped
    by the nearby listing. *)
Lemma malformed_coordinates_witness :
  Matches.auto_match bad_db "base" None None
  = HTTPException 500 "Internal Server Error"
  /\ Reports._extract_coords decimal_float (Report.location bad_candidate)
     = None.
Proof.
  destruct malformed_coordinates_fail_the_request
    as (_ & _ & Hauto & _ & Hext & _).
  split.
  - apply (Hauto bad_db "base"%string None None rank_base
             (MNumber 0, MNumber 0) bad_candidate
             (Sequence [MNumber 0; MNumber 0; MNumber 0])).
    + reflexivity.
    + reflexivity.
    + simpl. auto.
    + reflexivity.
    + reflexivity.
    + simpl. lia.
  - apply (Hext decimal_float _ "ValueError"%string). reflexivity.
Defined.

(** C10 as stated fails on the extractor of the reports router: it
    answers with a pair, not with [None], for coordinates that are two
    texts, for a text without its closing parenthesis and for a text
    that names floats that are not finite; and the nearby listing then
    fails on the first of them. *)
Lemma extractor_returns_pairs_on_malformed_locations :
  Reports._extract_coords decimal_float
    (LocDict (Some (Sequence [MOther; MOther])))
  = Some (VOther, VOther)
  /\ Reports._extract_coords decimal_float (LocStr "POINT(1 2")
     = Some (VFloat (Finite 2), VFloat (Finite 1))
  /\ Reports._extract_coords decimal_float (LocStr "POINT(inf nan)")
     = Some (VFloat NaN, VFloat (Infinity false))
  /\ status_code_of
       (Reports.get_nearby_reports decimal_float [texts_report] 0 0 None)
     = 500%nat.
Proof.
  split; [reflexivity |].
  split; [vm_compute; do 2 f_equal; do 2 f_equal; lra |].
  split; reflexivity.
Qed.

End RankExamples.

(** * AI search *)

Section AiSearchFacts.
Import Py Geo.
Context {builtins : Builtins}.
Local Open Scope R_scope.

Lemma color_score_zero (c : Report.report) : AiSearch.color_score_of c = 0.
Proof.
  unfold AiSearch.color_score_of.
  destruct (AiSearch.is_nil (Report.colors c)); reflexivity.
Qed.

Lemma location_score_cases (d r : R) :
  (d <= 0 -> AiSearch.calculate_location_score d r = 100)
  /\ (0 < d -> r <= d -> AiSearch.calculate_location_score d r = 0)
  /\ (0 < d < r ->
      AiSearch.calculate_location_score d r = Rmax 0 (100 - d / r * 100)
      /\ Rmax 0 (100 - d / r * 100) = 100 - d / r * 100).
Proof.
  unfold AiSearch.calculate_location_score. repeat split.
  - intros H. destruct (Rle_dec d 0); [reflexivity | lra].
  - intros H1 H2. destruct (Rle_dec d 0); [lra |].
    destruct (Rge_dec d r); [reflexivity | lra].
  - destruct (Rle_dec d 0); [lra |]. destruct (Rge_dec d r); [lra | reflexivity].
  - apply Rmax_right.
    assert (Hr : 0 < r) by lra.
    assert (Hq : d / r < 1).
    { apply (Rmult_lt_reg_r r); [exact Hr |]. unfold Rdiv.
      rewrite Rmult_assoc, Rinv_l by lra. lra. }
    lra.
Qed.


Lemma confidence_cases (total : R) :
  (70 <= total -> AiSearch.confidence_of total = "Alta"%string)
  /\ (50 <= total < 70 -> AiSearch.confidence_of total = "Media"%string)
  /\ (total < 50 -> AiSearch.confidence_of total = "Baja"%string).
Proof.
  unfold AiSearch.confidence_of. repeat split; intros H.
  - destruct (Rge_dec total 70); [reflexivity | lra].
  - destruct (Rge_dec total 70); [lra |].
    destruct (Rge_dec total 50); [reflexivity | lra].
  - destruct (Rge_dec total 70); [lra |].
    destruct (Rge_dec total 50); [lra | reflexivity].
Qed.

Lemma search_scored_spec (now : Z) (user_lat user_lng radius_km : R)
    (c : Report.report) (e : AiSearch.search_entry) :
  search_scored now user_lat user_lng radius_km c = Some e <->
  exists cand_lat cand_lng,
    geojson_point c = Some (cand_lat, cand_lng)
    /\ great_circle_km user_lat user_lng cand_lat cand_lng <= radius_km
    /\ AiSearch.score_entry now radius_km c
         (great_circle_km user_lat user_lng cand_lat cand_lng) = Some e.
Proof.
  unfold search_scored.
  destruct (geojson_point c) as [[la lo] |].
  - destruct (Rlt_dec radius_km (great_circle_km user_lat user_lng la lo)).
    + split; [discriminate |].
      intros (la' & lo' & [= <- <-] & Hle & _). lra.
    + split.
      * intros He. exists la, lo. repeat split; auto. lra.
      * intros (la' & lo' & [= <- <-] & _ & He). exact He.
  - split; [discriminate |]. intros (? & ? & Hc & _). discriminate.
Qed.

Lemma score_entry_spec (now : Z) (radius_km : R) (c : Report.report)
    (d : R) (e : AiSearch.search_entry) :
  AiSearch.score_entry now radius_km c d = Some e <->
  let total :=
    AiSearch.total_of (AiSearch.visual_score_of c) (AiSearch.color_score_of c)
      (AiSearch.calculate_location_score d radius_km)
      (AiSearch.calculate_time_score now (Report.created_at c)) in
  30 <= total
  /\ e = {| AiSearch.candidate := c;
            AiSearch.distance_km := round d 2;
            AiSearch.visual_similarity := round (AiSearch.visual_score_of c) 1;
            AiSearch.color_similarity := round (AiSearch.color_score_of c) 1;
            AiSearch.location_score :=
              round (AiSearch.calculate_location_score d radius_km) 1;
            AiSearch.time_score :=
              round (AiSearch.calculate_time_score now (Report.created_at c)) 1;
            AiSearch.total_score := round total 1;
            AiSearch.match_confidence := AiSearch.confidence_of total |}.
Proof.
  cbv zeta. unfold AiSearch.score_entry.
  match goal with |- context [Rge_dec ?t 30] => destruct (Rge_dec t 30) end.
  - split.
    + intros [= <-]. split; [lra | reflexivity].
    + intros [_ ->]. reflexivity.
  - split; [discriminate |]. intros [H _]. lra.
Qed.

(** A turn of the loop on a candidate that does not fail the request. *)
Lemma search_candidate_returns (now : Z) (user_lat user_lng radius_km : R)
    (c : Report.report) :
  ~ fails_ai_search c ->
  AiSearch.search_candidate now user_lat user_lng radius_km c
  = Return (search_scored now user_lat user_lng radius_km c).
Proof.
  intros Hok.
  unfold AiSearch.search_candidate, search_scored, geojson_point,
    fails_ai_search in *.
  destruct (Report.location c) as [| s | [[items |] |]]; try reflexivity;
    [| exfalso; apply Hok; exact I].
  destruct items as [| lon [| lat [| extra items]]];
    try (exfalso; apply Hok; simpl; lia).
  destruct lon as [lon |]; [| exfalso; apply Hok; now left].
  destruct lat as [lat |]; [| exfalso; apply Hok; now right].
  cbn [_coords bind haversine_members].
  change (haversine_km user_lat user_lng lat lon)
    with (great_circle_km user_lat user_lng lat lon).
  destruct (Rlt_dec radius_km (great_circle_km user_lat user_lng lat lon));
    reflexivity.
Qed.

Lemma search_loop_returns (now : Z) (user_lat user_lng radius_km : R)
    (candidates : list Report.report) :
  (forall c, In c candidates -> ~ fails_ai_search c) ->
  AiSearch.search_candidates now user_lat user_lng radius_km candidates
  = Return (omap (search_scored now user_lat user_lng radius_km) candidates).
Proof.
  induction candidates as [| c rest IH]; intros Hok; [reflexivity |].
  cbn [AiSearch.search_candidates omap list_omap].
  rewrite search_candidate_returns by (apply Hok; now left).
  rewrite IH by (intros; apply Hok; now right).
  cbn [bind].
  now destruct (search_scored now user_lat user_lng radius_km c).
Qed.

End AiSearchFacts.


Section SearchSample.
Context {builtins : Py.Builtins}.
Local Open Scope R_scope.

Lemma sample_scored (id : string) (sim : R) :
  30 <= sim * 100 * 0.4 + 30 ->
  search_scored 0 0 0 10 (point_report id "lost" 0 0 (Some sim) (Some 0%Z))
  = Some {| AiSearch.candidate :=
              point_report id "lost" 0 0 (Some sim) (Some 0%Z);
            AiSearch.distance_km := Py.round 0 2;
            AiSearch.visual_similarity := Py.round (sim * 100) 1;
            AiSearch.color_similarity := Py.round 0 1;
            AiSearch.location_score := Py.round 100 1;
            AiSearch.time_score := Py.round 100 1;
            AiSearch.total_score := Py.round (sim * 100 * 0.4 + 30) 1;
            AiSearch.match_confidence :=
              AiSearch.confidence_of (sim * 100 * 0.4 + 30) |}.
Proof.
  intros H. apply search_scored_spec. exists 0, 0.
  pose proof (haversine_same_point 0 0) as H0.
  change (Geo.haversine_km 0 0 0 0) with (great_circle_km 0 0 0 0) in H0.
  rewrite H0.
  split; [reflexivity |]. split; [lra |].
  apply score_entry_spec. cbv zeta.
  rewrite color_score_zero.
  rewrite (proj1 (location_score_cases 0 10)) by lra.
  assert (Ht : AiSearch.calculate_time_score 0
                 (Report.created_at
                    (point_report id "lost" 0 0 (Some sim) (Some 0%Z))) = 100)
    by reflexivity.
  rewrite Ht.
  assert (Htot : AiSearch.total_of
                   (AiSearch.visual_score_of
                      (point_report id "lost" 0 0 (Some sim) (Some 0%Z)))
                   0 100 100 = sim * 100 * 0.4 + 30).
  { unfold AiSearch.total_of, AiSearch.visual_score_of. simpl. lra. }
  rewrite Htot. split; [exact H | reflexivity].
Qed.

Lemma sample_valid (rpc : list R -> Py.py (list Report.report))
    (data : list Report.report) :
  rpc [] = Py.Return data -> data <> [] ->
  AiSearch.ai_search sample_embed rpc 0 [] "img" 0 0 None None
  = match AiSearch.search_candidates 0 0 0 10 data with
    | Py.Raise e => Py.HTTPException 500 ("Error en búsqueda IA: " ++ e)
    | Py.Return results =>
        let results :=
          Py.sort_by AiSearch.total_ge AiSearch.total_ge_dec results in
        Py.Ok {| AiSearch.matches := firstn 20 results;
                 AiSearch.total_candidates := length data;
                 AiSearch.filtered_results := length results;
                 AiSearch.returned_results := length (firstn 20 results);
                 AiSearch.detected_species :=
                   match data with
                   | first :: _ => Some (Report.species first)
                   | [] => None
                   end |}
    end.
Proof.
  intros Hrpc Hdata. unfold AiSearch.ai_search, AiSearch.select_candidates.
  simpl. rewrite Hrpc. destruct data; [contradiction | reflexivity].
Qed.


Lemma edge_answer :
  AiSearch.ai_search sample_embed edge_rpc 0 [] "img" 0 0 None None
  = Py.Ok {| AiSearch.matches :=
               [ {| AiSearch.candidate := edge_s;
                    AiSearch.distance_km := Py.round 0 2;
                    AiSearch.visual_similarity := Py.round (0.999 * 100) 1;
                    AiSearch.color_similarity := Py.round 0 1;
                    AiSearch.location_score := Py.round 100 1;
                    AiSearch.time_score := Py.round 100 1;
                    AiSearch.total_score := 70;
                    AiSearch.match_confidence := "Media" |} ];
             AiSearch.total_candidates := 1;
             AiSearch.filtered_results := 1;
             AiSearch.returned_results := 1;
             AiSearch.detected_species := Some "dog"%string |}.
Proof.
  rewrite (sample_valid edge_rpc [edge_s]) by (reflexivity || discriminate).
  rewrite search_loop_returns
    by (intros c [<- | []] [Hbad | Hbad]; discriminate).
  cbn [omap list_omap]. unfold edge_s.
  rewrite !sample_scored by lra.
  rewrite (round_near (0.999 * 100 * 0.4 + 30) 1 700) by (simpl; lra).
  rewrite (proj1 (proj2 (confidence_cases (0.999 * 100 * 0.4 + 30)))) by lra.
  cbv zeta. cbn [Py.sort_by Py.insert_by firstn length Report.species point_report].
  replace (700 / 10 ^ 1) with 70 by (simpl; lra). reflexivity.
Qed.

End SearchSample.

Section SearchExamples.
Existing Instance Py.ascii_half_even.



End SearchExamples.

(** * The matches table *)

Section MatchesTableFacts.
Import MatchesTable.
Local Open Scope R_scope.

Lemma fresh_id_above (tbl : matches) (m : Match.match_row) :
  In m tbl -> (Match.id m < fresh_id tbl)%nat.
Proof.
  intros Hin. unfold fresh_id.
  assert (H : (Match.id m <= list_max (List.map Match.id tbl))%nat).
  { pose proof (proj1 (list_max_le (List.map Match.id tbl) _) (Nat.le_refl _)) as Hall.
    rewrite List.Forall_forall in Hall. apply Hall. now apply in_map. }
  lia.
Qed.

Lemma select_pair_In (l f : string) (tbl : matches) (m : Match.match_row) :
  In m (select_pair l f tbl) <->
  In m tbl /\ Match.lost_report_id m = l /\ Match.found_report_id m = f.
Proof.
  unfold select_pair. rewrite filter_In, andb_true_iff, !String.eqb_eq. tauto.
Qed.

Lemma select_pair_app (l f : string) (t1 t2 : matches) :
  select_pair l f (t1 ++ t2) = select_pair l f t1 ++ select_pair l f t2.
Proof. apply List.filter_app. Qed.

Lemma select_pair_map (l f : string) (g : Match.match_row -> Match.match_row)
    (tbl : matches) :
  (forall m, In m tbl ->
             Match.lost_report_id (g m) = Match.lost_report_id m
             /\ Match.found_report_id (g m) = Match.found_report_id m) ->
  select_pair l f (List.map g tbl) = List.map g (select_pair l f tbl).
Proof.
  induction tbl as [| m tbl IH]; intros Hg; [reflexivity |].
  simpl. destruct (Hg m (or_introl eq_refl)) as [-> ->].
  rewrite IH by (intros; apply Hg; now right).
  destruct (_ && _); reflexivity.
Qed.

Lemma insert_unique_ids (l f : string) (score : R) (by_ st : string)
    (tbl : matches) :
  unique_ids tbl -> unique_ids (insert l f score by_ st tbl).
Proof.
  unfold unique_ids, insert. intros H.
  rewrite List.map_app. simpl.
  apply NoDup_app. split; [exact H | split].
  - intros i Hi Hi'. apply list_elem_of_In in Hi. apply list_elem_of_In in Hi'.
    simpl in Hi'. destruct Hi' as [<- | []].
    apply in_map_iff in Hi as (m & Hm & Hin).
    apply fresh_id_above in Hin. lia.
  - apply NoDup_singleton.
Qed.

Lemma insert_unique_pairs (l f : string) (score : R) (by_ st : string)
    (tbl : matches) :
  select_pair l f tbl = [] ->
  unique_pairs tbl -> unique_pairs (insert l f score by_ st tbl).
Proof.
  unfold unique_pairs, insert. intros Hnone H l' f'.
  rewrite select_pair_app, length_app.
  unfold select_pair at 2. simpl.
  destruct (String.eqb_spec l l') as [<- |]; simpl; [| specialize (H l' f'); lia].
  destruct (String.eqb_spec f f') as [<- |]; simpl; [| specialize (H l f'); lia].
  rewrite Hnone. simpl. lia.
Qed.

Lemma update_unique_ids (g : Match.match_row -> Match.match_row) (i : nat)
    (tbl : matches) :
  (forall m, Match.id (g m) = Match.id m) ->
  unique_ids tbl -> unique_ids (fst (update g i tbl)).
Proof.
  unfold unique_ids, update. simpl. intros Hg H.
  rewrite List.map_map.
  erewrite List.map_ext; [exact H |].
  intros m. simpl. destruct (Nat.eqb (Match.id m) i); auto.
Qed.

Lemma update_unique_pairs (g : Match.match_row -> Match.match_row) (i : nat)
    (tbl : matches) :
  (forall m, In m tbl -> Match.id m = i ->
             Match.lost_report_id (g m) = Match.lost_report_id m
             /\ Match.found_report_id (g m) = Match.found_report_id m) ->
  unique_pairs tbl -> unique_pairs (fst (update g i tbl)).
Proof.
  unfold unique_pairs, update. simpl. intros Hg H l f.
  rewrite select_pair_map, length_map; [apply H |].
  intros m Hm. destruct (Nat.eqb_spec (Match.id m) i); auto.
Qed.

Lemma unique_ids_same_id (tbl : matches) (m m' : Match.match_row) :
  unique_ids tbl -> In m tbl -> In m' tbl -> Match.id m = Match.id m' -> m = m'.
Proof.
  unfold unique_ids. induction tbl as [| x tbl IH]; [contradiction |].
  simpl. intros Hnd Hm Hm' Hid. inversion Hnd as [| ? ? Hnotin Hnd']; subst.
  destruct Hm as [-> | Hm], Hm' as [-> | Hm']; auto.
  - exfalso. apply Hnotin, list_elem_of_In. rewrite Hid. now apply in_map.
  - exfalso. apply Hnotin, list_elem_of_In. rewrite <- Hid. now apply in_map.
Qed.

End MatchesTableFacts.

Section SavingFacts.
Import MatchesTable.
Context {builtins : Py.Builtins}.
Local Open Scope R_scope.

(** Automatic match discovery keeps the invariant: one turn of its
    saving loop, and so the whole loop. *)
Lemma save_match_keeps_invariant (report_id report_type : string)
    (tbl : matches) (m : string * R) :
  unique_ids tbl /\ unique_pairs tbl ->
  unique_ids (Reports.save_match report_id report_type tbl m)
  /\ unique_pairs (Reports.save_match report_id report_type tbl m).
Proof.
  intros [Hids Hpairs]. unfold Reports.save_match.
  destruct m as [candidate_id similarity].
  destruct (Reports.ordered_pair report_id report_type candidate_id)
    as [lost found].
  destruct (select_pair lost found tbl) as [| existing rest] eqn:Hsel.
  - split; [now apply insert_unique_ids | now apply insert_unique_pairs].
  - destruct (Rgt_dec similarity (Match.similarity_score existing));
      [| now split].
    assert (Hex : In existing (select_pair lost found tbl))
      by (rewrite Hsel; now left).
    apply select_pair_In in Hex as (Hin & Hl & Hf).
    split.
    + now apply update_unique_ids.
    + apply update_unique_pairs; [| exact Hpairs].
      intros m Hm Hid. simpl.
      assert (m = existing) by (eapply unique_ids_same_id; eauto).
      subst m. now rewrite Hl, Hf.
Qed.

Lemma find_and_save_matches_keeps_invariant (db : list Report.report)
    (tbl : matches) (report_id : string) (threshold : R) (max_matches : Z) :
  unique_ids tbl /\ unique_pairs tbl ->
  unique_ids (Reports.find_and_save_matches db tbl report_id threshold max_matches)
  /\ unique_pairs
       (Reports.find_and_save_matches db tbl report_id threshold max_matches).
Proof.
  intros H. unfold Reports.find_and_save_matches.
  destruct (List.filter _ db) as [| report _]; [exact H |].
  destruct (Report.embedding report) as [[| x v] |]; try exact H.
  generalize (Py.slice_to max_matches
                (Py.sort_by Reports.similarity_ge Reports.similarity_ge_dec
                   (Reports.matches_found (x :: v) threshold
                      (List.filter
                         (fun r => String.eqb (Report.type r)
                                     (Reports.opposite_type (Report.type report))
                                   && Reports.is_active r
                                   && match Report.embedding r with
                                      | Some _ => true
                                      | None => false
                                      end) db)))).
  intros found. revert tbl H.
  induction found as [| m found IH]; intros tbl H; [exact H |].
  simpl. apply IH. now apply save_match_keeps_invariant.
Qed.

(** The direct-match finder keeps it too. *)
Lemma save_direct_match_keeps_invariant (report_id report_type : string)
    (tbl : matches) (m : string * R) :
  unique_ids tbl /\ unique_pairs tbl ->
  unique_ids (DirectMatches.save_direct_match report_id report_type tbl m)
  /\ unique_pairs (DirectMatches.save_direct_match report_id report_type tbl m).
Proof.
  intros [Hids Hpairs]. unfold DirectMatches.save_direct_match.
  destruct m as [match_report_id similarity_score].
  destruct (Reports.ordered_pair report_id report_type match_report_id)
    as [lost found].
  destruct (select_pair lost found tbl) as [| existing rest] eqn:Hsel.
  - split; [now apply insert_unique_ids | now apply insert_unique_pairs].
  - destruct (Rgt_dec similarity_score (Match.similarity_score existing));
      [| now split].
    split.
    + now apply update_unique_ids.
    + apply update_unique_pairs; [| exact Hpairs]. intros m _ _. now split.
Qed.

Lemma _save_matches_to_db_keeps_invariant (tbl : matches)
    (report_id report_type : string) (found : list (string * R)) :
  unique_ids tbl /\ unique_pairs tbl ->
  unique_ids (DirectMatches._save_matches_to_db tbl report_id report_type found)
  /\ unique_pairs
       (DirectMatches._save_matches_to_db tbl report_id report_type found).
Proof.
  unfold DirectMatches._save_matches_to_db. revert tbl.
  induction found as [| m found IH]; intros tbl H; [exact H |].
  simpl. apply IH. now apply save_direct_match_keeps_invariant.
Qed.

End SavingFacts.

Section DiscoveryTwice.
Import MatchesTable.
Context {builtins : Py.Builtins}.
Local Open Scope R_scope.

Lemma update_other_ids (g : Match.match_row -> Match.match_row) (i : nat)
    (tbl : matches) :
  (forall m, In m tbl -> Match.id m <> i) ->
  List.map (fun m => if Nat.eqb (Match.id m) i then g m else m) tbl = tbl.
Proof.
  induction tbl as [| m tbl IH]; intros H; [reflexivity |].
  simpl. rewrite IH by (intros; apply H; now right).
  destruct (Nat.eqb_spec (Match.id m) i) as [Heq | _]; [| reflexivity].
  exfalso. now apply (H m (or_introl eq_refl)).
Qed.

(** Running the saving step of match discovery twice for one pair, the
    second time with a score above the stored one, leaves exactly one
    row for the pair, carrying the second score. *)
Lemma discovery_twice_one_row (report_id candidate_id : string)
    (tbl : matches) (s1 s2 : R) :
  select_pair report_id candidate_id tbl = [] ->
  s2 > Py.round s1 4 ->
  let tbl1 := Reports.save_match report_id "lost" tbl (candidate_id, s1) in
  let tbl2 := Reports.save_match report_id "lost" tbl1 (candidate_id, s2) in
  length tbl2 = S (length tbl)
  /\ select_pair report_id candidate_id tbl2
     = [Match.mk (fresh_id tbl) report_id candidate_id (Py.round s2 4)
          "ai_visual" "pending"].
Proof.
  intros Hnone Hgt tbl1 tbl2.
  assert (H1 : tbl1 = tbl ++ [Match.mk (fresh_id tbl) report_id candidate_id
                                 (Py.round s1 4) "ai_visual" "pending"]).
  { unfold tbl1, Reports.save_match, Reports.ordered_pair. simpl.
    now rewrite Hnone. }
  assert (Hsel1 : select_pair report_id candidate_id tbl1
                  = [Match.mk (fresh_id tbl) report_id candidate_id
                       (Py.round s1 4) "ai_visual" "pending"]).
  { rewrite H1, select_pair_app, Hnone. unfold select_pair. simpl.
    now rewrite !String.eqb_refl. }
  assert (H2 : tbl2 = tbl ++ [Match.mk (fresh_id tbl) report_id candidate_id
                                 (Py.round s2 4) "ai_visual" "pending"]).
  { unfold tbl2, Reports.save_match, Reports.ordered_pair. simpl.
    rewrite Hsel1. simpl.
    destruct (Rgt_dec s2 (Py.round s1 4)); [| contradiction].
    rewrite H1, List.map_app. simpl. rewrite Nat.eqb_refl.
    rewrite update_other_ids; [reflexivity |].
    intros m Hm Heq. apply fresh_id_above in Hm. lia. }
  split.
  - rewrite H2, length_app. simpl. lia.
  - rewrite H2, select_pair_app, Hnone. unfold select_pair. simpl.
    now rewrite !String.eqb_refl.
Qed.

End DiscoveryTwice.

(** C1 fails on the search-by-image endpoint, which inserts its best
    result without looking for a row of the same pair: on a table that
    already holds the pending match of reports [L] and [F], a search for
    [L] whose best result is [F] leaves two rows for the pair. (The
    saving steps of match discovery and of the direct-match finder keep
    the invariant: [find_and_save_matches_keeps_invariant],
    [_save_matches_to_db_keeps_invariant], [discovery_twice_one_row].) *)
Theorem search_image_duplicates_pair {builtins : Py.Builtins} :
  unique_ids one_match /\ unique_pairs one_match
  /\ snd (EmbeddingsSupabase.search_image [("F"%string, 0.9%R)] 10
            (Some "L"%string) one_match)
     = [stored_match;
        Match.mk 2 "L" "F" (Py.round 0.9 4) "ai_visual" "pending"]
  /\ Py.round 0.9 4 = 0.9%R
  /\ length (MatchesTable.select_pair "L" "F"
               (snd (EmbeddingsSupabase.search_image [("F"%string, 0.9%R)] 10
                       (Some "L"%string) one_match))) = 2
  /\ ~ unique_pairs
         (snd (EmbeddingsSupabase.search_image [("F"%string, 0.9%R)] 10
                 (Some "L"%string) one_match)).
Proof.
  assert (Heq : snd (EmbeddingsSupabase.search_image [("F"%string, 0.9%R)] 10
                       (Some "L"%string) one_match)
                = [stored_match;
                   Match.mk 2 "L" "F" (Py.round 0.9 4) "ai_visual" "pending"])
    by reflexivity.
  assert (Hlen : length (MatchesTable.select_pair "L" "F"
                           [stored_match;
                            Match.mk 2 "L" "F" (Py.round 0.9 4)
                              "ai_visual" "pending"]) = 2) by reflexivity.
  split; [| split; [| split; [exact Heq | split; [| split]]]].
  - repeat constructor. intros H. apply list_elem_of_In in H. destruct H.
  - intros l f. unfold MatchesTable.select_pair, one_match. simpl.
    destruct (_ && _); simpl; lia.
  - rewrite (round_near _ _ 9000); simpl; lra.
  - now rewrite Heq.
  - rewrite Heq. intros H. specialize (H "L"%string "F"%string).
    rewrite Hlen in H. lia.
Qed.

(** * Create report *)

(** C2 fails on the code: [create_report] checks the five required
    fields and nothing else, so a body with all of them and six photos is
    inserted and answered with the created row. The body of the
    repository's own test of the photo limit is refused only because it
    lacks [reporter_id]. *)
Theorem create_report_accepts_six_photos :
  List.length [Py.JStr "photo0.jpg"; Py.JStr "photo1.jpg"; Py.JStr "photo2.jpg";
               Py.JStr "photo3.jpg"; Py.JStr "photo4.jpg"; Py.JStr "photo5.jpg"]
  = 6
  /\ Reports.create_report [] "r1" full_body
     = (Py.Ok {| Reports.created_report :=
                   ("id"%string, Py.JStr "r1") :: full_body;
                 Reports.created_message := "Reporte creado exitosamente" |},
        [("id"%string, Py.JStr "r1") :: full_body])
  /\ Reports.create_report [] "r1" test_body
     = (Py.HTTPException 400 "Campo requerido faltante: reporter_id", [])
  /\ (forall db new_id report_data,
        Reports.first_missing Reports.required_fields report_data = None ->
        snd (Reports.create_report db new_id report_data)
        = db ++ [("id"%string, Py.JStr new_id) :: report_data]).
Proof.
  split; [reflexivity |]. split; [reflexivity |]. split; [reflexivity |].
  intros db new_id report_data H. unfold Reports.create_report.
  now rewrite H.
Qed.

(** * Update match status *)

Section StatusFacts.
Import MatchesTable.

Lemma update_no_row (g : Match.match_row -> Match.match_row) (i : nat)
    (tbl : matches) :
  (forall m, In m tbl -> Match.id m <> i) -> update g i tbl = (tbl, []).
Proof.
  intros H. unfold update. f_equal.
  - now apply update_other_ids.
  - induction tbl as [| m tbl IH]; [reflexivity |].
    simpl. destruct (Nat.eqb_spec (Match.id m) i) as [Heq | _].
    + exfalso. now apply (H m (or_introl eq_refl)).
    + apply IH. intros; apply H; now right.
Qed.

Lemma update_some_row (g : Match.match_row -> Match.match_row) (i : nat)
    (tbl : matches) :
  (exists m, In m tbl /\ Match.id m = i) -> snd (update g i tbl) <> [].
Proof.
  intros (m & Hin & Hid). unfold update. simpl.
  assert (Hf : In m (List.filter (fun m => Nat.eqb (Match.id m) i) tbl)).
  { apply filter_In. split; [exact Hin |]. now apply Nat.eqb_eq. }
  destruct (List.filter _ tbl); [contradiction | discriminate].
Qed.

End StatusFacts.

(** C6. A status other than [accepted] and [rejected] is refused with 400
    and the table is left as it was; an accepted value for an identifier
    no row carries is refused with 404, the table unchanged; otherwise
    the answer is a success and the table differs from the old one only
    in the status of the rows with that identifier: every other field,
    [similarity_score] among them, and every other row are kept. *)
Theorem update_match_status_sets_only_status
    (tbl : MatchesTable.matches) (match_id : nat) (status : string) :
  (status <> "accepted"%string -> status <> "rejected"%string ->
   Matches.update_match_status tbl match_id status
   = (Py.HTTPException 400 "El estado debe ser 'accepted' o 'rejected'", tbl))
  /\ (status = "accepted"%string \/ status = "rejected"%string ->
      (forall m, In m tbl -> Match.id m <> match_id) ->
      Matches.update_match_status tbl match_id status
      = (Py.HTTPException 404 ("Match " ++ pretty match_id ++ " no encontrado"),
         tbl))
  /\ (status = "accepted"%string \/ status = "rejected"%string ->
      (exists m, In m tbl /\ Match.id m = match_id) ->
      exists tbl',
        Matches.update_match_status tbl match_id status
        = (Py.Ok {| Matches.success := true;
                    Matches.match_id := match_id;
                    Matches.new_status := status |}, tbl')
        /\ Forall2
             (fun old new =>
                Match.id new = Match.id old
                /\ Match.lost_report_id new = Match.lost_report_id old
                /\ Match.found_report_id new = Match.found_report_id old
                /\ Match.similarity_score new = Match.similarity_score old
                /\ Match.matched_by new = Match.matched_by old
                /\ Match.status new
                   = if Nat.eqb (Match.id old) match_id then status
                     else Match.status old)
             tbl tbl').
Proof.
  assert (Hvalid : status = "accepted"%string \/ status = "rejected"%string ->
                   negb (String.eqb status "accepted"
                         || String.eqb status "rejected") = false).
  { intros [-> | ->]; reflexivity. }
  split; [| split].
  - intros Ha Hr. unfold Matches.update_match_status.
    destruct (String.eqb_spec status "accepted"); [contradiction |].
    destruct (String.eqb_spec status "rejected"); [contradiction |].
    reflexivity.
  - intros Hst Hnone. unfold Matches.update_match_status.
    rewrite (Hvalid Hst), update_no_row by exact Hnone. reflexivity.
  - intros Hst Hsome. unfold Matches.update_match_status.
    rewrite (Hvalid Hst). cbv iota.
    pose proof (update_some_row (Matches.set_status status) match_id tbl Hsome)
      as Hdata.
    destruct (MatchesTable.update (Matches.set_status status) match_id tbl)
      as [tbl' data] eqn:Hup.
    simpl in Hdata. destruct data as [| row data]; [contradiction |].
    exists tbl'. split; [reflexivity |].
    unfold MatchesTable.update in Hup. injection Hup as <- _.
    clear. induction tbl as [| m tbl IH]; simpl; constructor; auto.
    destruct (Nat.eqb (Match.id m) match_id); simpl; auto 10.
Qed.

(** Accepting the stored pending match changes its status only. *)
Lemma update_match_status_witness :
  Matches.update_match_status one_match 1 "accepted"
  = (Py.Ok {| Matches.success := true;
              Matches.match_id := 1;
              Matches.new_status := "accepted" |},
     [Match.mk 1 "L" "F" 0.9%R "ai_visual" "accepted"])
  /\ Py.status_code_of (fst (Matches.update_match_status one_match 7 "accepted"))
     = 404
  /\ Py.status_code_of (fst (Matches.update_match_status one_match 1 "done"))
     = 400.
Proof.
  destruct (update_match_status_sets_only_status one_match 1 "accepted")
    as (_ & _ & Hok).
  destruct (update_match_status_sets_only_status one_match 7 "accepted")
    as (_ & Hnone & _).
  destruct (update_match_status_sets_only_status one_match 1 "done")
    as (Hbad & _ & _).
  split; [reflexivity |]. split.
  - rewrite Hnone; [reflexivity | now left |].
    intros m [<- | []]. discriminate.
  - rewrite Hbad; [reflexivity | discriminate | discriminate].
Defined.

(** * Normalisation of embeddings *)

Section NormFacts.
Import Embeddings.
Local Open Scope R_scope.

Lemma sum_squares_nonneg (v : list R) :
  0 <= fold_right Rplus 0 (List.map (fun x => x ^ 2) v).
Proof.
  induction v as [| x v IH]; simpl; [lra |].
  pose proof (pow2_ge_0 x). simpl in *. lra.
Qed.

Lemma l2_norm_nonneg (v : list R) : 0 <= l2_norm v.
Proof. apply sqrt_pos. Qed.

Lemma sum_squares_scale (v : list R) (n : R) :
  fold_right Rplus 0 (List.map (fun x => x ^ 2) (scale v n))
  = fold_right Rplus 0 (List.map (fun x => x ^ 2) v) * (/ n) ^ 2.
Proof.
  unfold scale. induction v as [| x v IH]; simpl; [lra |].
  simpl in IH. rewrite IH. unfold Rdiv. ring.
Qed.

Lemma l2_norm_scale (v : list R) :
  0 < l2_norm v -> l2_norm (scale v (l2_norm v)) = 1.
Proof.
  intros Hpos. unfold l2_norm at 1. rewrite sum_squares_scale.
  rewrite sqrt_mult; [| apply sum_squares_nonneg | apply pow2_ge_0].
  rewrite sqrt_pow2 by (left; now apply Rinv_0_lt_compat).
  fold (l2_norm v). field. lra.
Qed.

Lemma l2_norm_null (v : list R) :
  l2_norm v = 0 -> Forall (fun x => x = 0) v.
Proof.
  unfold l2_norm. intros Hz.
  apply sqrt_eq_0 in Hz; [| apply sum_squares_nonneg].
  induction v as [| x v IH]; [constructor |].
  cbn [List.map fold_right] in Hz.
  pose proof (pow2_ge_0 x) as Hx. pose proof (sum_squares_nonneg v) as Hv.
  constructor.
  - assert (Hsq : x ^ 2 = 0) by lra. simpl in Hsq. nra.
  - apply IH. lra.
Qed.

(** The division of the local backend: by a positive norm it is the
    scaling, and a null vector becomes a vector of NaN. *)
Lemma true_divide_by_norm (v : list R) :
  (0 < l2_norm v ->
   List.map (fun x => Py.true_divide x (l2_norm v)) v
   = List.map Py.Finite (scale v (l2_norm v)))
  /\ (l2_norm v = 0 ->
      List.map (fun x => Py.true_divide x (l2_norm v)) v
      = List.map (fun _ => Py.NaN) v).
Proof.
  split.
  - intros Hpos. unfold scale. rewrite List.map_map.
    apply List.map_ext. intros x. unfold Py.true_divide.
    destruct (Req_dec_T (l2_norm v) 0); [lra | reflexivity].
  - intros Hz. pose proof (l2_norm_null v Hz) as Hall. rewrite Hz.
    clear Hz. induction Hall as [| x v Hx Hall IH]; [reflexivity |].
    cbn [List.map]. rewrite IH. subst x. unfold Py.true_divide.
    destruct (Req_dec_T 0 0); [reflexivity | lra].
Qed.

End NormFacts.

(** C7, as the code has it. Over the reals, the local backend returns
    the feature vector of the model divided by its norm, which has
    Euclidean norm 1, unless the feature vector is null, in which case
    it returns a vector of NaN; the remote backend returns the body of a
    200 answer of the inference endpoint, divided by its norm, which has
    norm 1, unless that body has norm 0, in which case it is returned as
    it is. *)
Theorem embeddings_have_unit_norm :
  (forall (model : string -> Py.py (list R)) image_bytes vec,
     Embeddings._generate_embedding model image_bytes = Py.Return vec ->
     exists feats,
       model image_bytes = Py.Return feats
       /\ ((0 < Embeddings.l2_norm feats)%R ->
           vec = List.map Py.Finite
                   (Embeddings.scale feats (Embeddings.l2_norm feats))
           /\ Embeddings.l2_norm
                (Embeddings.scale feats (Embeddings.l2_norm feats)) = 1%R)
       /\ (Embeddings.l2_norm feats = 0%R ->
           vec = List.map (fun _ => Py.NaN) feats))
  /\ (forall (image_ok : string -> bool) (post : nat -> Py.py (nat * list R))
             image_bytes vec,
        Embeddings.generate_embedding_from_bytes image_ok post image_bytes
        = Some vec ->
        exists embedding,
          (post 0 = Py.Return (200, embedding)
           \/ exists body, post 0 = Py.Return (503, body)
                           /\ post 1 = Py.Return (200, embedding))
          /\ ((0 < Embeddings.l2_norm embedding)%R ->
              vec = Embeddings.scale embedding (Embeddings.l2_norm embedding)
              /\ Embeddings.l2_norm vec = 1%R)
          /\ (Embeddings.l2_norm embedding = 0%R -> vec = embedding)).
Proof.
  split.
  - intros model image_bytes vec. unfold Embeddings._generate_embedding.
    destruct (model image_bytes) as [feats | e]; simpl; [| discriminate].
    intros [= <-]. exists feats. split; [reflexivity |].
    destruct (true_divide_by_norm feats) as [Hpos Hnull].
    split.
    + intros Hn. split; [now apply Hpos | now apply l2_norm_scale].
    + exact Hnull.
  - intros image_ok post image_bytes vec.
    unfold Embeddings.generate_embedding_from_bytes.
    destruct (image_ok image_bytes); simpl; [| discriminate].
    destruct (post 0) as [[status_code body] | e] eqn:Hpost0; [| discriminate].
    assert (Hfinal : forall status embedding,
              (if negb (Nat.eqb status 200) then None
               else if Rgt_dec (Embeddings.l2_norm embedding) 0
                    then Some (Embeddings.scale embedding
                                 (Embeddings.l2_norm embedding))
                    else Some embedding) = Some vec ->
              status = 200
              /\ ((0 < Embeddings.l2_norm embedding)%R ->
                  vec = Embeddings.scale embedding (Embeddings.l2_norm embedding)
                  /\ Embeddings.l2_norm vec = 1%R)
              /\ (Embeddings.l2_norm embedding = 0%R -> vec = embedding)).
    { intros status embedding.
      destruct (Nat.eqb_spec status 200) as [-> | _]; simpl; [| discriminate].
      destruct (Rgt_dec (Embeddings.l2_norm embedding) 0) as [Hpos | Hnpos];
        intros [= <-]; (split; [reflexivity |]); split.
      - intros _. split; [reflexivity | now apply l2_norm_scale].
      - intros Hz. lra.
      - intros Hpos. lra.
      - reflexivity. }
    destruct (Nat.eqb_spec status_code 503) as [-> | Hne].
    + destruct (post 1) as [[status embedding] |] eqn:Hpost1; [| discriminate].
      intros H. apply Hfinal in H as (-> & H1 & H2).
      exists embedding. split; [right; now exists body |]. now split.
    + intros H. apply Hfinal in H as (-> & H1 & H2).
      exists body. split; [now left |]. now split.
Qed.

(** C7 as stated fails on the null vector: the remote backend returns it
    unchanged, with norm 0, and the local backend returns a vector of
    NaN for it. *)
Lemma remote_null_vector_is_returned :
  Embeddings.generate_embedding_from_bytes any_image
    (fixed_post [0%R; 0%R]) "img" = Some [0%R; 0%R]
  /\ Embeddings.l2_norm [0%R; 0%R] = 0%R
  /\ Embeddings.l2_norm [0%R; 0%R] <> 1%R
  /\ Embeddings._generate_embedding (fun _ => Py.Return [0%R; 0%R]) "img"
     = Py.Return [Py.NaN; Py.NaN].
Proof.
  assert (Hn : Embeddings.l2_norm [0%R; 0%R] = 0%R).
  { unfold Embeddings.l2_norm. simpl.
    replace (0 * (0 * 1) + (0 * (0 * 1) + 0))%R with 0%R by ring.
    apply sqrt_0. }
  split; [| split; [exact Hn | split; [rewrite Hn; lra |] ] ].
  - unfold Embeddings.generate_embedding_from_bytes, any_image, fixed_post.
    cbn [negb Nat.eqb]. rewrite Hn.
    destruct (Rgt_dec 0 0); [lra | reflexivity].
  - unfold Embeddings._generate_embedding. cbn [Py.bind]. f_equal.
    now apply (proj2 (true_divide_by_norm [0%R; 0%R])).
Qed.

(** The remote backend on the body [3, 4]. *)
Lemma embeddings_have_unit_norm_witness :
  exists vec,
    Embeddings.generate_embedding_from_bytes any_image
      (fixed_post [3%R; 4%R]) "img" = Some vec
    /\ Embeddings.l2_norm vec = 1%R.
Proof.
  assert (Hn : Embeddings.l2_norm [3%R; 4%R] = 5%R).
  { unfold Embeddings.l2_norm. simpl.
    replace (3 * (3 * 1) + (4 * (4 * 1) + 0))%R with (5 ^ 2)%R by ring.
    apply sqrt_pow2. lra. }
  assert (Hret : Embeddings.generate_embedding_from_bytes any_image
                   (fixed_post [3%R; 4%R]) "img"
                 = Some (Embeddings.scale [3%R; 4%R]
                           (Embeddings.l2_norm [3%R; 4%R]))).
  { unfold Embeddings.generate_embedding_from_bytes, any_image, fixed_post.
    cbn [negb Nat.eqb]. rewrite Hn.
    destruct (Rgt_dec 5 0); [reflexivity | lra]. }
  destruct embeddings_have_unit_norm as [_ Hremote].
  destruct (Hremote any_image (fixed_post [3%R; 4%R]) "img"%string _ Hret)
    as (embedding & [Hpost | (body & Hpost & _)] & Hunit & _);
    [| discriminate].
  injection Hpost as <-.
  eexists. split; [exact Hret |].
  apply Hunit. rewrite Hn. lra.
Defined.

(** * The status endpoint *)

(** C8, as the code has it. Without a client the endpoint answers
    [no_configurado]; with one it reads one row of the [image_analyses]
    table and answers [conectado] when the read succeeds, [error] with
    the message of the exception when it raises. *)
Theorem supabase_status_reads_image_analyses :
  Main.status (Main.supabase_status None) = "no_configurado"%string
  /\ (forall client : string -> Py.py unit,
        (forall u, client "image_analyses"%string = Py.Return u ->
                   Main.status (Main.supabase_status (Some client))
                   = "conectado"%string)
        /\ (forall e, client "image_analyses"%string = Py.Raise e ->
                      Main.status (Main.supabase_status (Some client))
                      = "error"%string
                      /\ Main.message (Main.supabase_status (Some client))
                         = ("Error conectando con Supabase: " ++ e)%string)).
Proof.
  split; [reflexivity |].
  intros client. split.
  - intros u H. unfold Main.supabase_status. now rewrite H.
  - intros e H. unfold Main.supabase_status. now rewrite H.
Qed.

(** C8 as stated fails: a client whose [reports] table can be read but
    which has no [image_analyses] table is answered [error]; one whose
    [reports] table cannot be read is answered [conectado]; and no answer
    is the text [connected] or [not_configured]. *)
Lemma supabase_status_ignores_reports :
  reports_only_client "reports" = Py.Return tt
  /\ Main.status (Main.supabase_status (Some reports_only_client))
     = "error"%string
  /\ analyses_only_client "reports" = Py.Raise "relation does not exist"
  /\ Main.status (Main.supabase_status (Some analyses_only_client))
     = "conectado"%string
  /\ "conectado"%string <> "connected"%string
  /\ Main.status (Main.supabase_status None) <> "not_configured"%string.
Proof.
  repeat split; try reflexivity; discriminate.
Qed.

(** * Further properties of the geometry *)

Section MoreGeoFacts.
Import Py Geo.
Local Open Scope R_scope.

(** X1. The distance does not depend on the order of the two points, and a
    point is at distance 0 of itself. *)
Theorem haversine_symmetric (lat1 lon1 lat2 lon2 : R) :
  haversine_km lat1 lon1 lat2 lon2 = haversine_km lat2 lon2 lat1 lon1
  /\ haversine_km lat1 lon1 lat1 lon1 = 0.
Proof.
  split; [| apply haversine_same_point].
  unfold haversine_km.
  assert (Hneg : forall a b, sin (radians (a - b) / 2) ^ 2
                             = sin (radians (b - a) / 2) ^ 2).
  { intros a b.
    replace (radians (a - b) / 2) with (- (radians (b - a) / 2))
      by (unfold radians; lra).
    rewrite sin_neg. ring. }
  rewrite (Hneg lat2 lat1), (Hneg lon2 lon1).
  do 3 f_equal. ring.
Qed.

(** X2. Between two points of one meridian the distance is the Earth radius
    times the difference of latitude in radians. *)
Theorem haversine_along_meridian (lat1 lat2 lon : R) :
  0 <= lat2 - lat1 <= 180 ->
  haversine_km lat1 lon lat2 lon = 6371 * ((lat2 - lat1) * (PI / 180)).
Proof. intros H. now rewrite haversine_meridian. Qed.

Lemma haversine_along_meridian_witness :
  haversine_km 0 10 90 10 = 6371 * ((90 - 0) * (PI / 180)).
Proof. apply haversine_along_meridian. lra. Defined.

End MoreGeoFacts.

Section ExtractorFacts.
Import Py Geo.
Local Open Scope string_scope.

(** X5. Wherever the extractor of the matches and AI-search routers finds
    coordinates, the extractor of the reports router finds the same
    ones; the converse fails on every PostGIS text, which the former
    never reads. *)
Theorem extractors_agree_on_geojson (float : string -> option number)
    (loc : location_data) (lat lon : member) :
  _coords loc = Return (Some (lat, lon)) ->
  Reports._extract_coords float loc = Some (of_member lat, of_member lon)
  /\ forall s, _coords (LocStr s) = Return None.
Proof.
  intros Hc. split; [| reflexivity].
  destruct loc as [| s | [[items |] |]]; simpl in Hc; try discriminate.
  destruct items as [| lon' [| lat' [| extra items]]]; try discriminate.
  now injection Hc as <- <-.
Qed.

Lemma extractors_agree_on_geojson_witness :
  Reports._extract_coords decimal_float
    (LocDict (Some (Sequence [MNumber 1; MNumber 2])))
  = Some (VFloat (Finite 2), VFloat (Finite 1))
  /\ forall s, _coords (LocStr s) = Return None.
Proof.
  apply (extractors_agree_on_geojson decimal_float
           (LocDict (Some (Sequence [MNumber 1; MNumber 2])))
           (MNumber 2) (MNumber 1)).
  reflexivity.
Defined.

End ExtractorFacts.

Section PostgisRoundTrip.
Import Py Geo.
Local Open Scope string_scope.

(** X6. A PostGIS text built from the texts of a longitude and a latitude is
    read back by the extractor of the reports router as the pair
    (latitude, longitude) of the numbers that [float] reads from the two
    texts, whenever the texts are non-empty and hold no whitespace, no
    closing parenthesis and no capital P. *)
Theorem postgis_text_round_trip (float : string -> option number)
    (lon lat : string) (x y : number) :
  plain_token lon = true -> plain_token lat = true ->
  float lon = Some x -> float lat = Some y ->
  Reports._extract_coords float (LocStr (postgis_text lon lat))
  = Some (VFloat y, VFloat x).
Proof. apply postgis_text_reads_back. Qed.

Lemma postgis_text_round_trip_witness :
  Reports._extract_coords decimal_float
    (LocStr (postgis_text "-58.3816" "-34.6037"))
  = Some (VFloat (Finite (- (34 + 6037 / 10 ^ 4))),
          VFloat (Finite (- (58 + 3816 / 10 ^ 4))))%R.
Proof.
  apply (postgis_text_round_trip decimal_float); reflexivity.
Defined.

End PostgisRoundTrip.

Section RangeFacts.
Import Py Geo.
Context {builtins : Builtins}.
Local Open Scope R_scope.





End RangeFacts.

Section RangeExamples.
Import Py Geo.
Existing Instance ascii_half_even.
Local Open Scope R_scope.


End RangeExamples.

(** * Label sets and the Jaccard similarities *)

Section LabelSetFacts.
Import Py.
Context {builtins : Builtins}.
Local Open Scope string_scope.

(** What the property below needs of [str.lower]: lowering twice is
    lowering once, and only the empty text is lowered to the empty
    text. *)
Hypothesis lower_idemp : forall s, lower (lower s) = lower s.
Hypothesis lower_not_empty : forall s, lower s = EmptyString -> s = EmptyString.

Lemma lower_empty (s : string) :
  String.eqb (lower s) EmptyString = String.eqb s EmptyString.
Proof.
  destruct (String.eqb_spec s EmptyString) as [-> | Hne]; [reflexivity |].
  apply String.eqb_neq. intros Hs. now apply Hne, lower_not_empty.
Qed.

Lemma or_text_lower (a : option string) (b : string) :
  Matches.or_text (option_map lower a) (lower b) = lower (Matches.or_text a b).
Proof.
  destruct a as [s |]; [| reflexivity].
  cbn [option_map Matches.or_text]. rewrite lower_empty.
  now destruct (String.eqb s EmptyString).
Qed.

Lemma get_lower_item (key : string) (it : label_item) :
  Matches.get key (lower_item it) = option_map lower (Matches.get key it).
Proof.
  unfold Matches.get, lower_item.
  induction it as [| [k v] it IH]; [reflexivity |].
  cbn [List.map List.find fst snd].
  destruct (String.eqb k key); [reflexivity | exact IH].
Qed.

Lemma label_text_lower_item (it : label_item) :
  Matches.label_text (lower_item it) = Matches.label_text it.
Proof.
  unfold Matches.label_text. rewrite !get_lower_item.
  pose proof (or_text_lower (Matches.get "description" it) EmptyString) as Hd.
  cbn [lower] in Hd. rewrite Hd.
  now rewrite or_text_lower, lower_idemp.
Qed.

Lemma label_text_is_lower (it : label_item) :
  lower (Matches.label_text it) = Matches.label_text it.
Proof. unfold Matches.label_text. apply lower_idemp. Qed.

(** X8. Label extraction ignores case, for every [str.lower] that is
    idempotent and lowers only the empty text to the empty text: putting
    the texts of the entries in lower case does not change the label
    set, and every label of a set is in lower case. *)
Theorem label_set_ignores_case (items : list label_item) :
  Matches.label_set (LabelsDict (Some (List.map lower_item items)))
  = Matches.label_set (LabelsDict (Some items))
  /\ forall (labels : labels_json) (s : string),
       s ∈ Matches.label_set labels -> lower s = s.
Proof.
  split.
  - cbn [Matches.label_set]. f_equal.
    induction items as [| it items IH]; [reflexivity |].
    cbn [List.map List.filter].
    assert (Ht : Matches.truthy (lower_item it) = Matches.truthy it)
      by (destruct it; reflexivity).
    rewrite Ht. destruct (Matches.truthy it); [| exact IH].
    cbn [List.map]. now rewrite label_text_lower_item, IH.
  - intros labels s Hs.
    destruct labels as [| l | [l |]]; cbn [Matches.label_set] in Hs;
      try (now apply not_elem_of_empty in Hs).
    apply elem_of_list_to_set, list_elem_of_In, in_map_iff in Hs
      as (it & <- & _).
    apply label_text_is_lower.
Qed.

End LabelSetFacts.

Section LabelSetExamples.
Import Py.
Existing Instance ascii_half_even.
Local Open Scope string_scope.

Lemma lower_ascii_idemp (c : ascii) : lower_ascii (lower_ascii c) = lower_ascii c.
Proof. destruct c as [[] [] [] [] [] [] [] []]; reflexivity. Qed.

Lemma ascii_lower_idemp (s : string) : lower (lower s) = lower s.
Proof.
  assert (Hl : forall t, lower t = ascii_lower t) by (now destruct t).
  rewrite !Hl.
  induction s as [| c s IH]; [reflexivity |].
  cbn [ascii_lower]. now rewrite lower_ascii_idemp, IH.
Qed.

Lemma ascii_lower_not_empty (s : string) : lower s = EmptyString -> s = EmptyString.
Proof. destruct s; [reflexivity | discriminate]. Qed.

(** On the ASCII texts [Dog] and [dog]. *)
Lemma label_set_ignores_case_witness :
  Matches.label_set (LabelsDict (Some (List.map lower_item [[("label", "Dog")]])))
  = Matches.label_set (LabelsDict (Some [[("label", "Dog")]]))
  /\ forall (labels : labels_json) (s : string),
       s ∈ Matches.label_set labels -> lower s = s.
Proof.
  apply (label_set_ignores_case ascii_lower_idemp ascii_lower_not_empty).
Defined.

End LabelSetExamples.

Section JaccardFacts.
Import Py.
Context {builtins : Builtins}.
Local Open Scope R_scope.

Lemma jaccard_range (i u : nat) :
  (i <= u)%nat -> u <> 0%nat -> 0 <= INR i / INR u * 100 <= 100.
Proof.
  intros Hiu Hu.
  assert (H0 : 0 < INR u) by (apply lt_0_INR; lia).
  assert (H1 : 0 <= INR i) by apply pos_INR.
  assert (H2 : INR i <= INR u) by now apply le_INR.
  assert (Hq : 0 <= INR i / INR u <= 1).
  { split.
    - apply Rmult_le_pos; [exact H1 |]. left. now apply Rinv_0_lt_compat.
    - apply Rmult_le_reg_r with (INR u); [exact H0 |].
      unfold Rdiv. rewrite Rmult_assoc, Rinv_l by lra. lra. }
  lra.
Qed.

Lemma jaccard_of_sets (set1 set2 : gset string) :
  let j := if Nat.eqb (size set1) 0 || Nat.eqb (size set2) 0 then 0
           else if Nat.eqb (size (set1 ∪ set2)) 0 then 0
                else INR (size (set1 ∩ set2)) / INR (size (set1 ∪ set2)) * 100 in
  0 <= j <= 100
  /\ (set1 ## set2 -> j = 0)
  /\ (set1 = set2 -> set1 <> ∅ -> j = 100).
Proof.
  intros j. unfold j. clear j.
  repeat split.
  - destruct (_ || _); [lra |]. destruct (Nat.eqb_spec (size (set1 ∪ set2)) 0); [lra |].
    apply jaccard_range; [| assumption]. apply subseteq_size.
    etransitivity; [apply intersection_subseteq_l | apply union_subseteq_l].
  - destruct (_ || _); [lra |]. destruct (Nat.eqb_spec (size (set1 ∪ set2)) 0); [lra |].
    apply jaccard_range; [| assumption]. apply subseteq_size.
    etransitivity; [apply intersection_subseteq_l | apply union_subseteq_l].
  - intros Hd. destruct (_ || _); [reflexivity |].
    destruct (Nat.eqb (size (set1 ∪ set2)) 0); [reflexivity |].
    assert (He : set1 ∩ set2 = ∅) by now apply disjoint_intersection_L.
    rewrite He, size_empty. simpl. lra.
  - intros <- Hne.
    assert (Hs : size set1 <> 0%nat).
    { intros Hz. apply size_empty_inv in Hz. apply Hne. now apply leibniz_equiv. }
    apply Nat.eqb_neq in Hs. rewrite Hs. cbn [orb].
    assert (Hu : set1 ∪ set1 = set1) by apply union_idemp_L.
    assert (Hi : set1 ∩ set1 = set1) by apply intersection_idemp_L.
    rewrite Hu, Hi, Hs. apply Nat.eqb_neq in Hs.
    assert (H0 : 0 < INR (size set1)) by (apply lt_0_INR; lia).
    field. lra.
Qed.

(** X9. The visual similarity of two label objects is symmetric and lies
    between 0 and 100; it is 0 when the two label sets share no label
    and 100 when they are equal and not empty. *)
Theorem visual_similarity_is_jaccard (a b : labels_json) :
  AiSearch.calculate_visual_similarity a b = AiSearch.calculate_visual_similarity b a
  /\ 0 <= AiSearch.calculate_visual_similarity a b <= 100
  /\ (Matches.label_set a ## Matches.label_set b ->
      AiSearch.calculate_visual_similarity a b = 0)
  /\ (Matches.label_set a = Matches.label_set b -> Matches.label_set a <> ∅ ->
      AiSearch.calculate_visual_similarity a b = 100).
Proof.
  split.
  - unfold AiSearch.calculate_visual_similarity. cbv zeta.
    rewrite (orb_comm (Nat.eqb (size (Matches.label_set a)) 0)).
    assert (Hi : Matches.label_set a ∩ Matches.label_set b
                 = Matches.label_set b ∩ Matches.label_set a) by apply intersection_comm_L.
    assert (Hu : Matches.label_set a ∪ Matches.label_set b
                 = Matches.label_set b ∪ Matches.label_set a) by apply union_comm_L.
    now rewrite Hi, Hu.
  - apply (jaccard_of_sets (Matches.label_set a) (Matches.label_set b)).
Qed.

(** So is the colour similarity of two colour lists, which is 0 as soon
    as one of the lists is empty. *)
Theorem color_similarity_is_jaccard (a b : list string) :
  AiSearch.calculate_color_similarity a b = AiSearch.calculate_color_similarity b a
  /\ 0 <= AiSearch.calculate_color_similarity a b <= 100
  /\ AiSearch.calculate_color_similarity [] b = 0
  /\ (AiSearch.color_set a = AiSearch.color_set b -> AiSearch.color_set a <> ∅ ->
      AiSearch.calculate_color_similarity a b = 100).
Proof.
  pose proof (jaccard_of_sets (AiSearch.color_set a) (AiSearch.color_set b))
    as (Hrange & _ & Hsame).
  cbv zeta in Hrange, Hsame.
  split; [| split; [| split]].
  - unfold AiSearch.calculate_color_similarity. cbv zeta.
    rewrite (orb_comm (AiSearch.is_nil a)).
    rewrite (orb_comm (Nat.eqb (size (AiSearch.color_set a)) 0)).
    assert (Hi : AiSearch.color_set a ∩ AiSearch.color_set b
                 = AiSearch.color_set b ∩ AiSearch.color_set a)
      by apply intersection_comm_L.
    assert (Hu : AiSearch.color_set a ∪ AiSearch.color_set b
                 = AiSearch.color_set b ∪ AiSearch.color_set a)
      by apply union_comm_L.
    now rewrite Hi, Hu.
  - unfold AiSearch.calculate_color_similarity. cbv zeta.
    destruct (AiSearch.is_nil a || AiSearch.is_nil b); [lra | exact Hrange].
  - reflexivity.
  - intros Heq Hne. unfold AiSearch.calculate_color_similarity. cbv zeta.
    assert (Ha : AiSearch.is_nil a = false).
    { destruct a; [| reflexivity]. exfalso. apply Hne. reflexivity. }
    assert (Hb : AiSearch.is_nil b = false).
    { destruct b; [| reflexivity]. exfalso. apply Hne. rewrite Heq. reflexivity. }
    rewrite Ha, Hb. cbn [orb]. now apply Hsame.
Qed.

End JaccardFacts.

(** * The scores of the AI search *)

Section ScoreFacts.
Import Py.
Context {builtins : Builtins}.
Local Open Scope R_scope.

Lemma location_score_range (d r : R) :
  0 <= AiSearch.calculate_location_score d r <= 100.
Proof.
  unfold AiSearch.calculate_location_score.
  destruct (Rle_dec d 0); [lra |].
  destruct (Rge_dec d r); [lra |].
  assert (Hr : 0 < r) by lra.
  assert (Hq : 0 < d / r) by (apply Rdiv_lt_0_compat; lra).
  split; [apply Rmax_l |].
  apply Rmax_lub; lra.
Qed.

Lemma time_score_range (now : Z) (created_at : option Z) :
  40 <= AiSearch.calculate_time_score now created_at <= 100.
Proof.
  unfold AiSearch.calculate_time_score.
  destruct created_at as [t |]; [| lra].
  cbv zeta. repeat destruct (_ <=? _)%Z; lra.
Qed.

(** X10. The location score lies between 0 and 100 and never grows with the
    distance. *)
Theorem location_score_decreases_with_distance (d1 d2 r : R) :
  d1 <= d2 ->
  AiSearch.calculate_location_score d2 r <= AiSearch.calculate_location_score d1 r
  /\ 0 <= AiSearch.calculate_location_score d1 r <= 100.
Proof.
  intros Hd. split; [| apply location_score_range].
  pose proof (location_score_range d2 r) as H2.
  pose proof (location_score_range d1 r) as H1.
  unfold AiSearch.calculate_location_score in *.
  destruct (Rle_dec d1 0); [lra |].
  destruct (Rle_dec d2 0); [lra |].
  destruct (Rge_dec d2 r); [lra |].
  destruct (Rge_dec d1 r); [lra |].
  assert (Hr : 0 < r) by lra.
  assert (Hq : d1 / r <= d2 / r).
  { unfold Rdiv. apply Rmult_le_compat_r; [| exact Hd].
    left. now apply Rinv_0_lt_compat. }
  apply Rle_max_compat_l. lra.
Qed.

Lemma location_score_decreases_witness :
  AiSearch.calculate_location_score 8 10 <= AiSearch.calculate_location_score 2 10
  /\ 0 <= AiSearch.calculate_location_score 2 10 <= 100.
Proof. apply location_score_decreases_with_distance. lra. Defined.

(** X11. An older report never has a higher time score than a newer one, and
    the score of a report with a readable timestamp is 100, 80, 60 or
    40. *)
Theorem time_score_decreases_with_age (now older newer : Z) :
  (older <= newer)%Z ->
  AiSearch.calculate_time_score now (Some older)
  <= AiSearch.calculate_time_score now (Some newer)
  /\ In (AiSearch.calculate_time_score now (Some older)) [100; 80; 60; 40].
Proof.
  intros H. unfold AiSearch.calculate_time_score. cbv zeta.
  assert (Hdiv : ((now - newer) / 86400 <= (now - older) / 86400)%Z)
    by (apply Z.div_le_mono; lia).
  set (a := ((now - newer) / 86400)%Z) in *.
  set (b := ((now - older) / 86400)%Z) in *.
  split.
  - destruct (Z.leb_spec b 1), (Z.leb_spec a 1); try lia; try lra;
      destruct (Z.leb_spec b 7), (Z.leb_spec a 7); try lia; try lra;
      destruct (Z.leb_spec b 30), (Z.leb_spec a 30); try lia; lra.
  - destruct (b <=? 1)%Z; [now left |].
    destruct (b <=? 7)%Z; [right; now left |].
    destruct (b <=? 30)%Z; [right; right; now left | right; right; right; now left].
Qed.

Lemma time_score_decreases_witness :
  AiSearch.calculate_time_score 864000 (Some 0%Z)
  <= AiSearch.calculate_time_score 864000 (Some 800000%Z)
  /\ In (AiSearch.calculate_time_score 864000 (Some 0%Z)) [100; 80; 60; 40].
Proof. apply time_score_decreases_with_age. lia. Defined.

(** X12. An entry is labelled [Alta] only for a candidate that carries a
    similarity above 0.99: the colour score is always 0, so a candidate
    of the fallback listing, which carries no similarity, is never
    [Alta]. *)
Theorem alta_needs_high_similarity (now : Z) (radius_km d : R)
    (c : Report.report) (e : AiSearch.search_entry) :
  AiSearch.score_entry now radius_km c d = Some e ->
  AiSearch.match_confidence e = "Alta"%string ->
  AiSearch.color_similarity e = 0
  /\ exists similarity,
       Report.similarity c = Some similarity /\ 0.99 < similarity.
Proof.
  intros He Halta. apply score_entry_spec in He. cbv zeta in He.
  destruct He as [_ ->]. cbn [AiSearch.match_confidence AiSearch.color_similarity] in *.
  rewrite color_score_zero in *.
  split.
  { replace 0 with (IZR 0 / 10 ^ 1) by lra. apply round_exact. }
  pose proof (location_score_range d radius_km) as Hl.
  pose proof (time_score_range now (Report.created_at c)) as Ht.
  unfold AiSearch.confidence_of in Halta.
  destruct (Rge_dec _ 70) as [H70 |];
    [| destruct (Rge_dec _ 50); discriminate].
  unfold AiSearch.total_of, AiSearch.visual_score_of in H70.
  destruct (Report.similarity c) as [s |]; [| lra].
  exists s. split; [reflexivity | lra].
Qed.

End ScoreFacts.

Section ScoreExamples.
Import Py.
Existing Instance ascii_half_even.
Local Open Scope R_scope.

Lemma alta_needs_high_similarity_witness :
  AiSearch.color_similarity
    {| AiSearch.candidate := point_report "p" "lost" 0 0 (Some 1) (Some 0%Z);
       AiSearch.distance_km := round 0 2;
       AiSearch.visual_similarity := round (1 * 100) 1;
       AiSearch.color_similarity := round 0 1;
       AiSearch.location_score := round 100 1;
       AiSearch.time_score := round 100 1;
       AiSearch.total_score := round (1 * 100 * 0.4 + 30) 1;
       AiSearch.match_confidence := AiSearch.confidence_of (1 * 100 * 0.4 + 30) |}
  = 0
  /\ exists similarity,
       Report.similarity (point_report "p" "lost" 0 0 (Some 1) (Some 0%Z))
       = Some similarity /\ 0.99 < similarity.
Proof.
  apply (alta_needs_high_similarity 0 10 0).
  - pose proof (sample_scored "p" 1) as Hp.
    unfold search_scored in Hp.
    cbn [geojson_point point_report Report.location] in Hp.
    pose proof (haversine_same_point 0 0) as H0.
    change (Geo.haversine_km 0 0 0 0) with (great_circle_km 0 0 0 0) in H0.
    rewrite H0 in Hp.
    destruct (Rlt_dec 10 0); [lra |]. apply Hp. lra.
  - cbn [AiSearch.match_confidence].
    apply (proj1 (confidence_cases (1 * 100 * 0.4 + 30))). lra.
Defined.

End ScoreExamples.

(** * Requests the handlers refuse *)

Section RefusalFacts.
Import Py Geo.
Context {builtins : Builtins}.
Local Open Scope string_scope.

(** X13. The AI search answers 400 to a search type other than [lost],
    [found] and [both] and to an empty upload, before any service is
    called, and 500 with the text of the exception when the embedding
    of the image fails. *)
Theorem ai_search_rejects_bad_requests
    (image_bytes_to_vec : string -> py (list R))
    (search_similar_reports : list R -> py (list Report.report))
    (now : Z) (db : list Report.report) (content : string)
    (user_lat user_lng : R) (radius_km : option R) :
  (forall st, st <> "lost" -> st <> "found" -> st <> "both" ->
     AiSearch.ai_search image_bytes_to_vec search_similar_reports now db
       content user_lat user_lng radius_km (Some st)
     = HTTPException 400 "search_type debe ser 'lost', 'found' o 'both'")
  /\ (forall search_type,
        status_code_of
          (AiSearch.ai_search image_bytes_to_vec search_similar_reports now db
             EmptyString user_lat user_lng radius_km search_type) = 400%nat)
  /\ (forall e, content <> EmptyString ->
        image_bytes_to_vec content = Raise e ->
        AiSearch.ai_search image_bytes_to_vec search_similar_reports now db
          content user_lat user_lng radius_km None
        = HTTPException 500 ("Error en búsqueda IA: " ++ e)).
Proof.
  split; [| split].
  - intros st H1 H2 H3. unfold AiSearch.ai_search.
    apply String.eqb_neq in H1, H2, H3. now rewrite H1, H2, H3.
  - intros search_type. unfold AiSearch.ai_search.
    destruct (negb _); reflexivity.
  - intros e Hc He. unfold AiSearch.ai_search.
    apply String.eqb_neq in Hc.
    assert (Hv : negb (String.eqb "both" "lost" || String.eqb "both" "found"
                       || String.eqb "both" "both") = false) by reflexivity.
    rewrite Hv. now rewrite Hc, He.
Qed.

(** X14. With a search type other than [both], every candidate of a search
    has that type, whether it comes from the remote procedure or from
    the fallback listing; a candidate of the fallback listing is an
    active report. *)
Theorem select_candidates_respects_type
    (search_similar_reports : list R -> py (list Report.report))
    (db : list Report.report) (search_type : string) (v : list R)
    (c : Report.report) :
  In c (AiSearch.select_candidates search_similar_reports db search_type v) ->
  (search_type <> "both" -> Report.type c = search_type)
  /\ ((exists data, search_similar_reports v = Return data /\ In c data)
      \/ (In c db /\ Report.status c = "active")).
Proof.
  unfold AiSearch.select_candidates.
  set (data := match search_similar_reports v with
               | Return data => data
               | Raise _ => []
               end).
  assert (Hdata : forall x, In x data ->
            exists data, search_similar_reports v = Return data /\ In x data).
  { unfold data. destruct (search_similar_reports v) as [d | e];
      [| contradiction]. intros x Hx. now exists d. }
  destruct (String.eqb_spec search_type "both") as [-> | Hne].
  - cbn [orb andb]. destruct (AiSearch.is_nil data) eqn:Hnil.
    + intros Hin. apply filter_In in Hin as [Hin Hact].
      rewrite andb_true_r in Hact. apply is_active_spec in Hact.
      split; [congruence | now right].
    + intros Hin. split; [congruence | left; now apply Hdata].
  - destruct (AiSearch.is_nil (List.filter _ data)) eqn:Hnil.
    + intros Hin. apply filter_In in Hin as [Hin Hact].
      apply andb_true_iff in Hact as [Hact Hty].
      cbn [orb] in Hty. apply String.eqb_eq in Hty.
      apply is_active_spec in Hact. split; [auto | now right].
    + intros Hin. apply filter_In in Hin as [Hin Hty].
      apply String.eqb_eq in Hty. split; [auto | left; now apply Hdata].
Qed.

(** X15. Auto-match returns at most [top_k] entries when [top_k] is not
    negative; a negative [top_k] is not refused and cuts that many
    entries from the end of the ranking. *)
Theorem auto_match_top_k_bounds (db : list Report.report)
    (report_id : string) (radius_km : option R) (k : Z)
    (resp : Matches.auto_match_response) :
  Matches.auto_match db report_id radius_km (Some k) = Ok resp ->
  length (Matches.top_k resp)
  = (if (0 <=? k)%Z
     then Nat.min (Z.to_nat k) (Matches.total_candidates resp)
     else Matches.total_candidates resp - Z.to_nat (- k))%nat.
Proof.
  unfold Matches.auto_match.
  destruct (single _) as [base |]; [| discriminate].
  destruct (_coords (Report.location base)) as [[[la lo] |] |];
    try discriminate.
  destruct (Matches.score_candidates _ _ _ _ _) as [results |];
    [| discriminate].
  intros [= <-]. cbn [Matches.top_k Matches.total_candidates].
  unfold slice_to. destruct (0 <=? k)%Z; rewrite length_firstn; lia.
Qed.

(** X7. A base report stored as a PostGIS text has coordinates for the
    nearby listing and none for auto-match, which answers 400. *)
Theorem postgis_base_is_refused (float : string -> option number)
    (db : list Report.report) (base : Report.report)
    (lon lat : string) (x y : number) :
  List.filter (fun r => String.eqb (Report.id r) (Report.id base)) db = [base] ->
  Report.location base = LocStr (postgis_text lon lat) ->
  plain_token lon = true -> plain_token lat = true ->
  float lon = Some x -> float lat = Some y ->
  Reports._extract_coords float (Report.location base)
  = Some (VFloat y, VFloat x)
  /\ status_code_of (Matches.auto_match db (Report.id base) None None) = 400%nat.
Proof.
  intros Hfind Hloc Hlon Hlat Hx Hy. split.
  - rewrite Hloc. now apply postgis_text_reads_back.
  - unfold Matches.auto_match. rewrite Hfind. cbn [single].
    rewrite Hloc. reflexivity.
Qed.

End RefusalFacts.

Section RefusalExamples.
Import Py Geo.
Existing Instance ascii_half_even.
Local Open Scope string_scope.

Lemma select_candidates_respects_type_witness :
  ("found" <> "both" -> Report.type rank_c1 = "found")
  /\ ((exists data, (fun _ : list R => Raise "down") [] = Return data
                    /\ In rank_c1 data)
      \/ (In rank_c1 rank_db /\ Report.status rank_c1 = "active")).
Proof.
  apply (select_candidates_respects_type (fun _ => Raise "down") rank_db "found" []).
  cbn. now left.
Defined.

(** On the sample reports, of which two are ranked: one entry is
    returned for [top_k = 1], and one for [top_k = -1]. *)
Lemma auto_match_top_k_bounds_witness :
  exists first last,
    Matches.auto_match rank_db "base" None (Some 1%Z) = Ok first
    /\ Matches.total_candidates first = 2
    /\ length (Matches.top_k first) = 1
    /\ Matches.auto_match rank_db "base" None (Some (-1)%Z) = Ok last
    /\ Matches.total_candidates last = 2
    /\ length (Matches.top_k last) = 1.
Proof.
  do 2 eexists.
  split; [apply (rank_answer (Some 1%Z)) |].
  split; [reflexivity |].
  split;
    [now rewrite (auto_match_top_k_bounds rank_db "base" None 1 _
                    (rank_answer (Some 1%Z))) |].
  split; [apply (rank_answer (Some (-1)%Z)) |].
  split; [reflexivity |].
  now rewrite (auto_match_top_k_bounds rank_db "base" None (-1) _
                 (rank_answer (Some (-1)%Z))).
Defined.

Lemma postgis_base_is_refused_witness :
  Reports._extract_coords decimal_float (Report.location text_base)
  = Some (VFloat (Finite (- (34 + 6037 / 10 ^ 4))),
          VFloat (Finite (- (58 + 3816 / 10 ^ 4))))%R
  /\ status_code_of (Matches.auto_match [text_base] (Report.id text_base) None None)
     = 400%nat.
Proof.
  apply (postgis_base_is_refused decimal_float [text_base] text_base
           "-58.3816" "-34.6037"); reflexivity.
Defined.

End RefusalExamples.

(** * Creating, listing and deleting reports *)

Section ReportTableFacts.
Import Py Geo.
Local Open Scope string_scope.

Lemma first_missing_spec (fields : list string) (body : list (string * json)) :
  match Reports.first_missing fields body with
  | Some field =>
      In field fields /\ has_key field body = false
  | None => forall field, In field fields -> has_key field body = true
  end.
Proof.
  induction fields as [| f fields IH]; cbn [Reports.first_missing].
  - intros field [].
  - destruct (has_key f body) eqn:Hf.
    + destruct (Reports.first_missing fields body) as [g |].
      * destruct IH as [Hin Hg]. split; [now right | exact Hg].
      * intros field [<- | Hin]; auto.
    + split; [now left | exact Hf].
Qed.

(** X16. A report is created exactly when the body has the five required
    fields: otherwise the answer is 400, it names a field that the body
    lacks, and the table is unchanged; on success the table gains one
    row, the body under the new identifier. *)
Theorem create_report_requires_fields (db : list (list (string * json)))
    (new_id : string) (body : list (string * json)) :
  ((forall field, In field Reports.required_fields -> has_key field body = true) ->
   Reports.create_report db new_id body
   = (Ok {| Reports.created_report := ("id", JStr new_id) :: body;
            Reports.created_message := "Reporte creado exitosamente" |},
      (db ++ [("id", JStr new_id) :: body])%list))
  /\ ((exists field, In field Reports.required_fields /\ has_key field body = false) ->
      exists field,
        In field Reports.required_fields /\ has_key field body = false
        /\ Reports.create_report db new_id body
           = (HTTPException 400 ("Campo requerido faltante: " ++ field), db)).
Proof.
  unfold Reports.create_report, Reports.create_report.
  pose proof (first_missing_spec Reports.required_fields body) as H.
  destruct (Reports.first_missing Reports.required_fields body) as [f |].
  - destruct H as [Hin Hf]. split.
    + intros Hall. rewrite (Hall f Hin) in Hf. discriminate.
    + intros _. exists f. auto.
  - split; [reflexivity |].
    intros (f & Hin & Hf). rewrite (H f Hin) in Hf. discriminate.
Qed.

End ReportTableFacts.

Section SoftDeleteFacts.
Import Py Geo.
Context {builtins : Builtins}.
Local Open Scope string_scope.

Lemma updated_reports_In (f : Report.report -> Report.report)
    (report_id : string) (db : list Report.report) (r : Report.report) :
  In r (fst (Reports.update_reports f report_id db)) ->
  (exists r0, In r0 db /\ Report.id r0 = report_id /\ r = f r0)
  \/ (In r db /\ Report.id r <> report_id).
Proof.
  unfold Reports.update_reports. cbn [fst]. intros H.
  apply in_map_iff in H as (r0 & <- & Hin).
  destruct (String.eqb_spec (Report.id r0) report_id) as [Heq | Hne].
  - left. now exists r0.
  - right. now split.
Qed.

Lemma updated_reports_select (f : Report.report -> Report.report)
    (report_id : string) (db : list Report.report) :
  (forall r, Report.id (f r) = Report.id r) ->
  List.filter (fun r => String.eqb (Report.id r) report_id)
    (fst (Reports.update_reports f report_id db))
  = snd (Reports.update_reports f report_id db).
Proof.
  intros Hf. unfold Reports.update_reports. cbn [fst snd].
  induction db as [| r db IH]; [reflexivity |].
  cbn [List.map List.filter].
  destruct (String.eqb (Report.id r) report_id) eqn:Hr.
  - rewrite Hf, Hr. cbn [List.map]. now rewrite IH.
  - rewrite Hr. exact IH.
Qed.

Lemma updated_reports_none (f : Report.report -> Report.report)
    (report_id : string) (db : list Report.report) :
  snd (Reports.update_reports f report_id db) = [] ->
  fst (Reports.update_reports f report_id db) = db.
Proof.
  unfold Reports.update_reports. cbn [fst snd].
  induction db as [| r db IH]; [reflexivity |].
  cbn [List.map List.filter].
  destruct (String.eqb (Report.id r) report_id); [discriminate |].
  intros H. now rewrite IH.
Qed.

(** X17. Deleting is a soft delete. After a successful deletion the report
    is absent from the listing of all reports and from every nearby
    listing, while the lookup by identifier still answers it, with the
    status [cancelled]; no row is removed. *)
Theorem deleted_report_is_hidden_not_removed (float : string -> option number)
    (db db' : list Report.report) (report_id msg : string) :
  Reports.delete_report db report_id = (Ok msg, db') ->
  (forall r, In r (Reports.listed_reports (Reports.get_all_reports db')) ->
             Report.id r <> report_id)
  /\ (forall lat lng radius_km resp r,
        Reports.get_nearby_reports float db' lat lng radius_km = Ok resp ->
        In r (Reports.nearby_reports resp) ->
        Report.id r <> report_id)
  /\ (exists r, Reports.get_report_by_id db' report_id = Ok r
                /\ Report.status r = "cancelled")
  /\ List.map Report.id db' = List.map Report.id db.
Proof.
  unfold Reports.delete_report.
  pose proof (updated_reports_select (Reports.set_status "cancelled") report_id db
                (fun r => eq_refl)) as Hsel.
  pose proof (updated_reports_In (Reports.set_status "cancelled") report_id db)
    as Hin.
  assert (Hids : List.map Report.id
                   (fst (Reports.update_reports (Reports.set_status "cancelled")
                           report_id db))
                 = List.map Report.id db).
  { unfold Reports.update_reports. cbn [fst]. rewrite List.map_map.
    apply List.map_ext. intros r.
    now destruct (String.eqb (Report.id r) report_id). }
  destruct (Reports.update_reports (Reports.set_status "cancelled") report_id db)
    as [tbl data].
  cbn [fst snd] in *.
  destruct data as [| row data]; [discriminate |].
  intros [= _ <-].
  assert (Hactive : forall r, In r tbl -> Reports.is_active r = true ->
                              Report.id r <> report_id).
  { intros r Hr Hact Hid. apply Hin in Hr as [(r0 & _ & _ & ->) | [_ Hne]].
    - discriminate.
    - contradiction. }
  split; [| split; [| split]].
  - intros r Hr. unfold Reports.get_all_reports in Hr.
    cbn [Reports.listed_reports] in Hr.
    apply sort_by_In, filter_In in Hr as [Hr Hact]. now apply Hactive.
  - intros lat lng radius_km resp r Hresp Hr.
    unfold Reports.get_nearby_reports in Hresp.
    destruct (Reports.nearby_reports_of float lat lng _ _) as [kept | e] eqn:Hl;
      [| discriminate].
    apply nearby_loop_return_inv in Hl. subst kept.
    injection Hresp as <-. cbn [Reports.nearby_reports] in Hr.
    apply sort_by_In, In_omap in Hr as (r0 & Hr0 & Hnear).
    apply filter_In in Hr0 as [Hr0 Hact].
    apply nearby_entry_spec in Hnear as (la & lo & _ & _ & ->).
    cbn [Report.set_distance_km Report.id]. now apply Hactive.
  - unfold Reports.get_report_by_id. rewrite Hsel.
    exists row. split; [reflexivity |].
    assert (Hrow : In row (List.filter
                             (fun r => String.eqb (Report.id r) report_id) tbl))
      by (rewrite Hsel; now left).
    apply filter_In in Hrow as [Hrow Hid]. apply String.eqb_eq in Hid.
    apply Hin in Hrow as [(r0 & _ & _ & ->) | [_ Hne]];
      [reflexivity | contradiction].
  - exact Hids.
Qed.

(** X18. Deleting answers 404 exactly when the lookup by identifier does,
    and then leaves the table as it was. *)
Theorem delete_report_agrees_with_lookup (db : list Report.report)
    (report_id : string) :
  status_code_of (fst (Reports.delete_report db report_id))
  = status_code_of (Reports.get_report_by_id db report_id)
  /\ (status_code_of (fst (Reports.delete_report db report_id)) = 404%nat ->
      snd (Reports.delete_report db report_id) = db).
Proof.
  unfold Reports.delete_report, Reports.get_report_by_id.
  pose proof (updated_reports_none (Reports.set_status "cancelled") report_id db)
    as Hnone.
  unfold Reports.update_reports in *. cbn [fst snd] in *.
  destruct (List.filter (fun r => String.eqb (Report.id r) report_id) db)
    as [| row rows]; cbn [List.map fst snd status_code_of].
  - split; [reflexivity |]. intros _. now apply Hnone.
  - split; [reflexivity | discriminate].
Qed.

Lemma created_at_ge_total (x y : Report.report) :
  Reports.created_at_ge x y \/ Reports.created_at_ge y x.
Proof.
  unfold Reports.created_at_ge.
  destruct (Report.created_at x), (Report.created_at y); auto; lia.
Qed.

Lemma created_at_ge_trans (x y z : Report.report) :
  Reports.created_at_ge x y -> Reports.created_at_ge y z ->
  Reports.created_at_ge x z.
Proof.
  unfold Reports.created_at_ge.
  destruct (Report.created_at x), (Report.created_at y), (Report.created_at z);
    auto; try lia; contradiction.
Qed.

(** X19. The listing of all reports holds the active reports, each as often
    as the table does, newest first, and counts them. *)
Theorem get_all_reports_lists_active (db : list Report.report) :
  Permutation (List.filter Reports.is_active db)
    (Reports.listed_reports (Reports.get_all_reports db))
  /\ StronglySorted Reports.created_at_ge
       (Reports.listed_reports (Reports.get_all_reports db))
  /\ Reports.listed_count (Reports.get_all_reports db)
     = length (List.filter Reports.is_active db).
Proof.
  unfold Reports.get_all_reports.
  cbn [Reports.listed_reports Reports.listed_count].
  split; [apply sort_by_perm | split].
  - apply sort_by_sorted; [apply created_at_ge_total | apply created_at_ge_trans].
  - apply sort_by_length.
Qed.

End SoftDeleteFacts.

Section SoftDeleteExamples.
Import Py Geo.
Existing Instance ascii_half_even.
Local Open Scope string_scope.

Lemma deleted_report_is_hidden_witness :
  (forall r, In r (Reports.listed_reports
                     (Reports.get_all_reports
                        [Reports.set_status "cancelled" rank_base;
                         rank_c1; rank_c2])) ->
             Report.id r <> "base")
  /\ (forall lat lng radius_km resp r,
        Reports.get_nearby_reports decimal_float
          [Reports.set_status "cancelled" rank_base; rank_c1; rank_c2]
          lat lng radius_km = Ok resp ->
        In r (Reports.nearby_reports resp) ->
        Report.id r <> "base")
  /\ (exists r, Reports.get_report_by_id
                  [Reports.set_status "cancelled" rank_base; rank_c1; rank_c2]
                  "base" = Ok r
                /\ Report.status r = "cancelled")
  /\ List.map Report.id
       [Reports.set_status "cancelled" rank_base; rank_c1; rank_c2]
     = List.map Report.id rank_db.
Proof.
  apply (deleted_report_is_hidden_not_removed decimal_float rank_db _ "base"
           "Reporte eliminado exitosamente").
  reflexivity.
Defined.

End SoftDeleteExamples.

(** * Listing the matches of a user or a report *)

Section PendingFacts.
Import Py.
Local Open Scope string_scope.

Lemma enrich_status (db : list Report.report) (m : Match.match_row)
    (e : Matches.enriched_match) :
  Matches.enrich db m = Return e -> Matches.enriched_status e = Match.status m.
Proof.
  unfold Matches.enrich.
  destruct (Matches.linked_report db (Match.lost_report_id m)); [| discriminate].
  destruct (Matches.linked_report db (Match.found_report_id m)); [| discriminate].
  cbn [bind]. now intros [= <-].
Qed.

Lemma enrich_all_In (db : list Report.report) (l : list Match.match_row)
    (es : list Matches.enriched_match) (e : Matches.enriched_match) :
  Matches.enrich_all db l = Return es -> In e es ->
  exists m, In m l /\ Matches.enrich db m = Return e.
Proof.
  revert es. induction l as [| m l IH]; intros es Hl He.
  - injection Hl as <-. contradiction.
  - cbn [Matches.enrich_all] in Hl.
    destruct (Matches.enrich db m) as [e0 |] eqn:Hm; [| discriminate].
    destruct (Matches.enrich_all db l) as [es0 |]; [| discriminate].
    injection Hl as <-. destruct He as [<- | He].
    + exists m. split; [now left | exact Hm].
    + destruct (IH es0 eq_refl He) as (m' & Hin & Hm'). exists m'.
      split; [now right | exact Hm'].
Qed.

Lemma linked_report_stored (db : list Report.report) (id : string) :
  stored_once db id ->
  Matches.linked_report db id = Return (first_stored db id).
Proof.
  intros [r Hr]. unfold Matches.linked_report, first_stored.
  destruct (String.eqb id EmptyString); [reflexivity |].
  rewrite Hr. cbn [single bind]. f_equal.
  clear -Hr. induction db as [| x db IH]; [discriminate |].
  cbn [List.filter List.find] in *.
  destruct (String.eqb (Report.id x) id); [| now apply IH].
  injection Hr as -> _. reflexivity.
Qed.

Lemma enrich_stored (db : list Report.report) (m : Match.match_row) :
  stored_once db (Match.lost_report_id m) ->
  stored_once db (Match.found_report_id m) ->
  Matches.enrich db m = Return (listed_match db m).
Proof.
  intros Hl Hf. unfold Matches.enrich.
  now rewrite (linked_report_stored db _ Hl), (linked_report_stored db _ Hf).
Qed.

Lemma enrich_all_stored (db : list Report.report) (l : list Match.match_row) :
  (forall m, In m l ->
     stored_once db (Match.lost_report_id m)
     /\ stored_once db (Match.found_report_id m)) ->
  Matches.enrich_all db l = Return (List.map (listed_match db) l).
Proof.
  induction l as [| m l IH]; intros Hok; [reflexivity |].
  cbn [Matches.enrich_all List.map].
  destruct (Hok m (or_introl eq_refl)) as [Hl Hf].
  rewrite (enrich_stored db m Hl Hf).
  rewrite IH by (intros; apply Hok; now right). reflexivity.
Qed.

(** X20. The listing of matches answers 400 when neither a report nor a user
    is given; with a report given the user is ignored; every match
    listed has the status asked for, [pending] by default, and the count
    is the length of the list. *)
Theorem pending_matches_filter_by_status (reporter : Report.report -> string)
    (db : list Report.report) (tbl : MatchesTable.matches)
    (user_id report_id status : option string) :
  (Matches.given report_id = None -> Matches.given user_id = None ->
   Matches.get_pending_matches reporter db tbl user_id report_id status
   = HTTPException 400 "Debe proporcionar user_id o report_id")
  /\ (Matches.given report_id <> None ->
      Matches.get_pending_matches reporter db tbl user_id report_id status
      = Matches.get_pending_matches reporter db tbl None report_id status)
  /\ (forall resp,
        Matches.get_pending_matches reporter db tbl user_id report_id status
        = Ok resp ->
        Matches.pending_count resp = length (Matches.pending_matches resp)
        /\ forall e, In e (Matches.pending_matches resp) ->
             Matches.enriched_status e
             = match status with Some s => s | None => "pending" end).
Proof.
  unfold Matches.get_pending_matches.
  set (st := match status with Some s => s | None => "pending" end).
  split; [| split].
  - intros -> ->. reflexivity.
  - intros Hg. destruct (Matches.given report_id); [reflexivity | contradiction].
  - assert (Hst : forall (p q : Match.match_row -> bool) resp,
              Matches.pending_answer
                (Matches.enrich_all db
                   (List.filter (fun m => p m && String.eqb (Match.status m) st) tbl
                    ++ List.filter (fun m => q m && String.eqb (Match.status m) st) tbl))
              = Ok resp ->
              Matches.pending_count resp = length (Matches.pending_matches resp)
              /\ forall e, In e (Matches.pending_matches resp) ->
                   Matches.enriched_status e = st).
    { intros p q resp. unfold Matches.pending_answer.
      destruct (Matches.enrich_all db _) as [es |] eqn:Hes; [| discriminate].
      intros [= <-]. cbn [Matches.pending_count Matches.pending_matches].
      split; [reflexivity |]. intros e He.
      destruct (enrich_all_In db _ es e Hes He) as (m & Hm & Hem).
      rewrite (enrich_status db m e Hem).
      apply in_app_or in Hm.
      destruct Hm as [Hm | Hm]; apply filter_In in Hm as [_ Hm];
        apply andb_true_iff in Hm as [_ Hm]; now apply String.eqb_eq in Hm. }
    intros resp.
    destruct (Matches.given report_id) as [rid |].
    + apply Hst.
    + destruct (Matches.given user_id) as [uid |]; [| discriminate].
      destruct (List.map Report.id _) as [| i ids].
      * intros [= <-]. split; [reflexivity |]. intros e [].
      * apply Hst.
Qed.

(** X21. A match between two reports of one user is listed twice for that
    user, once for the lost report and once for the found one, when
    every match of the table links two reports that are stored once. *)
Theorem match_of_own_reports_is_listed_twice (reporter : Report.report -> string)
    (db : list Report.report) (tbl : MatchesTable.matches)
    (user_id : string) (m : Match.match_row) (lost found : Report.report) :
  user_id <> EmptyString ->
  In m tbl -> Match.status m = "pending" ->
  In lost db -> Report.id lost = Match.lost_report_id m ->
  reporter lost = user_id ->
  In found db -> Report.id found = Match.found_report_id m ->
  reporter found = user_id ->
  (forall row, In row tbl ->
     stored_once db (Match.lost_report_id row)
     /\ stored_once db (Match.found_report_id row)) ->
  exists resp l1 l2 l3,
    Matches.get_pending_matches reporter db tbl (Some user_id) None None = Ok resp
    /\ Matches.enrich db m = Return (listed_match db m)
    /\ Matches.pending_matches resp
       = (l1 ++ listed_match db m :: l2 ++ listed_match db m :: l3)%list.
Proof.
  intros Hu Hm Hst Hlost Hlid Hlu Hfound Hfid Hfu Hstored.
  unfold Matches.get_pending_matches. cbn [Matches.given].
  apply String.eqb_neq in Hu. rewrite Hu.
  set (ids := List.map Report.id
                (List.filter (fun r => String.eqb (reporter r) user_id) db)).
  assert (Hown : forall r, In r db -> reporter r = user_id ->
                           existsb (String.eqb (Report.id r)) ids = true).
  { intros r Hr Hru. apply existsb_exists. exists (Report.id r).
    split; [| apply String.eqb_refl].
    unfold ids. apply in_map, filter_In. split; [exact Hr |].
    now apply String.eqb_eq. }
  assert (Hne : ids <> []).
  { intros Hnil. specialize (Hown lost Hlost Hlu). rewrite Hnil in Hown.
    discriminate. }
  destruct ids as [| i ids'] eqn:Hids; [contradiction |].
  rewrite <- Hids in *.
  rewrite enrich_all_stored.
  2:{ intros row Hrow. apply Hstored.
      apply in_app_or in Hrow as [Hrow | Hrow];
        now apply filter_In in Hrow as [Hrow _]. }
  eexists. cbn [Matches.pending_answer Matches.pending_matches].
  assert (H1 : In (listed_match db m)
                 (List.map (listed_match db)
                    (List.filter
                       (fun m0 => existsb (String.eqb (Match.lost_report_id m0)) ids
                                  && String.eqb (Match.status m0) "pending") tbl))).
  { apply in_map, filter_In. split; [exact Hm |].
    rewrite <- Hlid, (Hown lost Hlost Hlu), Hst. reflexivity. }
  assert (H2 : In (listed_match db m)
                 (List.map (listed_match db)
                    (List.filter
                       (fun m0 => existsb (String.eqb (Match.found_report_id m0)) ids
                                  && String.eqb (Match.status m0) "pending") tbl))).
  { apply in_map, filter_In. split; [exact Hm |].
    rewrite <- Hfid, (Hown found Hfound Hfu), Hst. reflexivity. }
  apply in_split in H1 as (a1 & a2 & Ha).
  apply in_split in H2 as (b1 & b2 & Hb).
  exists a1, (a2 ++ b1)%list, b2.
  split; [reflexivity |].
  split; [apply enrich_stored; now apply Hstored |].
  rewrite List.map_app, Ha, Hb.
  rewrite <- !List.app_assoc. reflexivity.
Qed.

Lemma match_of_own_reports_witness :
  exists resp l1 l2 l3,
    Matches.get_pending_matches (fun _ => "u") [rank_base; rank_c1]
      [Match.mk 1 "base" "c1" 0.9%R "ai_visual" "pending"]
      (Some "u") None None = Ok resp
    /\ Matches.enrich [rank_base; rank_c1]
         (Match.mk 1 "base" "c1" 0.9%R "ai_visual" "pending")
       = Return (listed_match [rank_base; rank_c1]
                   (Match.mk 1 "base" "c1" 0.9%R "ai_visual" "pending"))
    /\ Matches.pending_matches resp
       = (l1 ++ listed_match [rank_base; rank_c1]
                 (Match.mk 1 "base" "c1" 0.9%R "ai_visual" "pending")
             :: l2 ++ listed_match [rank_base; rank_c1]
                        (Match.mk 1 "base" "c1" 0.9%R "ai_visual" "pending")
                   :: l3)%list.
Proof.
  apply (match_of_own_reports_is_listed_twice (fun _ => "u") [rank_base; rank_c1]
           [Match.mk 1 "base" "c1" 0.9%R "ai_visual" "pending"] "u"
           (Match.mk 1 "base" "c1" 0.9%R "ai_visual" "pending")
           rank_base rank_c1);
    try reflexivity; try discriminate; cbn; auto.
  intros row [<- | []]. split; eexists; reflexivity.
Defined.

End PendingFacts.

(** * Further properties of the matches table *)

Section MatchUpdateFacts.
Import Py MatchesTable.
Local Open Scope R_scope.

Lemma update_twice (g : Match.match_row -> Match.match_row) (i : nat)
    (tbl : matches) :
  (forall m, Match.id (g m) = Match.id m) -> (forall m, g (g m) = g m) ->
  update g i (fst (update g i tbl)) = update g i tbl.
Proof.
  intros Hid Hgg. unfold update. cbn [fst]. f_equal.
  - rewrite List.map_map. apply List.map_ext. intros m.
    destruct (Nat.eqb (Match.id m) i) eqn:Hm.
    + now rewrite Hid, Hm, Hgg.
    + now rewrite Hm.
  - induction tbl as [| m tbl IH]; [reflexivity |].
    cbn [List.map List.filter].
    destruct (Nat.eqb (Match.id m) i) eqn:Hm.
    + rewrite Hid, Hm. cbn [List.map]. now rewrite Hgg, IH.
    + rewrite Hm. exact IH.
Qed.

(** X22. Setting the status of a match keeps the table well formed (distinct
    identifiers, one row for a pair, same number of rows), and doing it
    a second time changes nothing and gives the same answer. *)
Theorem update_match_status_is_idempotent (tbl : matches) (match_id : nat)
    (status : string) :
  unique_ids tbl -> unique_pairs tbl ->
  let answer := Matches.update_match_status tbl match_id status in
  unique_ids (snd answer) /\ unique_pairs (snd answer)
  /\ length (snd answer) = length tbl
  /\ Matches.update_match_status (snd answer) match_id status = answer.
Proof.
  intros Hids Hpairs. cbv zeta. unfold Matches.update_match_status.
  destruct (negb _) eqn:Hv; cbn [snd].
  - auto.
  - pose proof (update_twice (Matches.set_status status) match_id tbl
                  (fun m => eq_refl) (fun m => eq_refl)) as Htwice.
    pose proof (update_unique_ids (Matches.set_status status) match_id tbl
                  (fun m => eq_refl) Hids) as Hi.
    pose proof (update_unique_pairs (Matches.set_status status) match_id tbl
                  (fun m _ _ => conj eq_refl eq_refl) Hpairs) as Hp.
    assert (Hlen : length (fst (update (Matches.set_status status) match_id tbl))
                   = length tbl)
      by (unfold update; cbn [fst]; apply length_map).
    destruct (update (Matches.set_status status) match_id tbl) as [tbl' data].
    cbn [fst] in *.
    destruct data as [| row data]; cbn [snd]; rewrite Htwice; auto.
Qed.

Lemma update_match_status_is_idempotent_witness :
  let answer := Matches.update_match_status one_match 1 "accepted" in
  unique_ids (snd answer) /\ unique_pairs (snd answer)
  /\ length (snd answer) = length one_match
  /\ Matches.update_match_status (snd answer) 1 "accepted" = answer.
Proof.
  apply update_match_status_is_idempotent.
  - repeat constructor. intros H. now apply not_elem_of_nil in H.
  - intros l f. unfold one_match, select_pair. cbn [List.filter].
    destruct (_ && _); cbn; lia.
Defined.

End MatchUpdateFacts.

Section SavingMoreFacts.
Import Py MatchesTable.
Context {builtins : Builtins}.
Local Open Scope R_scope.

Lemma save_direct_match_unique_ids (report_id report_type : string)
    (tbl : matches) (x : string * R) :
  unique_ids tbl ->
  unique_ids (DirectMatches.save_direct_match report_id report_type tbl x).
Proof.
  intros Hids. unfold DirectMatches.save_direct_match.
  destruct x as [cid s].
  destruct (Reports.ordered_pair report_id report_type cid) as [l f].
  destruct (select_pair l f tbl) as [| existing rest].
  - now apply insert_unique_ids.
  - destruct (Rgt_dec s (Match.similarity_score existing)); [| exact Hids].
    now apply update_unique_ids.
Qed.

Lemma save_direct_match_keeps_rows (report_id report_type : string)
    (tbl : matches) (x : string * R) (m : Match.match_row) :
  unique_ids tbl -> In m tbl ->
  exists m', In m' (DirectMatches.save_direct_match report_id report_type tbl x)
             /\ Match.id m' = Match.id m
             /\ Match.lost_report_id m' = Match.lost_report_id m
             /\ Match.found_report_id m' = Match.found_report_id m
             /\ Match.similarity_score m <= Match.similarity_score m'.
Proof.
  intros Hids Hm. unfold DirectMatches.save_direct_match.
  destruct x as [cid s].
  destruct (Reports.ordered_pair report_id report_type cid) as [l f].
  destruct (select_pair l f tbl) as [| existing rest] eqn:Hsel.
  - exists m. unfold insert. repeat split; try lra. apply in_or_app. now left.
  - destruct (Rgt_dec s (Match.similarity_score existing)) as [Hgt |].
    + assert (Hex : In existing (select_pair l f tbl)) by (rewrite Hsel; now left).
      apply select_pair_In in Hex as (Hex & _ & _).
      unfold update. cbn [fst].
      destruct (Nat.eqb_spec (Match.id m) (Match.id existing)) as [Heq | Hne].
      * assert (m = existing) by (eapply unique_ids_same_id; eauto). subst m.
        eexists. split.
        { apply in_map_iff. exists existing. split; [| exact Hex].
          rewrite Nat.eqb_refl. reflexivity. }
        cbn. repeat split; lra.
      * exists m. split.
        { apply in_map_iff. exists m. split; [| exact Hm].
          apply Nat.eqb_neq in Hne. now rewrite Hne. }
        repeat split; lra.
    + exists m. repeat split; auto; lra.
Qed.

(** X23. The direct-match finder never removes a stored match and never
    lowers its score: every row of the table is found afterwards under
    its identifier, for the same pair of reports, with a score at least
    as high. *)
Theorem direct_saving_never_lowers_a_score (tbl : matches)
    (report_id report_type : string) (found : list (string * R))
    (m : Match.match_row) :
  unique_ids tbl -> In m tbl ->
  exists m',
    In m' (DirectMatches._save_matches_to_db tbl report_id report_type found)
    /\ Match.id m' = Match.id m
    /\ Match.lost_report_id m' = Match.lost_report_id m
    /\ Match.found_report_id m' = Match.found_report_id m
    /\ Match.similarity_score m <= Match.similarity_score m'.
Proof.
  unfold DirectMatches._save_matches_to_db. revert tbl m.
  induction found as [| x found IH]; intros tbl m Hids Hm.
  - exists m. cbn. repeat split; auto; lra.
  - cbn [fold_left].
    destruct (save_direct_match_keeps_rows report_id report_type tbl x m Hids Hm)
      as (m1 & Hm1 & Hid1 & Hl1 & Hf1 & Hs1).
    destruct (IH _ m1 (save_direct_match_unique_ids report_id report_type tbl x Hids)
                Hm1) as (m2 & Hm2 & Hid2 & Hl2 & Hf2 & Hs2).
    exists m2. repeat split; try congruence. lra.
Qed.

Lemma direct_saving_never_lowers_witness :
  exists m',
    In m' (DirectMatches._save_matches_to_db one_match "L" "lost" [("F"%string, 0.95)])
    /\ Match.id m' = Match.id stored_match
    /\ Match.lost_report_id m' = Match.lost_report_id stored_match
    /\ Match.found_report_id m' = Match.found_report_id stored_match
    /\ Match.similarity_score stored_match <= Match.similarity_score m'.
Proof.
  apply direct_saving_never_lowers_a_score.
  - repeat constructor. intros H. now apply not_elem_of_nil in H.
  - now left.
Defined.

Lemma select_pair_single (l f : string) (tbl : matches) (m : Match.match_row) :
  unique_pairs tbl -> In m tbl ->
  Match.lost_report_id m = l -> Match.found_report_id m = f ->
  select_pair l f tbl = [m].
Proof.
  intros Hp Hm Hl Hf.
  assert (Hin : In m (select_pair l f tbl)) by (apply select_pair_In; auto).
  specialize (Hp l f).
  destruct (select_pair l f tbl) as [| a [| b rest]]; cbn in *;
    [contradiction | | lia].
  destruct Hin as [-> | []]. reflexivity.
Qed.

(** X24. When a saving path meets a stored match again, whatever its status,
    a score that is not higher leaves the table as it is, and a higher
    score puts the match back to [pending] under its identifier. This
    holds for the direct-match finder and, with the score rounded to 4
    decimals, for the discovery that follows an embedding. *)
Theorem rediscovery_resets_the_status (tbl : matches)
    (report_id report_type candidate_id : string) (s : R)
    (m : Match.match_row) :
  unique_pairs tbl -> In m tbl ->
  (Match.lost_report_id m, Match.found_report_id m)
  = Reports.ordered_pair report_id report_type candidate_id ->
  (s <= Match.similarity_score m ->
   DirectMatches._save_matches_to_db tbl report_id report_type [(candidate_id, s)]
   = tbl
   /\ Reports.save_match report_id report_type tbl (candidate_id, s) = tbl)
  /\ (s > Match.similarity_score m ->
      In (Match.mk (Match.id m) (Match.lost_report_id m) (Match.found_report_id m)
            s "ai_visual" "pending")
         (DirectMatches._save_matches_to_db tbl report_id report_type
            [(candidate_id, s)])
      /\ In (Match.mk (Match.id m) (Match.lost_report_id m)
               (Match.found_report_id m) (round s 4) "ai_visual" "pending")
            (Reports.save_match report_id report_type tbl (candidate_id, s))).
Proof.
  intros Hp Hm Hpair.
  unfold DirectMatches._save_matches_to_db. cbn [fold_left].
  unfold DirectMatches.save_direct_match, Reports.save_match.
  rewrite <- Hpair.
  rewrite (select_pair_single _ _ tbl m Hp Hm eq_refl eq_refl).
  split; intros Hs.
  - destruct (Rgt_dec s (Match.similarity_score m)); [lra | now split].
  - destruct (Rgt_dec s (Match.similarity_score m)); [| lra].
    unfold update. cbn [fst]. split.
    + apply in_map_iff. exists m. split; [| exact Hm].
      now rewrite Nat.eqb_refl.
    + apply in_map_iff. exists m. split; [| exact Hm].
      now rewrite Nat.eqb_refl.
Qed.

Lemma save_match_length (report_id report_type : string) (tbl : matches)
    (x : string * R) :
  (length tbl <= length (Reports.save_match report_id report_type tbl x)
   <= S (length tbl))%nat.
Proof.
  unfold Reports.save_match. destruct x as [cid s].
  destruct (Reports.ordered_pair report_id report_type cid) as [l f].
  destruct (select_pair l f tbl) as [| existing rest].
  - unfold insert. rewrite length_app. cbn. lia.
  - destruct (Rgt_dec s (Match.similarity_score existing)); [| lia].
    unfold update. cbn [fst]. rewrite length_map. lia.
Qed.

Lemma fold_save_match_length (report_id report_type : string)
    (found : list (string * R)) (tbl : matches) :
  (length tbl
   <= length (fold_left (Reports.save_match report_id report_type) found tbl)
   <= length tbl + length found)%nat.
Proof.
  revert tbl. induction found as [| x found IH]; intros tbl; cbn [fold_left].
  - cbn. lia.
  - pose proof (save_match_length report_id report_type tbl x).
    pose proof (IH (Reports.save_match report_id report_type tbl x)).
    cbn [length]. lia.
Qed.

(** X25. The discovery of matches never removes a row and adds at most
    [max_matches] rows; it changes nothing when the report is unknown
    or has no embedding. *)
Theorem find_and_save_matches_growth (db : list Report.report)
    (tbl : matches) (report_id : string) (threshold : R) (max_matches : Z) :
  (length tbl
   <= length (Reports.find_and_save_matches db tbl report_id threshold max_matches))%nat
  /\ ((0 <= max_matches)%Z ->
      (length (Reports.find_and_save_matches db tbl report_id threshold max_matches)
       <= length tbl + Z.to_nat max_matches)%nat)
  /\ ((forall r, In r db -> Report.id r = report_id -> Report.embedding r = None) ->
      Reports.find_and_save_matches db tbl report_id threshold max_matches = tbl).
Proof.
  unfold Reports.find_and_save_matches.
  destruct (List.filter (fun r => String.eqb (Report.id r) report_id) db)
    as [| report rest] eqn:Hsel.
  { repeat split; intros; lia. }
  assert (Hrep : In report db /\ Report.id report = report_id).
  { assert (H : In report (List.filter
                             (fun r => String.eqb (Report.id r) report_id) db))
      by (rewrite Hsel; now left).
    apply filter_In in H as [H1 H2]. now apply String.eqb_eq in H2. }
  destruct (Report.embedding report) as [[| x v] |] eqn:Hemb;
    try (repeat split; intros; lia).
  match goal with
  | |- context [fold_left ?f ?found tbl] =>
      pose proof (fold_save_match_length report_id (Report.type report) found tbl)
        as Hlen;
      assert (Hfound : (0 <= max_matches)%Z ->
                       (length found <= Z.to_nat max_matches)%nat)
  end.
  { intros Hk. unfold slice_to.
    destruct (Z.leb_spec 0 max_matches); [| lia].
    rewrite length_firstn. lia. }
  split; [lia | split].
  - intros Hk. specialize (Hfound Hk). lia.
  - intros Hnone. destruct Hrep as [Hin Hid].
    rewrite (Hnone report Hin Hid) in Hemb. discriminate.
Qed.

End SavingMoreFacts.

Section SavingExamples.
Import Py MatchesTable.
Existing Instance ascii_half_even.
Local Open Scope R_scope.

Lemma rediscovery_resets_the_status_witness :
  (0.95 <= Match.similarity_score (Matches.set_status "accepted" stored_match) ->
   DirectMatches._save_matches_to_db [Matches.set_status "accepted" stored_match]
     "L" "lost" [("F"%string, 0.95)]
   = [Matches.set_status "accepted" stored_match]
   /\ Reports.save_match "L" "lost" [Matches.set_status "accepted" stored_match]
        ("F"%string, 0.95)
      = [Matches.set_status "accepted" stored_match])
  /\ (0.95 > Match.similarity_score (Matches.set_status "accepted" stored_match) ->
      In (Match.mk 1 "L" "F" 0.95 "ai_visual" "pending")
         (DirectMatches._save_matches_to_db
            [Matches.set_status "accepted" stored_match] "L" "lost"
            [("F"%string, 0.95)])
      /\ In (Match.mk 1 "L" "F" (round 0.95 4) "ai_visual" "pending")
            (Reports.save_match "L" "lost"
               [Matches.set_status "accepted" stored_match] ("F"%string, 0.95))).
Proof.
  apply (rediscovery_resets_the_status
           [Matches.set_status "accepted" stored_match] "L" "lost" "F" 0.95
           (Matches.set_status "accepted" stored_match)).
  - intros l f. unfold select_pair. cbn [List.filter].
    destruct (_ && _); cbn; lia.
  - now left.
  - reflexivity.
Defined.

End SavingExamples.

(** * Generating the embedding of a new report *)

Section EmbeddingTaskFacts.
Import Py MatchesTable.
Context {builtins : Builtins}.
Local Open Scope R_scope.

Lemma update_reports_ids (f : Report.report -> Report.report)
    (report_id : string) (db : list Report.report) :
  (forall r, Report.id (f r) = Report.id r) ->
  List.map Report.id (fst (Reports.update_reports f report_id db))
  = List.map Report.id db.
Proof.
  intros Hf. unfold Reports.update_reports. cbn [fst].
  rewrite List.map_map. apply List.map_ext. intros r.
  destruct (String.eqb (Report.id r) report_id); auto.
Qed.

(** What the loop keeps from turn [attempt] on: the identifiers of the
    reports, the shape of the matches table, and pauses of [2 ^ a]
    seconds for turns [a] before the last one only. *)
Lemma embedding_attempts_keep (outcome : nat -> Reports.attempt_outcome)
    (report_id : string) (remaining attempt : nat)
    (db : list Report.report) (tbl : matches) :
  (attempt + remaining <= Reports.max_retries)%nat ->
  let result := Reports.embedding_attempts outcome report_id remaining attempt db tbl in
  List.map Report.id (snd (fst result)) = List.map Report.id db
  /\ (unique_ids tbl /\ unique_pairs tbl ->
      unique_ids (snd result) /\ unique_pairs (snd result))
  /\ StronglySorted lt (fst (fst result))
  /\ Forall (fun s => exists a, (attempt <= a < Reports.max_retries - 1)%nat
                                /\ s = (2 ^ a)%nat) (fst (fst result)).
Proof.
  cbv zeta. revert attempt db tbl.
  induction remaining as [| remaining IH]; intros attempt db tbl Hle.
  - cbn. split; [reflexivity |]. split; [tauto |]. split; constructor.
  - cbn [Reports.embedding_attempts].
    assert (Hnext : (S attempt + remaining <= Reports.max_retries)%nat) by lia.
    assert (Hcont : forall db1,
              List.map Report.id db1 = List.map Report.id db ->
              let r := Reports.embedding_attempts outcome report_id remaining
                         (S attempt) db1 tbl in
              List.map Report.id (snd (fst r)) = List.map Report.id db
              /\ (unique_ids tbl /\ unique_pairs tbl ->
                  unique_ids (snd r) /\ unique_pairs (snd r))
              /\ StronglySorted lt (fst (fst r))
              /\ Forall (fun s => exists a,
                           (attempt <= a < Reports.max_retries - 1)%nat
                           /\ s = (2 ^ a)%nat) (fst (fst r))).
    { intros db1 Hdb. cbv zeta.
      destruct (IH (S attempt) db1 tbl Hnext) as (H1 & H2 & H3 & H4).
      split; [congruence |]. split; [exact H2 |]. split; [exact H3 |].
      eapply List.Forall_impl; [| exact H4].
      intros s (a & Ha & ->). exists a. split; [lia | reflexivity]. }
    assert (Hsleep : forall db1,
              List.map Report.id db1 = List.map Report.id db ->
              (attempt < Reports.max_retries - 1)%nat ->
              let r := (let '(slept, db2, tbl2) :=
                          Reports.embedding_attempts outcome report_id remaining
                            (S attempt) db1 tbl in
                        ((2 ^ attempt)%nat :: slept, db2, tbl2)) in
              List.map Report.id (snd (fst r)) = List.map Report.id db
              /\ (unique_ids tbl /\ unique_pairs tbl ->
                  unique_ids (snd r) /\ unique_pairs (snd r))
              /\ StronglySorted lt (fst (fst r))
              /\ Forall (fun s => exists a,
                           (attempt <= a < Reports.max_retries - 1)%nat
                           /\ s = (2 ^ a)%nat) (fst (fst r))).
    { intros db1 Hdb Hlt. cbv zeta.
      destruct (IH (S attempt) db1 tbl Hnext) as (H1 & H2 & H3 & H4).
      destruct (Reports.embedding_attempts outcome report_id remaining
                  (S attempt) db1 tbl) as [[slept db2] tbl2].
      cbn [fst snd] in *.
      split; [congruence |]. split; [exact H2 |]. split.
      - constructor; [exact H3 |].
        eapply List.Forall_impl; [| exact H4].
        intros s (a & Ha & ->). cbv beta.
        apply Nat.pow_lt_mono_r; lia.
      - constructor.
        + exists attempt. split; [lia | reflexivity].
        + eapply List.Forall_impl; [| exact H4].
          intros s (a & Ha & ->). exists a. split; [lia | reflexivity]. }
    destruct (outcome attempt) as [| | vec].
    + destruct (Nat.eqb_spec attempt (Reports.max_retries - 1)) as [Hlast | Hlast].
      * now apply Hcont.
      * apply Hsleep; [reflexivity | lia].
    + destruct (Nat.ltb_spec attempt (Reports.max_retries - 1)) as [Hlt | Hge].
      * now apply Hsleep.
      * now apply Hcont.
    + pose proof (update_reports_ids (Reports.set_embedding vec) report_id db
                    (fun r => eq_refl)) as Hids.
      destruct (Reports.update_reports (Reports.set_embedding vec) report_id db)
        as [db1 data].
      cbn [fst] in Hids.
      destruct data as [| row data].
      * now apply Hcont.
      * cbn [fst snd]. split; [exact Hids |]. split.
        -- apply find_and_save_matches_keeps_invariant.
        -- split; constructor.
Qed.

(** X26. The background task that embeds the photo of a report makes at most
    three attempts; it pauses only between attempts, 1 second after the
    first and 2 seconds after the second, so at most 3 seconds in all;
    it keeps the identifiers of the reports and the shape of the matches
    table (distinct identifiers, one row for a pair). *)
Theorem embedding_task_backs_off (outcome outcome' : nat -> Reports.attempt_outcome)
    (report_id : string) (db : list Report.report) (tbl : matches) :
  let result := Reports.generate_and_save_embedding outcome report_id db tbl in
  In (fst (fst result)) [[]; [1]; [2]; [1; 2]]%nat
  /\ List.map Report.id (snd (fst result)) = List.map Report.id db
  /\ (unique_ids tbl /\ unique_pairs tbl ->
      unique_ids (snd result) /\ unique_pairs (snd result))
  /\ ((forall a, (a < 3)%nat -> outcome' a = outcome a) ->
      Reports.generate_and_save_embedding outcome' report_id db tbl = result).
Proof.
  cbv zeta. unfold Reports.generate_and_save_embedding.
  destruct (embedding_attempts_keep outcome report_id Reports.max_retries 0 db tbl)
    as (H1 & H2 & H3 & H4); [unfold Reports.max_retries; lia |].
  split; [| split; [exact H1 | split; [exact H2 |]]].
  - destruct (fst (fst (Reports.embedding_attempts outcome report_id
                          Reports.max_retries 0 db tbl))) as [| s1 slept].
    { now left. }
    unfold Reports.max_retries in H4. cbn [Nat.sub] in H4.
    assert (Hval : forall s, (exists a, (0 <= a < 2)%nat /\ s = (2 ^ a)%nat) ->
                             s = 1%nat \/ s = 2%nat).
    { intros s (a & Ha & ->).
      assert (a = 0 \/ a = 1)%nat as [-> | ->] by lia; cbn; auto. }
    inversion H4 as [| ? ? Hs1 Hrest]; subst.
    inversion H3 as [| ? ? Hsorted Hall]; subst.
    apply Hval in Hs1.
    destruct slept as [| s2 slept].
    { destruct Hs1 as [-> | ->]; cbn; auto. }
    inversion Hrest as [| ? ? Hs2 Hrest']; subst.
    inversion Hall as [| ? ? Hlt Hall']; subst.
    apply Hval in Hs2.
    destruct slept as [| s3 slept].
    { destruct Hs1 as [-> | ->], Hs2 as [-> | ->]; try lia. cbn. auto. }
    exfalso.
    inversion Hrest' as [| ? ? Hs3 _]; subst. apply Hval in Hs3.
    inversion Hsorted as [| ? ? _ Hall2]; subst.
    inversion Hall2 as [| ? ? Hlt2 _]; subst.
    lia.
  - intros Hsame.
    assert (Hgen : forall remaining attempt db0 tbl0,
              (attempt + remaining <= 3)%nat ->
              Reports.embedding_attempts outcome' report_id remaining attempt db0 tbl0
              = Reports.embedding_attempts outcome report_id remaining attempt db0 tbl0).
    { induction remaining as [| remaining IH]; intros attempt db0 tbl0 Hle;
        [reflexivity |].
      cbn [Reports.embedding_attempts].
      rewrite Hsame by lia.
      destruct (outcome attempt) as [| | vec].
      - now rewrite !IH by lia.
      - now rewrite !IH by lia.
      - destruct (Reports.update_reports _ _ _) as [db1 [| row data]];
          [now rewrite IH by lia | reflexivity]. }
    apply Hgen. unfold Reports.max_retries. lia.
Qed.

End EmbeddingTaskFacts.

(** * The direct-match finder *)

Section CosineFacts.
Import Py.
Local Open Scope R_scope.

Lemma dot_product_comm (u v : list R) :
  DirectMatchSearch.dot_product u v = DirectMatchSearch.dot_product v u.
Proof.
  unfold DirectMatchSearch.dot_product. revert v.
  induction u as [| x u IH]; intros [| y v]; cbn; try reflexivity.
  rewrite IH. lra.
Qed.

Lemma dot_product_self (u : list R) :
  DirectMatchSearch.dot_product u u
  = fold_right Rplus 0 (List.map (fun x => x ^ 2) u).
Proof.
  unfold DirectMatchSearch.dot_product.
  induction u as [| x u IH]; cbn; [reflexivity |]. rewrite IH. cbn. lra.
Qed.

Lemma square_bound (a b q : R) :
  0 <= a -> 0 <= b -> q ^ 2 <= 4 * a * b -> q <= a + b.
Proof.
  intros Ha Hb Hq.
  destruct (Rle_lt_dec q (a + b)) as [Hle | Hlt]; [exact Hle | exfalso].
  assert (H4 : 0 < (q - (a + b)) * (q + (a + b)))
    by (apply Rmult_lt_0_compat; lra).
  assert (H5 : 0 <= (a - b) ^ 2) by apply pow2_ge_0.
  nra.
Qed.

Lemma cauchy_schwarz (u v : list R) :
  DirectMatchSearch.dot_product u v ^ 2
  <= fold_right Rplus 0 (List.map (fun x => x ^ 2) u)
     * fold_right Rplus 0 (List.map (fun x => x ^ 2) v).
Proof.
  unfold DirectMatchSearch.dot_product. revert v.
  induction u as [| x u IH]; intros v.
  - cbn. lra.
  - destruct v as [| y v].
    + cbn. lra.
    + cbn [combine List.map fold_right fst snd].
      specialize (IH v).
      pose proof (sum_squares_nonneg u) as HA.
      pose proof (sum_squares_nonneg v) as HB.
      set (d := fold_right Rplus 0 (List.map (fun p => fst p * snd p) (combine u v))) in *.
      set (A := fold_right Rplus 0 (List.map (fun x => x ^ 2) u)) in *.
      set (B := fold_right Rplus 0 (List.map (fun x => x ^ 2) v)) in *.
      assert (Hkey : 2 * (x * y * d) <= x ^ 2 * B + y ^ 2 * A).
      { apply square_bound.
        - apply Rmult_le_pos; [apply pow2_ge_0 | exact HB].
        - apply Rmult_le_pos; [apply pow2_ge_0 | exact HA].
        - replace ((2 * (x * y * d)) ^ 2) with (4 * (x ^ 2 * y ^ 2) * d ^ 2) by ring.
          replace (4 * (x ^ 2 * B) * (y ^ 2 * A))
            with (4 * (x ^ 2 * y ^ 2) * (A * B)) by ring.
          apply Rmult_le_compat_l; [| exact IH].
          apply Rmult_le_pos; [lra |]. apply Rmult_le_pos; apply pow2_ge_0. }
      nra.
Qed.

Lemma l2_norm_square (u : list R) :
  Embeddings.l2_norm u * Embeddings.l2_norm u
  = fold_right Rplus 0 (List.map (fun x => x ^ 2) u).
Proof. unfold Embeddings.l2_norm. apply sqrt_sqrt, sum_squares_nonneg. Qed.

Lemma cosine_bounds (u v : list R) (s : R) :
  DirectMatchSearch.cosine_similarity u v = Some s -> -1 <= s <= 1.
Proof.
  unfold DirectMatchSearch.cosine_similarity.
  destruct (negb _); [discriminate |].
  destruct (Req_dec_T _ 0) as [| Hne]; [discriminate |]. intros [= <-].
  pose proof (l2_norm_nonneg u) as Hu. pose proof (l2_norm_nonneg v) as Hv.
  pose proof (cauchy_schwarz u v) as Hcs.
  rewrite <- (l2_norm_square u), <- (l2_norm_square v) in Hcs.
  set (d := DirectMatchSearch.dot_product u v) in *.
  set (a := Embeddings.l2_norm u) in *. set (b := Embeddings.l2_norm v) in *.
  assert (Hp : 0 < a * b).
  { destruct (Rmult_le_pos a b Hu Hv) as [H | H]; [exact H | congruence]. }
  assert (Hd : - (a * b) <= d <= a * b).
  { split.
    - destruct (Rle_lt_dec (- (a * b)) d) as [H | H]; [exact H | exfalso].
      assert (0 < (- d - a * b) * (- d + a * b))
        by (apply Rmult_lt_0_compat; lra).
      nra.
    - destruct (Rle_lt_dec d (a * b)) as [H | H]; [exact H | exfalso].
      assert (0 < (d - a * b) * (d + a * b))
        by (apply Rmult_lt_0_compat; lra).
      nra. }
  split.
  - apply Rmult_le_reg_r with (a * b); [exact Hp |].
    unfold Rdiv. rewrite Rmult_assoc, Rinv_l by lra. lra.
  - apply Rmult_le_reg_r with (a * b); [exact Hp |].
    unfold Rdiv. rewrite Rmult_assoc, Rinv_l by lra. lra.
Qed.

(** X27. The cosine similarity of two embeddings, when it is defined (same
    dimension, no null vector), lies between -1 and 1 and does not
    depend on the order of the two vectors; that of a vector with itself
    is 1. *)
Theorem cosine_similarity_is_bounded (u v : list R) (s : R) :
  DirectMatchSearch.cosine_similarity u v = Some s ->
  -1 <= s <= 1
  /\ DirectMatchSearch.cosine_similarity v u = Some s
  /\ DirectMatchSearch.cosine_similarity u u = Some 1.
Proof.
  intros H. split; [now apply cosine_bounds in H |].
  unfold DirectMatchSearch.cosine_similarity in *.
  destruct (Nat.eqb_spec (length v) (length u)) as [Hlen |]; [| discriminate].
  cbn [negb] in H.
  destruct (Req_dec_T _ 0) as [| Hne]; [discriminate |]. injection H as <-.
  split.
  - rewrite Hlen, Nat.eqb_refl. cbn [negb].
    rewrite (Rmult_comm (Embeddings.l2_norm v)).
    destruct (Req_dec_T _ 0); [contradiction |].
    now rewrite dot_product_comm.
  - rewrite Nat.eqb_refl. cbn [negb].
    assert (Hu : Embeddings.l2_norm u <> 0).
    { intros H0. apply Hne. rewrite H0. ring. }
    destruct (Req_dec_T _ 0) as [H0 | _].
    { exfalso. apply Rmult_integral in H0. tauto. }
    rewrite dot_product_self, <- l2_norm_square. f_equal. now field.
Qed.

Lemma unit_norm : Embeddings.l2_norm [1] = 1.
Proof.
  unfold Embeddings.l2_norm. cbn.
  replace (1 * (1 * 1) + 0) with 1 by ring. apply sqrt_1.
Qed.

Lemma cosine_similarity_is_bounded_witness :
  -1 <= 1 * 1 / (1 * 1) <= 1
  /\ DirectMatchSearch.cosine_similarity [1] [1] = Some (1 * 1 / (1 * 1))
  /\ DirectMatchSearch.cosine_similarity [1] [1] = Some 1.
Proof.
  apply (cosine_similarity_is_bounded [1] [1]).
  unfold DirectMatchSearch.cosine_similarity, DirectMatchSearch.dot_product.
  cbn [length Nat.eqb negb combine List.map fold_right fst snd].
  rewrite unit_norm.
  destruct (Req_dec_T (1 * 1) 0); [lra |]. f_equal. lra.
Defined.

End CosineFacts.

Section FinderFacts.
Import Py MatchesTable.
Context {builtins : Builtins}.
Local Open Scope R_scope.

Lemma single_inv {A : Type} (rows : list A) (row : A) :
  single rows = Return row <-> rows = [row].
Proof.
  destruct rows as [| x [| y rows]]; cbn; split; try discriminate;
    intros [= ->]; reflexivity.
Qed.

Lemma firstn_In {A : Type} (n : nat) (l : list A) (x : A) :
  In x (firstn n l) -> In x l.
Proof.
  revert n. induction l as [| y l IH]; intros [| n]; cbn; try tauto.
  intros [-> | H]; [now left | right; eauto].
Qed.

Lemma firstn_sorted {A : Type} (le : A -> A -> Prop) (n : nat) (l : list A) :
  StronglySorted le l -> StronglySorted le (firstn n l).
Proof.
  intros H. revert n. induction H as [| x l Hs IH Hall]; intros [| n]; cbn;
    try constructor.
  - apply IH.
  - rewrite List.Forall_forall in *. intros y Hy. apply Hall.
    eapply firstn_In. exact Hy.
Qed.

Lemma similarity_ge_total (x y : string * R) :
  Reports.similarity_ge x y \/ Reports.similarity_ge y x.
Proof. unfold Reports.similarity_ge. lra. Qed.

Lemma similarity_ge_trans (x y z : string * R) :
  Reports.similarity_ge x y -> Reports.similarity_ge y z ->
  Reports.similarity_ge x z.
Proof. unfold Reports.similarity_ge. lra. Qed.

Lemma scored_candidate_spec (report_id : string) (base_vec : list R)
    (threshold : R) (c : Report.report) (id : string) (s : R) :
  DirectMatchSearch.scored_candidate report_id base_vec threshold c = Some (id, s) ->
  id = Report.id c /\ id <> report_id
  /\ exists v sim,
       Report.embedding c = Some v
       /\ DirectMatchSearch.cosine_similarity base_vec v = Some sim
       /\ threshold <= sim <= 1 /\ s = round sim 4.
Proof.
  unfold DirectMatchSearch.scored_candidate.
  destruct (String.eqb_spec (Report.id c) report_id) as [| Hne]; [discriminate |].
  destruct (Report.embedding c) as [[| x v] |]; try discriminate.
  destruct (DirectMatchSearch.cosine_similarity base_vec (x :: v)) as [sim |] eqn:Hcos;
    [| discriminate].
  destruct (Rge_dec sim threshold) as [Hge |]; [| discriminate].
  intros [= <- <-]. split; [reflexivity |]. split; [exact Hne |].
  exists (x :: v), sim. pose proof (cosine_bounds _ _ _ Hcos).
  repeat split; auto; lra.
Qed.

(** X28. An answer of the direct-match finder lists at most [top_k] matches,
    [top_k] being at most 50, by descending score. Every match is
    another report than the base one, active, of the opposite type and,
    when the base report names a species, of that species; its score is
    the cosine similarity of the two embeddings, which reaches the
    threshold, rounded to 4 decimals. The matches table keeps its shape
    (distinct identifiers, one row for a pair). *)
Theorem find_matches_answer_is_sound (db : list Report.report)
    (tbl tbl' : matches) (report_id : string) (match_threshold : R)
    (top_k : Z) (resp : DirectMatchSearch.find_response) :
  DirectMatchSearch.find_matches_for_report db tbl report_id match_threshold top_k
  = (Ok resp, tbl') ->
  (length (DirectMatchSearch.found_matches resp) <= Z.to_nat top_k <= 50)%nat
  /\ StronglySorted (fun x y => snd y <= snd x)
       (DirectMatchSearch.found_matches resp)
  /\ (exists base base_vec,
        List.filter (fun r => String.eqb (Report.id r) report_id) db = [base]
        /\ Report.embedding base = Some base_vec
        /\ forall id s, In (id, s) (DirectMatchSearch.found_matches resp) ->
             id <> report_id
             /\ exists c v sim,
                  In c db /\ Report.id c = id
                  /\ Report.status c = "active"%string
                  /\ Report.type c = Reports.opposite_type (Report.type base)
                  /\ (Report.species base <> EmptyString ->
                      Report.species c = Report.species base)
                  /\ Report.embedding c = Some v
                  /\ DirectMatchSearch.cosine_similarity base_vec v = Some sim
                  /\ match_threshold <= sim <= 1
                  /\ s = round sim 4)
  /\ (unique_ids tbl /\ unique_pairs tbl -> unique_ids tbl' /\ unique_pairs tbl').
Proof.
  unfold DirectMatchSearch.find_matches_for_report.
  destruct (negb _) eqn:Hq; [discriminate |].
  apply negb_false_iff in Hq. rewrite !andb_true_iff in Hq.
  destruct Hq as [[[_ _] Hk1] Hk2].
  apply Z.leb_le in Hk1, Hk2.
  destruct (single _) as [base |] eqn:Hbase; [| discriminate].
  apply single_inv in Hbase.
  destruct (Report.embedding base) as [[| x0 v0] |] eqn:Hemb; try discriminate.
  set (all := List.filter
                (fun r => String.eqb (Report.type r)
                            (Reports.opposite_type (Report.type base))
                          && Reports.is_active r
                          && match Report.embedding r with
                             | Some _ => true
                             | None => false
                             end) db).
  assert (Hall : forall c, In c all ->
            In c db /\ Report.status c = "active"%string
            /\ Report.type c = Reports.opposite_type (Report.type base)).
  { intros c Hc. apply filter_In in Hc as [Hc Hf].
    rewrite !andb_true_iff in Hf. destruct Hf as [[Hty Hact] _].
    apply String.eqb_eq in Hty. apply is_active_spec in Hact. auto. }
  destruct all as [| c0 rest] eqn:Hcands.
  { intros [= <- <-]. cbn [DirectMatchSearch.found_matches].
    split; [cbn; lia |]. split; [constructor |]. split; [| tauto].
    exists base, (x0 :: v0). repeat split; auto; contradiction. }
  rewrite <- Hcands in *. clear Hcands c0 rest.
  set (cands := if String.eqb (Report.species base) EmptyString then all
                else List.filter _ all).
  assert (Hcand : forall c, In c cands ->
            In c all /\ (Report.species base <> EmptyString ->
                         Report.species c = Report.species base)).
  { intros c Hc. unfold cands in Hc.
    destruct (String.eqb_spec (Report.species base) EmptyString) as [He | Hne].
    - split; [exact Hc | contradiction].
    - apply filter_In in Hc as [Hc Hs]. apply String.eqb_eq in Hs. auto. }
  intros [= <- <-]. cbn [DirectMatchSearch.found_matches].
  unfold slice_to. destruct (Z.leb_spec 0 top_k); [| lia].
  split; [| split; [| split]].
  - rewrite length_firstn. lia.
  - apply firstn_sorted.
    apply (sort_by_sorted Reports.similarity_ge Reports.similarity_ge_dec
             similarity_ge_total similarity_ge_trans).
  - exists base, (x0 :: v0). split; [exact Hbase |]. split; [exact Hemb |].
    intros id s Hin.
    apply firstn_In, sort_by_In, In_omap in Hin as (c & Hc & Hs).
    apply scored_candidate_spec
      in Hs as (-> & Hne & v & sim & Hv & Hcos & Hth & ->).
    split; [exact Hne |].
    apply Hcand in Hc as [Hc Hsp]. apply Hall in Hc as (Hdb & Hact & Hty).
    exists c, v, sim. repeat split; auto; lra.
  - apply _save_matches_to_db_keeps_invariant.
Qed.

(** X29. A request that the direct-match finder refuses leaves the matches
    table as it was; the refusals are 422 for a threshold outside [0, 1]
    or a [top_k] outside 1..50, 500 for a report that is not stored
    exactly once, and 400 for a report without embedding. The finder
    never answers 404: the read of an unknown report raises. *)
Theorem find_matches_refusals_change_nothing (db : list Report.report)
    (tbl tbl' : matches) (report_id : string) (match_threshold : R)
    (top_k : Z) (code : nat) (detail : string) :
  DirectMatchSearch.find_matches_for_report db tbl report_id match_threshold top_k
  = (HTTPException code detail, tbl') ->
  tbl' = tbl
  /\ (code = 422%nat
      /\ ~ (0 <= match_threshold <= 1 /\ (1 <= top_k <= 50)%Z)
      \/ code = 500%nat /\ ~ stored_once db report_id
      \/ code = 400%nat
         /\ exists base,
              List.filter (fun r => String.eqb (Report.id r) report_id) db = [base]
              /\ (Report.embedding base = None \/ Report.embedding base = Some []))
  /\ code <> 404%nat.
Proof.
  unfold DirectMatchSearch.find_matches_for_report.
  destruct (negb _) eqn:Hq.
  { intros [= <- _ <-]. split; [reflexivity |]. split; [| discriminate].
    left. split; [reflexivity |].
    intros [[H0 H1] [Hk1 Hk2]].
    apply Rleb_true in H0, H1. apply Z.leb_le in Hk1, Hk2.
    rewrite H0, H1, Hk1, Hk2 in Hq. discriminate. }
  destruct (single _) as [base | e] eqn:Hbase.
  2:{ intros [= <- _ <-]. split; [reflexivity |]. split; [| discriminate].
      right. left. split; [reflexivity |].
      intros [r Hr]. rewrite Hr in Hbase. discriminate. }
  apply single_inv in Hbase.
  destruct (Report.embedding base) as [[| x v] |] eqn:Hemb.
  - intros [= <- _ <-]. split; [reflexivity |]. split; [| discriminate].
    right. right. split; [reflexivity |]. exists base. auto.
  - clear Hbase. destruct (List.filter _ db); discriminate.
  - intros [= <- _ <-]. split; [reflexivity |]. split; [| discriminate].
    right. right. split; [reflexivity |]. exists base. auto.
Qed.

End FinderFacts.

Section FinderExamples.
Import Py MatchesTable.
Existing Instance ascii_half_even.
Local Open Scope R_scope.

Lemma find_matches_answer_is_sound_witness :
  let db := [Reports.set_embedding [1] rank_base;
             Reports.set_embedding [1] rank_c1] in
  let score :=
    round (DirectMatchSearch.dot_product [1] [1]
           / (Embeddings.l2_norm [1] * Embeddings.l2_norm [1])) 4 in
  let resp :=
    {| DirectMatchSearch.found_matches := [("c1"%string, score)];
       DirectMatchSearch.total_candidates := 1;
       DirectMatchSearch.total_above_threshold := Some 1%nat;
       DirectMatchSearch.returned := Some 1%nat |} in
  let tbl' := [Match.mk 1 "base" "c1" score "ai_visual" "pending"] in
  (length (DirectMatchSearch.found_matches resp) <= Z.to_nat 10 <= 50)%nat
  /\ StronglySorted (fun x y => snd y <= snd x)
       (DirectMatchSearch.found_matches resp)
  /\ (exists base base_vec,
        List.filter (fun r => String.eqb (Report.id r) "base") db = [base]
        /\ Report.embedding base = Some base_vec
        /\ forall id s, In (id, s) (DirectMatchSearch.found_matches resp) ->
             id <> "base"%string
             /\ exists c v sim,
                  In c db /\ Report.id c = id
                  /\ Report.status c = "active"%string
                  /\ Report.type c = Reports.opposite_type (Report.type base)
                  /\ (Report.species base <> EmptyString ->
                      Report.species c = Report.species base)
                  /\ Report.embedding c = Some v
                  /\ DirectMatchSearch.cosine_similarity base_vec v = Some sim
                  /\ 0.5 <= sim <= 1
                  /\ s = round sim 4)
  /\ (unique_ids [] /\ unique_pairs [] -> unique_ids tbl' /\ unique_pairs tbl').
Proof.
  cbv zeta.
  apply (find_matches_answer_is_sound
           [Reports.set_embedding [1] rank_base; Reports.set_embedding [1] rank_c1]
           [] _ "base" 0.5 10).
  unfold DirectMatchSearch.find_matches_for_report, Rleb.
  destruct (Rle_dec 0 0.5); [| lra]. destruct (Rle_dec 0.5 1); [| lra].
  cbn [andb negb Z.leb Z.compare Pos.compare Pos.compare_cont List.filter
       single Reports.set_embedding rank_base rank_c1 point_report Report.id
       Report.embedding Report.type Report.species Report.status
       String.eqb Ascii.eqb Bool.eqb Reports.opposite_type
       Reports.is_active omap list_omap DirectMatchSearch.scored_candidate].
  assert (Hcos : DirectMatchSearch.cosine_similarity [1] [1]
                 = Some (DirectMatchSearch.dot_product [1] [1]
                         / (Embeddings.l2_norm [1] * Embeddings.l2_norm [1]))).
  { unfold DirectMatchSearch.cosine_similarity.
    cbn [length Nat.eqb negb]. rewrite unit_norm.
    destruct (Req_dec_T (1 * 1) 0); [lra | reflexivity]. }
  rewrite Hcos.
  destruct (Rge_dec _ 0.5) as [_ | Hn].
  2:{ exfalso. apply Hn. rewrite unit_norm.
      unfold DirectMatchSearch.dot_product. cbn. lra. }
  reflexivity.
Defined.

(** An unknown report is answered 500, and the table is kept. *)
Lemma find_matches_refusals_witness :
  one_match = one_match
  /\ (500%nat = 422%nat
      /\ ~ (0 <= 0.5 <= 1 /\ (1 <= 10 <= 50)%Z)
      \/ 500%nat = 500%nat /\ ~ stored_once rank_db "nobody"
      \/ 500%nat = 400%nat
         /\ exists base,
              List.filter (fun r => String.eqb (Report.id r) "nobody") rank_db
              = [base]
              /\ (Report.embedding base = None \/ Report.embedding base = Some []))
  /\ 500%nat <> 404%nat.
Proof.
  apply (find_matches_refusals_change_nothing rank_db one_match one_match
           "nobody" 0.5 10 500 "Error buscando coincidencias: APIError").
  unfold DirectMatchSearch.find_matches_for_report, Rleb.
  destruct (Rle_dec 0 0.5); [| lra]. destruct (Rle_dec 0.5 1); [| lra].
  reflexivity.
Defined.

End FinderExamples.

(** * The embedding endpoints and the remote backend *)

Section EndpointFacts.
Import Py.
Local Open Scope string_scope.

(** X30. The two embedding endpoints raise their client errors inside the
    [try] that turns every exception into a 500: an empty upload is
    answered 500 by [generate_embedding], never 400, and a report that
    the remote procedure does not find is answered 500 by
    [index_report_embedding], never 404. Only an image that cannot be
    embedded is answered 400, by the latter. *)
Theorem embedding_endpoints_hide_client_errors
    (image_bytes_to_vec : string -> py (list R))
    (update_report_embedding : string -> list R -> py bool)
    (report_id image_bytes : string) :
  status_code_of (EmbeddingsSupabase.generate_embedding image_bytes_to_vec
                    EmptyString) = 500%nat
  /\ In (status_code_of
           (EmbeddingsSupabase.generate_embedding image_bytes_to_vec image_bytes))
        [200; 500]%nat
  /\ In (status_code_of
           (EmbeddingsSupabase.index_report_embedding image_bytes_to_vec
              update_report_embedding report_id image_bytes))
        [200; 400; 500]%nat
  /\ (forall vec,
        image_bytes_to_vec image_bytes = Return vec ->
        update_report_embedding report_id vec = Return false ->
        status_code_of
          (EmbeddingsSupabase.index_report_embedding image_bytes_to_vec
             update_report_embedding report_id image_bytes) = 500%nat)
  /\ (status_code_of
        (EmbeddingsSupabase.index_report_embedding image_bytes_to_vec
           update_report_embedding report_id image_bytes) = 400%nat
      <-> exists e, image_bytes_to_vec image_bytes = Raise e).
Proof.
  unfold EmbeddingsSupabase.generate_embedding,
    EmbeddingsSupabase.index_report_embedding.
  split; [reflexivity |]. split; [| split; [| split]].
  - destruct (String.eqb image_bytes EmptyString); [cbn; auto |].
    destruct (image_bytes_to_vec image_bytes); cbn; auto.
  - destruct (image_bytes_to_vec image_bytes) as [vec | e]; [| cbn; auto].
    destruct (update_report_embedding report_id vec) as [[] | e]; cbn; auto.
  - intros vec -> Hupd. cbn [bind]. now rewrite Hupd.
  - destruct (image_bytes_to_vec image_bytes) as [vec | e].
    + split; [| intros [e He]; discriminate].
      destruct (update_report_embedding report_id vec) as [[] | e]; cbn;
        discriminate.
    + split; [intros _; now exists e | reflexivity].
Qed.

End EndpointFacts.

Section RemoteFacts.
Import Py Embeddings.
Local Open Scope R_scope.

(** The remote backend answers nothing for an image that fails the
    check, whatever the endpoint would answer; it sends at most two
    requests, the second one only after a 503, and after a second 503
    it answers nothing. *)
Theorem remote_embedding_retries_once (image_ok : string -> bool)
    (post post' : nat -> py (nat * list R)) (image_bytes : string) :
  (image_ok image_bytes = false ->
   generate_embedding_from_bytes image_ok post image_bytes = None)
  /\ (post 0%nat = post' 0%nat -> post 1%nat = post' 1%nat ->
      generate_embedding_from_bytes image_ok post image_bytes
      = generate_embedding_from_bytes image_ok post' image_bytes)
  /\ (forall code body,
        post 0%nat = Return (code, body) -> code <> 503%nat ->
        post' 0%nat = post 0%nat ->
        generate_embedding_from_bytes image_ok post image_bytes
        = generate_embedding_from_bytes image_ok post' image_bytes)
  /\ (forall body body',
        post 0%nat = Return (503%nat, body) ->
        post 1%nat = Return (503%nat, body') ->
        generate_embedding_from_bytes image_ok post image_bytes = None).
Proof.
  unfold generate_embedding_from_bytes.
  split; [| split; [| split]].
  - intros ->. reflexivity.
  - intros <- <-. reflexivity.
  - intros code body H0 Hcode ->. rewrite H0.
    apply Nat.eqb_neq in Hcode. now rewrite Hcode.
  - intros body body' -> ->. cbn [Nat.eqb negb].
    destruct (negb (image_ok image_bytes)); reflexivity.
Qed.

End RemoteFacts.
